(** * Client-side test harness of the VS Code LM proxy: a shallow embedding

    The repository holds Python scripts that drive an external HTTP server:
    [test_adk.py], [adk_demo/test_assistants.py],
    [adk_demo/tests/test_sessions.py], [adk_demo/tests/test_thread_isolation.py],
    [adk_demo/tests/test_agent.py], [adk_demo/tests/google_adk/test_complex_agents.py]
    and [examples/adk_image_example.py].

    Modelling choices.
    - A Python [str] is a Rocq [string]; one character is one code point, so
      the model covers the texts whose code points are below 256.
    - A value produced by [json.loads] (or written as a literal in a script)
      is a [value]; a [dict] is an association list in insertion order.
    - A script runs in the monad [M]: it threads the state of the outside
      world (the server) and either returns or raises a Python exception.
    - The standard library ([json], [urllib], [requests]) and the server are
      the fields of the class [Env]; the scripts are translated over an
      arbitrary [Env], and a concrete one, with a JSON decoder and a server
      that replays a list of canned outcomes, is used to run them.
    - [print] is not modelled, but every expression a [print] evaluates is,
      since it can raise. *)

From Stdlib Require Import ZArith List String Ascii Bool Lia DecimalString.
From Stdlib Require Import SpecFloat.
Import ListNotations.
Open Scope string_scope.
Open Scope Z_scope.

(** ** Python strings *)

Module PyStr.

(** [needle in hay] for two strings. *)
Fixpoint str_in (needle hay : string) : bool :=
  prefix needle hay ||
  match hay with
  | EmptyString => false
  | String _ rest => str_in needle rest
  end.

(** [s[:n]] for [n >= 0]. *)
Fixpoint take (n : nat) (s : string) : string :=
  match n, s with
  | S n', String c rest => String c (take n' rest)
  | _, _ => EmptyString
  end.

(** [s[n:]] for [n >= 0]. *)
Fixpoint drop (n : nat) (s : string) : string :=
  match n, s with
  | S n', String _ rest => drop n' rest
  | _, _ => s
  end.

(** [str.lower] on one code point below 256: A-Z and the Latin-1 capitals
    U+00C0..U+00DE (without the multiplication sign U+00D7) move up by 32. *)
Definition lower_char (c : ascii) : ascii :=
  let n := nat_of_ascii c in
  if ((65 <=? n) && (n <=? 90))%nat
     || ((192 <=? n) && (n <=? 222) && negb (n =? 215))%nat
  then ascii_of_nat (n + 32) else c.

Fixpoint lower (s : string) : string :=
  match s with
  | EmptyString => EmptyString
  | String c rest => String (lower_char c) (lower rest)
  end.

Definition is_ascii_digit (c : ascii) : bool :=
  let n := nat_of_ascii c in ((48 <=? n) && (n <=? 57))%nat.

(** [str.isdigit] on one code point below 256: the ten ASCII digits and
    the superscripts U+00B2, U+00B3, U+00B9. *)
Definition isdigit_char (c : ascii) : bool :=
  let n := nat_of_ascii c in
  is_ascii_digit c || (n =? 178)%nat || (n =? 179)%nat || (n =? 185)%nat.

(** [str.isdigit(s)]: every character is a digit and there is at least one. *)
Fixpoint all_digit (s : string) : bool :=
  match s with
  | EmptyString => true
  | String c rest => isdigit_char c && all_digit rest
  end.

Definition isdigit (s : string) : bool :=
  negb (s =? "")%string && all_digit s.

(** [''.join(filter(str.isdigit, s))] for a string [s]: [filter] visits
    the characters one by one. *)
Fixpoint filter_digits (s : string) : string :=
  match s with
  | EmptyString => EmptyString
  | String c rest =>
      if isdigit_char c then String c (filter_digits rest)
      else filter_digits rest
  end.

Fixpoint digits_value (acc : Z) (s : string) : option Z :=
  match s with
  | EmptyString => Some acc
  | String c rest =>
      if is_ascii_digit c
      then digits_value (10 * acc + Z.of_nat (nat_of_ascii c - 48)) rest
      else None
  end.

(** [int(s)] for a string made of [isdigit] characters only (the one use
    in the scripts): the empty string and the superscript digits raise
    [ValueError], which is [None] here. *)
Definition int_of_digits (s : string) : option Z :=
  match s with
  | EmptyString => None
  | _ => digits_value 0 s
  end.

(** [sep in s] together with [s.split(sep, 1)]: the parts before and after
    the first occurrence of [sep], or [None] when there is none. *)
Fixpoint split_once (sep s : string) : option (string * string) :=
  if prefix sep s then Some (EmptyString, drop (String.length sep) s)
  else match s with
       | EmptyString => None
       | String c rest =>
           match split_once sep rest with
           | Some (before, after) => Some (String c before, after)
           | None => None
           end
       end.

(** [str(n)] for an integer. *)
Definition of_Z (z : Z) : string := NilZero.string_of_int (Z.to_int z).

Definition LF : string := String (ascii_of_nat 10) EmptyString.

End PyStr.

(** ** Python values *)

#[local] Set Warnings "-register-all".

(** What [json.loads] can return, and what the scripts write as literals.
    A [dict] keeps its items in insertion order; its keys are strings. *)
Inductive value : Type :=
| PNone
| PBool (b : bool)
| PInt (z : Z)
| PFloat (f : spec_float)
| PStr (s : string)
| PList (l : list value)
| PDict (d : list (string * value)).

(** ** Exceptions *)

Inductive exn_class :=
| AttributeError | TypeError | KeyError | IndexError | ValueError
| JSONDecodeError | UnicodeDecodeError
| URLError | TimeoutError | ConnectionError | OSError.

(** One piece of a response body as a [read] delivers it: the decoded text,
    or the exception raised by [read] or by [decode('utf-8')].  The end of
    the list, or an empty piece, is the end of the stream. *)
Inductive chunk :=
| ReadOk (text : string)
| ReadFail (cls : exn_class) (msg : string).

(** [urllib.error.HTTPError] carries the status code and the body of the
    error response; every other exception is a class and a message. *)
Inductive exn :=
| HTTPError (code : Z) (reason : string) (fp : list chunk)
| Exception (cls : exn_class) (msg : string).

(** [str(e)]. *)
Definition exn_str (e : exn) : string :=
  match e with
  | HTTPError code reason _ =>
      "HTTP Error " ++ PyStr.of_Z code ++ ": " ++ reason
  | Exception _ msg => msg
  end.

(** The outcome of evaluating a Python expression or statement. *)
Inductive result (A : Type) : Type :=
| Return (a : A)
| Raise (e : exn).
Arguments Return {A} a.
Arguments Raise {A} e.

Definition rbind {A B} (r : result A) (k : A -> result B) : result B :=
  match r with
  | Return a => k a
  | Raise e => Raise e
  end.

Module PyVal.

(** [bool(v)], the test of [if v] and of [v and ...]. *)
Definition truthy (v : value) : bool :=
  match v with
  | PNone => false
  | PBool b => b
  | PInt z => negb (z =? 0)
  | PFloat (S754_zero _) => false
  | PFloat _ => true
  | PStr s => negb (s =? "")%string
  | PList [] => false
  | PList _ => true
  | PDict [] => false
  | PDict _ => true
  end.

Definition type_name (v : value) : string :=
  match v with
  | PNone => "NoneType" | PBool _ => "bool" | PInt _ => "int"
  | PFloat _ => "float" | PStr _ => "str" | PList _ => "list"
  | PDict _ => "dict"
  end.

(** [isinstance(v, list)]. *)
Definition is_list (v : value) : bool :=
  match v with PList _ => true | _ => false end.

Fixpoint assoc (key : string) (d : list (string * value)) : option value :=
  match d with
  | [] => None
  | (k, v) :: rest => if (k =? key)%string then Some v else assoc key rest
  end.

Definition no_attribute (v : value) (attr : string) : exn :=
  Exception AttributeError
    ("'" ++ type_name v ++ "' object has no attribute '" ++ attr ++ "'").

Definition not_subscriptable (v : value) : exn :=
  Exception TypeError ("'" ++ type_name v ++ "' object is not subscriptable").

(** [v.get(key, default)]: only a [dict] has the method. *)
Definition get (v : value) (key : string) (default : value) : result value :=
  match v with
  | PDict d =>
      match assoc key d with
      | Some x => Return x
      | None => Return default
      end
  | _ => Raise (no_attribute v "get")
  end.

(** [v[key]] for a string key. *)
Definition getitem_key (v : value) (key : string) : result value :=
  match v with
  | PDict d =>
      match assoc key d with
      | Some x => Return x
      | None => Raise (Exception KeyError ("'" ++ key ++ "'"))
      end
  | PList _ =>
      Raise (Exception TypeError
               "list indices must be integers or slices, not str")
  | PStr _ =>
      Raise (Exception TypeError "string indices must be integers, not 'str'")
  | _ => Raise (not_subscriptable v)
  end.

(** The position an index [i] (negative: from the end) denotes in a
    sequence of [n] items. *)
Definition position (n : nat) (i : Z) : option nat :=
  let j := if i <? 0 then i + Z.of_nat n else i in
  if (0 <=? j) && (j <? Z.of_nat n) then Some (Z.to_nat j) else None.

(** [v[i]] for an integer index.  The keys of a [dict] are strings, so an
    integer is never among them. *)
Definition getitem_int (v : value) (i : Z) : result value :=
  match v with
  | PList l =>
      match position (List.length l) i with
      | Some j =>
          match nth_error l j with
          | Some x => Return x
          | None => Raise (Exception IndexError "list index out of range")
          end
      | None => Raise (Exception IndexError "list index out of range")
      end
  | PStr s =>
      match position (String.length s) i with
      | Some j =>
          match String.get j s with
          | Some c => Return (PStr (String c EmptyString))
          | None => Raise (Exception IndexError "string index out of range")
          end
      | None => Raise (Exception IndexError "string index out of range")
      end
  | PDict _ => Raise (Exception KeyError (PyStr.of_Z i))
  | _ => Raise (not_subscriptable v)
  end.

(** [v[:n]] for [n >= 0]: strings and lists can be sliced. *)
Definition slice_to (v : value) (n : nat) : result value :=
  match v with
  | PStr s => Return (PStr (PyStr.take n s))
  | PList l => Return (PList (firstn n l))
  | PDict _ => Raise (Exception TypeError "unhashable type: 'slice'")
  | _ => Raise (not_subscriptable v)
  end.

(** [len(v)]. *)
Definition len (v : value) : result Z :=
  match v with
  | PStr s => Return (Z.of_nat (String.length s))
  | PList l => Return (Z.of_nat (List.length l))
  | PDict d => Return (Z.of_nat (List.length d))
  | _ => Raise (Exception TypeError
                  ("object of type '" ++ type_name v ++ "' has no len()"))
  end.

(** [v.lower()]: only a [str] has the method. *)
Definition lower (v : value) : result string :=
  match v with
  | PStr s => Return (PyStr.lower s)
  | _ => Raise (no_attribute v "lower")
  end.

Definition is_str (needle : string) (v : value) : bool :=
  match v with PStr s => (s =? needle)%string | _ => false end.

(** [needle in v] for a string [needle]: a substring of a [str], an item
    of a [list], a key of a [dict]. *)
Definition contains (needle : string) (v : value) : result bool :=
  match v with
  | PStr s => Return (PyStr.str_in needle s)
  | PList l => Return (existsb (is_str needle) l)
  | PDict d =>
      Return (match assoc needle d with Some _ => true | None => false end)
  | _ => Raise (Exception TypeError
                  ("argument of type '" ++ type_name v ++ "' is not iterable"))
  end.

End PyVal.

(** ** The outside world *)

(** [urllib.request.Request(url, data=..., headers=..., method=...)]. *)
Record Request := mkRequest {
  url : string;
  data : option string;
  headers : list (string * string);
  method : string
}.

(** The object [urlopen] returns: the status line and the body still to be
    read. *)
Record response := mkResponse {
  status : Z;
  fp : list chunk
}.

(** [resp.read()]: everything up to the end of the stream. *)
Fixpoint read_all (body : list chunk) : result string :=
  match body with
  | [] => Return ""%string
  | ReadOk "" :: _ => Return ""%string
  | ReadOk text :: rest => rbind (read_all rest) (fun t => Return (text ++ t)%string)
  | ReadFail cls msg :: _ => Raise (Exception cls msg)
  end.

(** The collaborators of the scripts.
    - [json_loads] is [json.loads]: the decoded value, or the message of the
      [JSONDecodeError] it raises.
    - [json_dumps] is [json.dumps].
    - [py_repr] gives the text Python prints for a value that is not a
      string ([str(v)], equal to [repr(v)] there).
    - [urlopen req timeout] is [urllib.request.urlopen]: the server answers,
      and the world moves on.  It returns a [response] for a status the
      opener accepts, raises [HTTPError] for another status, and raises
      another exception when the transport fails.
    - [requests_post url payload] is [requests.post(url, json=payload,
      stream=True)] followed by [iter_lines()]: the lines of the body. *)
Class Env := {
  World : Type;
  json_loads : string -> value + string;
  json_dumps : value -> string;
  py_repr : value -> string;
  urlopen : Request -> option Z -> World -> result response * World;
  requests_post : string -> value -> World -> result (list chunk) * World
}.

(** ** The monad of a script: world passing with exceptions *)

Section Script.
Context {E : Env}.

Definition M (A : Type) : Type := World -> result A * World.

Definition ret {A} (a : A) : M A := fun w => (Return a, w).

Definition raise {A} (e : exn) : M A := fun w => (Raise e, w).

Definition bind {A B} (m : M A) (k : A -> M B) : M B :=
  fun w =>
    match m w with
    | (Return a, w') => k a w'
    | (Raise e, w') => (Raise e, w')
    end.

(** A pure evaluation, which may raise. *)
Definition lift {A} (r : result A) : M A := fun w => (r, w).

(** [try: m  except ... as e: handler e].  A handler that does not match
    re-raises; an exception raised inside a handler is not caught by a
    sibling clause. *)
Definition try_except {A} (m : M A) (handler : exn -> M A) : M A :=
  fun w =>
    match m w with
    | (Return a, w') => (Return a, w')
    | (Raise e, w') => handler e w'
    end.

(** [json.loads(text)]. *)
Definition loads (text : string) : result value :=
  match json_loads text with
  | inl v => Return v
  | inr msg => Raise (Exception JSONDecodeError msg)
  end.

(** [str(v)], what an f-string puts for [{v}]. *)
Definition py_str (v : value) : string :=
  match v with
  | PStr s => s
  | _ => py_repr v
  end.

End Script.

Declare Scope script_scope.
Delimit Scope script_scope with script.
Notation "x <- m ;; k" := (bind m (fun x => k))
  (at level 61, m at next level, right associativity) : script_scope.
Notation "' pat <- m ;; k" := (bind m (fun x => match x with pat => k end))
  (at level 61, pat pattern, m at next level, right associativity) : script_scope.
Notation "m ;;; k" := (bind m (fun _ => k))
  (at level 61, right associativity) : script_scope.
Open Scope script_scope.

Definition BASE_URL : string := "http://127.0.0.1:3141".

(** The literal [{"error": str(e)}]. *)
Definition error_dict (e : exn) : value := PDict [("error", PStr (exn_str e))].

(** The payload every [/run] and [/run_sse] call sends. *)
Definition run_payload (app_name user_id session_id message : string) : value :=
  PDict [("app_name", PStr app_name);
         ("user_id", PStr user_id);
         ("session_id", PStr session_id);
         ("new_message",
           PDict [("parts", PList [PDict [("text", PStr message)]]);
                  ("role", PStr "user")])].

(** ** The request helper

    [make_request] is defined four times, in [test_adk.py] (lines 13-29),
    [adk_demo/test_assistants.py] (11-25), [adk_demo/tests/test_sessions.py]
    (14-29) and [adk_demo/tests/google_adk/test_complex_agents.py] (17-32),
    with the same body; the last one takes the timeout as a parameter, the
    others pass 120.  The body is translated once, with the timeout as an
    argument, and each script's module instantiates it. *)

Module harness.
Section Defs.
Context {E : Env}.

(** The request handed to [urlopen]:
    [req_data = json.dumps(data).encode('utf-8') if data else None], so a
    falsy [data] ([None], [{}], ...) gives a request without a body. *)
Definition build_request (path method : string) (data : value) : Request :=
  let url := BASE_URL ++ path in
  let headers := [("Content-Type", "application/json")] in
  let req_data := if PyVal.truthy data then Some (json_dumps data) else None in
  mkRequest url req_data headers method.

(** [json.loads(body) if body else {}]. *)
Definition parse_body (body : string) : result value :=
  if (body =? "")%string then Return (PDict []) else loads body.

(** The [try] statement: the body of the [with], the [HTTPError] clause
    and the [Exception] clause. *)
Definition make_request (timeout : Z) (path method : string) (data : value)
  : M (Z * value) :=
  let req := build_request path method data in
  try_except
    (resp <- urlopen req (Some timeout) ;;
     body <- lift (read_all (fp resp)) ;;
     parsed <- lift (parse_body body) ;;
     ret (status resp, parsed))
    (fun e =>
       match e with
       | HTTPError code _ efp =>
           body <- lift (read_all efp) ;;
           parsed <- lift (parse_body body) ;;
           ret (code, parsed)
       | _ => ret (0, error_dict e)
       end).

End Defs.
End harness.

(** ** test_adk.py *)

Module test_adk.
Section Defs.
Context {E : Env}.

(** [make_request(path, method="GET", data=None)], lines 13-29. *)
Definition make_request (path method : string) (data : value) : M (Z * value) :=
  harness.make_request 120 path method data.

(** [test_health()]. *)
Definition test_health : M bool :=
  '(st, _) <- make_request "/health" "GET" PNone ;;
  ret (st =? 200).

(** [test_list_apps()]. *)
Definition test_list_apps : M bool :=
  '(st, apps) <- make_request "/list-apps" "GET" PNone ;;
  ret ((st =? 200) && PyVal.is_list apps).

Definition test_run_payload : value :=
  run_payload "vscode-lm-proxy" "python-test-user" "python-test-session"
              "What is 2+2? Answer with just the number.".

(** [status == 200 and isinstance(events, list) and len(events) > 0]. *)
Definition events_ok (st : Z) (events : value) : bool :=
  (st =? 200) &&
  match events with
  | PList l => 0 <? Z.of_nat (List.length l)
  | _ => false
  end.

(** [test_run()], lines 43-69.  The prints of lines 59-65 evaluate
    [event.get(...)], [content.get(...)] and [parts[0].get('text', '')[:200]]. *)
Definition test_run : M bool :=
  '(st, events) <- make_request "/run" "POST" test_run_payload ;;
  if events_ok st events then
    event <- lift (PyVal.getitem_int events 0) ;;
    lift (PyVal.get event "id" PNone) ;;;
    lift (PyVal.get event "invocation_id" PNone) ;;;
    lift (PyVal.get event "author" PNone) ;;;
    content <- lift (PyVal.get event "content" (PDict [])) ;;
    parts <- lift (PyVal.get content "parts" (PList [])) ;;
    (if PyVal.truthy parts then
       part <- lift (PyVal.getitem_int parts 0) ;;
       text <- lift (PyVal.get part "text" (PStr "")) ;;
       lift (PyVal.slice_to text 200) ;;;
       ret tt
     else ret tt) ;;;
    ret true
  else ret false.

Definition sessions_path : string := "/apps/test-app/users/py-user/sessions".

(** [test_sessions()], lines 71-100.  The delete request is sent by
    [urlopen] directly, with no timeout; only [HTTPError] is caught. *)
Definition test_sessions : M bool :=
  '(st, session) <- make_request sessions_path "POST" PNone ;;
  lift (PyVal.get session "id" (PStr "N/A")) ;;;
  if negb (st =? 201) then ret false
  else
    session_id <- lift (PyVal.get session "id" PNone) ;;
    make_request sessions_path "GET" PNone ;;;
    make_request (sessions_path ++ "/" ++ py_str session_id) "GET" PNone ;;;
    let req := mkRequest (BASE_URL ++ sessions_path ++ "/" ++ py_str session_id)
                         None [] "DELETE" in
    try_except
      (urlopen req None ;;; ret true)
      (fun e =>
         match e with
         | HTTPError code _ _ => ret (code =? 204)
         | _ => raise e
         end).

(** The body of the script, lines 102-120: the [results] dict, its values
    evaluated in order.  The summary that follows only prints. *)
Definition main : M (list (string * bool)) :=
  health <- test_health ;;
  list_apps <- test_list_apps ;;
  run <- test_run ;;
  sessions <- test_sessions ;;
  ret [("health", health); ("list_apps", list_apps); ("run", run);
       ("sessions", sessions)].

End Defs.
End test_adk.

(** ** adk_demo/test_assistants.py *)

Module test_assistants.
Section Defs.
Context {E : Env}.

(** [make_request(path, method="GET", data=None)], lines 11-25. *)
Definition make_request (path method : string) (data : value) : M (Z * value) :=
  harness.make_request 120 path method data.

(** [len(v.get('data', []))]. *)
Definition data_count (v : value) : result Z :=
  rbind (PyVal.get v "data" (PList [])) PyVal.len.

(** [test_assistants()], lines 27-32. *)
Definition test_assistants : M bool :=
  '(st, listing) <- make_request "/v1/assistants" "GET" PNone ;;
  lift (data_count listing) ;;;
  ret (st =? 200).

(** [msgs['data'][-1]['content'][0]['text']['value']]. *)
Definition last_message_text (msgs : value) : result value :=
  rbind (PyVal.getitem_key msgs "data") (fun items =>
  rbind (PyVal.getitem_int items (-1)) (fun message =>
  rbind (PyVal.getitem_key message "content") (fun content =>
  rbind (PyVal.getitem_int content 0) (fun block =>
  rbind (PyVal.getitem_key block "text") (fun text =>
  PyVal.getitem_key text "value"))))).

(** [test_thread_lifecycle()], lines 34-81. *)
Definition test_thread_lifecycle : M bool :=
  '(st, thread) <- make_request "/v1/threads" "POST" (PDict []) ;;
  if negb (st =? 201) then ret false
  else
    thread_id <- lift (PyVal.get thread "id" PNone) ;;
    let thread_path := "/v1/threads/" ++ py_str thread_id in
    make_request thread_path "GET" PNone ;;;
    '(_, msg) <- make_request (thread_path ++ "/messages") "POST"
                   (PDict [("role", PStr "user"); ("content", PStr "What is 2+2?")]) ;;
    lift (PyVal.get msg "id" PNone) ;;;
    '(_, msgs) <- make_request (thread_path ++ "/messages") "GET" PNone ;;
    lift (data_count msgs) ;;;
    '(_, run) <- make_request (thread_path ++ "/runs") "POST"
                   (PDict [("assistant_id", PStr "asst_default")]) ;;
    lift (PyVal.get run "id" PNone) ;;;
    lift (PyVal.get run "status" PNone) ;;;
    '(_, msgs_after) <- make_request (thread_path ++ "/messages") "GET" PNone ;;
    lift (data_count msgs_after) ;;;
    count <- lift (data_count msgs_after) ;;
    (if 2 <=? count then
       reply <- lift (last_message_text msgs_after) ;;
       lift (PyVal.slice_to reply 100) ;;;
       ret tt
     else ret tt) ;;;
    make_request thread_path "DELETE" PNone ;;;
    run_status <- lift (PyVal.get run "status" PNone) ;;
    ret (PyVal.is_str "completed" run_status).

Definition multiturn_conversations : list string :=
  ["What is 10 + 5?";
   "Now multiply that by 2.";
   "What was the first number I asked about?"].

(** The [for] loop of [test_multiturn], lines 96-106, over the messages
    still to send: post the message, run the assistant, list the messages
    and print the first 80 items of the last one. *)
Fixpoint multiturn_turns (thread_path : string) (conversations : list string) : M unit :=
  match conversations with
  | [] => ret tt
  | msg :: rest =>
      make_request (thread_path ++ "/messages") "POST"
        (PDict [("role", PStr "user"); ("content", PStr msg)]) ;;;
      make_request (thread_path ++ "/runs") "POST"
        (PDict [("assistant_id", PStr "asst_default")]) ;;;
      '(_, msgs) <- make_request (thread_path ++ "/messages") "GET" PNone ;;
      reply <- lift (last_message_text msgs) ;;
      lift (PyVal.slice_to reply 80) ;;;
      multiturn_turns thread_path rest
  end.

(** [test_multiturn()], lines 83-110: no status is looked at, and the only
    [return] gives [True]. *)
Definition test_multiturn : M bool :=
  '(_, thread) <- make_request "/v1/threads" "POST" (PDict []) ;;
  thread_id <- lift (PyVal.getitem_key thread "id") ;;
  let thread_path := "/v1/threads/" ++ py_str thread_id in
  multiturn_turns thread_path multiturn_conversations ;;;
  make_request thread_path "DELETE" PNone ;;;
  ret true.

(** The body of the script, lines 112-125: the [results] dict, its values
    evaluated in order.  The summary that follows only prints. *)
Definition main : M (list (string * bool)) :=
  assistants <- test_assistants ;;
  thread_lifecycle <- test_thread_lifecycle ;;
  multiturn <- test_multiturn ;;
  ret [("assistants", assistants); ("thread_lifecycle", thread_lifecycle);
       ("multiturn", multiturn)].

End Defs.
End test_assistants.

(** ** adk_demo/tests/test_sessions.py *)

Module test_sessions.
Section Defs.
Context {E : Env}.

(** [make_request(path, method="GET", data=None)], lines 14-29. *)
Definition make_request (path method : string) (data : value) : M (Z * value) :=
  harness.make_request 120 path method data.

(** [run_turn(session_id, message, turn_num)], lines 31-49: the text of
    the first part of the first event, cut to 150 items, or the text
    ["ERROR: ..."]. *)
Definition run_turn (session_id message : string) (turn_num : Z) : M value :=
  let payload := run_payload "test-agent" "test-user" session_id message in
  '(st, events) <- make_request "/run" "POST" payload ;;
  let error := ret (PStr ("ERROR: " ++ py_str events)) in
  if test_adk.events_ok st events then
    event <- lift (PyVal.getitem_int events 0) ;;
    content <- lift (PyVal.get event "content" (PDict [])) ;;
    parts <- lift (PyVal.get content "parts" (PList [])) ;;
    if PyVal.truthy parts then
      part <- lift (PyVal.getitem_int parts 0) ;;
      text <- lift (PyVal.get part "text" (PStr "")) ;;
      lift (PyVal.slice_to text 150)
    else error
  else error.

(** [x or y] on two tests, the second evaluated only when the first is
    false. *)
Definition por (x y : result bool) : result bool :=
  rbind x (fun b => if b then Return true else y).

(** [x and y]. *)
Definition pand (x y : result bool) : result bool :=
  rbind x (fun b => if b then y else Return false).

(** [needle in v.lower()]. *)
Definition in_lower (needle : string) (v : value) : result bool :=
  rbind (PyVal.lower v) (fun s => Return (PyStr.str_in needle s)).

(** [test_session_isolation()], lines 51-102.  [draw_a] and [draw_b] are
    the two values of [random.randint(1000, 9999)]. *)
Definition test_session_isolation (draw_a draw_b : Z) : M bool :=
  let session_a := "session_A_" ++ PyStr.of_Z draw_a in
  let session_b := "session_B_" ++ PyStr.of_Z draw_b in
  a1 <- run_turn session_a "What is 10 + 20? Just give the number." 1 ;;
  b1 <- run_turn session_b "What color is the sky on a clear day? One word." 1 ;;
  a2 <- run_turn session_a "Double that result." 2 ;;
  b2 <- run_turn session_b "And what about grass? One word." 2 ;;
  a3 <- run_turn session_a "What was the original number before doubling?" 3 ;;
  b3 <- run_turn session_b "What was the first color I asked about?" 3 ;;
  session_a_ok <- lift (por (PyVal.contains "30" a2) (PyVal.contains "60" a2)) ;;
  session_b_ok <- lift (por (in_lower "blue" b1) (in_lower "green" b2)) ;;
  ret (session_a_ok && session_b_ok).

Definition api_path : string := "/apps/test-app/users/api-test/sessions".

(** The loop of lines 154-158, [n] rounds to go: an id is recorded when
    the status is 201; the print slices [session.get('id', 'N/A')]. *)
Fixpoint create_sessions (n : nat) (created_ids : list value) : M (list value) :=
  match n with
  | O => ret created_ids
  | S n' =>
      '(st, session) <- make_request api_path "POST" PNone ;;
      if st =? 201 then
        id <- lift (PyVal.get session "id" PNone) ;;
        shown <- lift (PyVal.get session "id" (PStr "N/A")) ;;
        lift (PyVal.slice_to shown 30) ;;;
        create_sessions n' (created_ids ++ [id])
      else create_sessions n' created_ids
  end.

(** The loop of lines 165-172: whatever the delete request does is
    swallowed by the bare [except]. *)
Fixpoint delete_sessions (ids : list value) : M unit :=
  match ids with
  | [] => ret tt
  | session_id :: rest =>
      let req := mkRequest (BASE_URL ++ api_path ++ "/" ++ py_str session_id)
                           None [] "DELETE" in
      try_except (urlopen req None ;;; ret tt) (fun _ => ret tt) ;;;
      delete_sessions rest
  end.

(** [test_session_api()], lines 142-179. *)
Definition test_session_api : M bool :=
  make_request api_path "GET" PNone ;;;
  created_ids <- create_sessions 3 [] ;;
  make_request api_path "GET" PNone ;;;
  delete_sessions created_ids ;;;
  make_request api_path "GET" PNone ;;;
  ret (Z.of_nat (List.length created_ids) =? 3).

(** [d[key] = v] on a dict with string keys: a key already there keeps its
    place. *)
Fixpoint dict_put {A} (key : string) (v : A) (d : list (string * A))
  : list (string * A) :=
  match d with
  | [] => [(key, v)]
  | (k, old) :: rest =>
      if (k =? key)%string then (k, v) :: rest
      else (k, old) :: dict_put key v rest
  end.

(** [d[key]], [False] standing for the [KeyError] no run can meet: every
    key read was written in the first loop. *)
Fixpoint dict_at (key : string) (d : list (string * bool)) : bool :=
  match d with
  | [] => false
  | (k, v) :: rest => if (k =? key)%string then v else dict_at key rest
  end.

Definition problems : list (string * Z) :=
  [("What is 5 * 5?", 25); ("What is 7 + 8?", 15); ("What is 100 / 4?", 25)].

(** The first loop of [test_multiple_sessions], lines 120-127, over the
    problems still to ask; [i] is the index of the next one and [draws]
    holds the values [random.randint(1000, 9999)] will give.  [sessions]
    maps a session id to its expected number. *)
Fixpoint ask_problems (i : Z) (todo : list (string * Z)) (draws : list Z)
         (sessions : list (string * Z)) (results : list (string * bool))
  : M (list (string * Z) * list (string * bool)) :=
  match todo with
  | [] => ret (sessions, results)
  | (question, expected) :: rest =>
      let draw := match draws with d :: _ => d | [] => 0 end in
      let session_id := "multi_session_" ++ PyStr.of_Z i ++ "_" ++ PyStr.of_Z draw in
      let sessions := dict_put session_id expected sessions in
      answer <- run_turn session_id question 1 ;;
      lift (PyVal.slice_to answer 80) ;;;
      found <- lift (PyVal.contains (PyStr.of_Z expected) answer) ;;
      ask_problems (i + 1) rest (tl draws) sessions (dict_put session_id found results)
  end.

(** The second loop, lines 131-135, over the items of [sessions]. *)
Fixpoint recall_problems (items : list (string * Z)) (results : list (string * bool))
  : M (list (string * bool)) :=
  match items with
  | [] => ret results
  | (session_id, expected) :: rest =>
      answer <- run_turn session_id "What was my question and your answer?" 2 ;;
      lift (PyVal.slice_to answer 100) ;;;
      recall_ok <- lift (PyVal.contains (PyStr.of_Z expected) answer) ;;
      recall_problems rest
        (dict_put session_id (dict_at session_id results && recall_ok) results)
  end.

(** [test_multiple_sessions()], lines 104-140. *)
Definition test_multiple_sessions (draws : list Z) : M bool :=
  '(sessions, results) <- ask_problems 0 problems draws [] [] ;;
  results <- recall_problems sessions results ;;
  let success := List.length (filter (fun kv => snd kv) results) in
  ret (Nat.eqb success (List.length results)).

End Defs.
End test_sessions.

(** ** adk_demo/tests/test_thread_isolation.py *)

Module test_thread_isolation.
Section Defs.
Context {E : Env}.

(** [req(path, method="GET", data=None)], lines 9-15: no [try]; the
    decoded body is the result. *)
Definition req (path method : string) (data : value) : M value :=
  let r := harness.build_request path method data in
  resp <- urlopen r (Some 120) ;;
  body <- lift (read_all (fp resp)) ;;
  lift (loads body).

Definition user_message (content : string) : value :=
  PDict [("role", PStr "user"); ("content", PStr content)].

Definition default_run : value := PDict [("assistant_id", PStr "asst_default")].

(** [f"/v1/threads/{t['id']}"]. *)
Definition thread_path (t : value) : result string :=
  rbind (PyVal.getitem_key t "id") (fun id => Return ("/v1/threads/" ++ py_str id)).

(** The three requests of one turn (lines 22-24, 30-32, 36-38, 42-44) and
    the print that follows, which slices the text of the last message. *)
Definition turn (t : value) (content : string) : M value :=
  p <- lift (thread_path t) ;;
  req (p ++ "/messages") "POST" (user_message content) ;;;
  p <- lift (thread_path t) ;;
  req (p ++ "/runs") "POST" default_run ;;;
  p <- lift (thread_path t) ;;
  msgs <- req (p ++ "/messages") "GET" PNone ;;
  text <- lift (test_assistants.last_message_text msgs) ;;
  lift (PyVal.slice_to text 50) ;;;
  ret msgs.

(** [t['id'][:25]], printed after a thread is created. *)
Definition show_id (t : value) : result value :=
  rbind (PyVal.getitem_key t "id") (fun id => PyVal.slice_to id 25).

(** [msgs['data'][-1]['content'][0]['text']['value'].lower()]. *)
Definition lowered_text (msgs : value) : result string :=
  rbind (test_assistants.last_message_text msgs) PyVal.lower.

(** The module body, lines 17-57; the result is [a_ok and b_ok], the
    condition of the final print. *)
Definition main : M bool :=
  t1 <- req "/v1/threads" "POST" (PDict []) ;;
  lift (show_id t1) ;;;
  turn t1 "What is 100 + 50?" ;;;
  t2 <- req "/v1/threads" "POST" (PDict []) ;;
  lift (show_id t2) ;;;
  turn t2 "What color is snow?" ;;;
  msgs1 <- turn t1 "Double it" ;;
  msgs2 <- turn t2 "And grass?" ;;
  a2_text <- lift (lowered_text msgs1) ;;
  b2_text <- lift (lowered_text msgs2) ;;
  let a_ok := PyStr.str_in "300" a2_text || PyStr.str_in "three hundred" a2_text in
  let b_ok := PyStr.str_in "green" b2_text in
  ret (a_ok && b_ok).

End Defs.
End test_thread_isolation.

(** ** adk_demo/tests/test_agent.py *)

Module test_agent.
Section Defs.
Context {E : Env}.

Definition json_headers : list (string * string) :=
  [("Content-Type", "application/json")].

(** The body of the [for] loop of [run_conversation], lines 27-60, over
    the messages still to send; [responses] is the list built so far.
    Whatever is raised inside the [try] appends an ["ERROR: ..."] entry. *)
Fixpoint converse (session_id : string) (messages : list string)
         (responses : list value) : M (list value) :=
  match messages with
  | [] => ret responses
  | message :: rest =>
      let payload := run_payload "math-agent" "test-user" session_id message in
      let req := mkRequest (BASE_URL ++ "/run") (Some (json_dumps payload))
                           json_headers "POST" in
      responses' <-
        try_except
          (resp <- urlopen req (Some 120) ;;
           body <- lift (read_all (fp resp)) ;;
           events <- lift (loads body) ;;
           if PyVal.truthy events && PyVal.is_list events then
             event <- lift (PyVal.getitem_int events 0) ;;
             content <- lift (PyVal.get event "content" (PDict [])) ;;
             parts <- lift (PyVal.get content "parts" (PList [])) ;;
             if PyVal.truthy parts then
               part <- lift (PyVal.getitem_int parts 0) ;;
               response_text <- lift (PyVal.get part "text" (PStr "")) ;;
               lift (PyVal.slice_to response_text 200) ;;;
               ret (responses ++ [response_text])%list
             else ret responses
           else ret responses)
          (fun e => ret (responses ++ [PStr ("ERROR: " ++ exn_str e)])%list) ;;
      converse session_id rest responses'
  end.

(** [run_conversation(messages)], lines 22-62; [messages_id] is the value
    of [id(messages)]. *)
Definition run_conversation (messages_id : Z) (messages : list string)
  : M (list value) :=
  converse ("session_" ++ PyStr.of_Z messages_id) messages [].

Definition multi_turn_messages : list string :=
  ["What is 5 + 3?";
   "Now multiply that result by 2.";
   "What was the original sum again?";
   "And what's the final answer after multiplication?"].

(** [test_multi_turn()], lines 64-89. *)
Definition test_multi_turn (messages_id : Z) : M bool :=
  responses <- run_conversation messages_id multi_turn_messages ;;
  ret (Nat.eqb (List.length responses) (List.length multi_turn_messages)).

(** The two locals of [test_sse_streaming] that outlive its [try]. *)
Record sse_state := mkSse {
  chunk_count : Z;
  final_text : value
}.

Definition sse_start : sse_state := mkSse 0 (PStr "").

Definition event_sep : string := PyStr.LF ++ PyStr.LF.

(** Lines 128-139 for one [line]: the locals afterwards, and the
    exception that left the [try], if one was raised.  [[DONE]] is
    printed and nothing else happens. *)
Definition handle_line (line : string) (st : sse_state) : sse_state * option exn :=
  if prefix "data: " line then
    let data := PyStr.drop 6 line in
    if (data =? "[DONE]")%string then (st, None)
    else
      match loads data with
      | Raise e => (st, Some e)
      | Return event =>
          let counted := mkSse (chunk_count st + 1) (final_text st) in
          match rbind (PyVal.get event "content" (PDict []))
                      (fun content => PyVal.get content "parts" (PList [])) with
          | Raise e => (counted, Some e)
          | Return parts =>
              if PyVal.truthy parts then
                match rbind (PyVal.getitem_int parts 0)
                            (fun part => PyVal.get part "text" (PStr "")) with
                | Raise e => (counted, Some e)
                | Return text =>
                    let assigned := mkSse (chunk_count counted) text in
                    match PyVal.len text with
                    | Raise e => (assigned, Some e)
                    | Return _ => (assigned, None)
                    end
                end
              else (counted, None)
          end
      end
  else (st, None).

(** The inner [while '\n\n' in buffer] loop, lines 126-139.  Every round
    removes the separator from the buffer, so [fuel] above its length is
    never used up. *)
Fixpoint drain (fuel : nat) (buffer : string) (st : sse_state)
  : sse_state * string * option exn :=
  match fuel with
  | O => (st, buffer, None)
  | S fuel' =>
      match PyStr.split_once event_sep buffer with
      | None => (st, buffer, None)
      | Some (line, rest) =>
          match handle_line line st with
          | (st', Some e) => (st', rest, Some e)
          | (st', None) => drain fuel' rest st'
          end
      end
  end.

(** The outer [while True] loop, lines 120-139, over the pieces
    [resp.read(256).decode('utf-8')] still delivers: the locals when the
    [try] statement is left, by [break] or by an exception. *)
Fixpoint read_events (body : list chunk) (buffer : string) (st : sse_state)
  : sse_state :=
  match body with
  | [] => st
  | ReadFail _ _ :: _ => st
  | ReadOk piece :: rest =>
      if (piece =? "")%string then st
      else
        let buffer := (buffer ++ piece)%string in
        match drain (S (String.length buffer)) buffer st with
        | (st', _, Some _) => st'
        | (st', buffer', None) => read_events rest buffer' st'
        end
  end.

Definition sse_payload : value :=
  run_payload "streaming-test" "test-user" "sse-test-session"
              "Count from 1 to 5, one number per line.".

(** Lines 91-141 of [test_sse_streaming]: the locals after the [try]. *)
Definition sse_consume : M sse_state :=
  let req := mkRequest (BASE_URL ++ "/run_sse") (Some (json_dumps sse_payload))
                       json_headers "POST" in
  try_except
    (resp <- urlopen req (Some 120) ;;
     ret (read_events (fp resp) "" sse_start))
    (fun _ => ret sse_start).

(** [test_sse_streaming()], lines 91-147; line 144 slices [final_text]
    outside the [try]. *)
Definition test_sse_streaming : M bool :=
  st <- sse_consume ;;
  lift (PyVal.slice_to (final_text st) 100) ;;;
  ret (0 <? chunk_count st).

End Defs.
End test_agent.

(** ** examples/adk_image_example.py *)

Module adk_image_example.
Section Defs.
Context {E : Env}.

(** The loop of lines 104-112 over the lines [iter_lines()] yields: the
    payloads line 112 prints, in order, and the exception that ended the
    loop, if any.  [[DONE]] breaks out of the loop. *)
Fixpoint print_events (lines : list chunk) : list string * option exn :=
  match lines with
  | [] => ([], None)
  | ReadFail cls msg :: _ => ([], Some (Exception cls msg))
  | ReadOk decoded :: rest =>
      if (decoded =? "")%string then print_events rest
      else if prefix "data: " decoded then
        let data := PyStr.drop 6 decoded in
        if (data =? "[DONE]")%string then ([], None)
        else let (printed, e) := print_events rest in (data :: printed, e)
      else print_events rest
  end.

Definition image_payload (prompt image_data mime_type : string) : value :=
  PDict [("app_name", PStr "vscode-lm-proxy");
         ("user_id", PStr "user-123");
         ("session_id", PStr "session-streaming");
         ("new_message",
           PDict [("parts",
                    PList [PDict [("text", PStr prompt)];
                           PDict [("data",
                                    PDict [("data", PStr image_data);
                                           ("mime_type", PStr mime_type)])]]);
                  ("role", PStr "user")])].

(** [send_with_image_streaming(image_path)], lines 79-113, after
    [encode_image] has read the file: [image_data] and [mime_type] are its
    result, and [prompt] is the text of line 89.  The result lists what
    the loop printed. *)
Definition send_with_image_streaming (prompt image_data mime_type : string)
  : M (list string) :=
  lines <- requests_post (BASE_URL ++ "/run_sse")
                         (image_payload prompt image_data mime_type) ;;
  match print_events lines with
  | (printed, None) => ret printed
  | (_, Some e) => raise e
  end.

End Defs.
End adk_image_example.

(** ** adk_demo/tests/google_adk/test_complex_agents.py *)

Module test_complex_agents.
Section Defs.
Context {E : Env}.

(** [make_request(path, method="GET", data=None, timeout=120)],
    lines 17-32. *)
Definition make_request (path method : string) (data : value) (timeout : Z)
  : M (Z * value) :=
  harness.make_request timeout path method data.

(** [run_turn(session_id, message, app_name="complex-agent")],
    lines 34-52. *)
Definition run_turn (session_id message app_name : string) : M value :=
  let payload := run_payload app_name "test-user" session_id message in
  '(st, events) <- make_request "/run" "POST" payload 120 ;;
  let error :=
    ret (PStr ("ERROR: status=" ++ PyStr.of_Z st ++ ", response=" ++ py_str events)) in
  if test_adk.events_ok st events then
    event <- lift (PyVal.getitem_int events 0) ;;
    content <- lift (PyVal.get event "content" (PDict [])) ;;
    parts <- lift (PyVal.get content "parts" (PList [])) ;;
    if PyVal.truthy parts then
      part <- lift (PyVal.getitem_int parts 0) ;;
      lift (PyVal.get part "text" (PStr ""))
    else error
  else error.

(** [''.join(filter(str.isdigit, items))] over the items of a list:
    [str.isdigit] accepts a [str] only. *)
Fixpoint join_digit_items (items : list value) : result string :=
  match items with
  | [] => Return ""%string
  | PStr s :: rest =>
      rbind (join_digit_items rest) (fun joined =>
        Return (if PyStr.isdigit s then s ++ joined else joined)%string)
  | other :: _ =>
      Raise (Exception TypeError
               ("descriptor 'isdigit' for 'str' objects doesn't apply to a '"
                ++ PyVal.type_name other ++ "' object"))
  end.

(** [''.join(filter(str.isdigit, v))] for a sliced value. *)
Definition join_digits (v : value) : result string :=
  match v with
  | PStr s => Return (PyStr.filter_digits s)
  | PList l => join_digit_items l
  | _ => Raise (Exception TypeError
                  ("'" ++ PyVal.type_name v ++ "' object is not iterable"))
  end.

(** [int(text)] for the joined digits. *)
Definition to_int (text : string) : result Z :=
  match PyStr.int_of_digits text with
  | Some z => Return z
  | None => Raise (Exception ValueError
                     ("invalid literal for int() with base 10: '" ++ text ++ "'"))
  end.

(** Lines 375-380 of [test_loop_agent]: the score read from the reply of
    the evaluator; the bare [except] gives 5. *)
Definition extract_score (score_response : value) : Z :=
  match rbind (PyVal.slice_to score_response 5) (fun head =>
        rbind (join_digits head) to_int) with
  | Return score => Z.min (Z.max score 1) 10
  | Raise _ => 5
  end.

Definition DQ : string := String (ascii_of_nat 34) EmptyString.

Definition gen_prompt : string :=
  "Write a very brief product description (1-2 sentences) for a smart water bottle."
  ++ PyStr.LF ++ "Make it simple and unpolished - just a rough draft."
  ++ PyStr.LF ++ "Output ONLY the description, nothing else.".

Definition eval_prompt (current_draft : value) : string :=
  "Rate this product description from 1-10 where:"
  ++ PyStr.LF ++ "1-3: Poor (unclear, missing key info)"
  ++ PyStr.LF ++ "4-6: Average (decent but could improve)"
  ++ PyStr.LF ++ "7-10: Good (clear, compelling, complete)"
  ++ PyStr.LF
  ++ PyStr.LF ++ "Description: " ++ DQ ++ py_str current_draft ++ DQ
  ++ PyStr.LF
  ++ PyStr.LF ++ "Respond with ONLY a single number from 1-10.".

Definition refine_prompt (current_draft : value) (score : Z) : string :=
  "Improve this product description to make it more compelling and clear."
  ++ PyStr.LF ++ "Current description: " ++ DQ ++ py_str current_draft ++ DQ
  ++ PyStr.LF ++ "Current score: " ++ PyStr.of_Z score ++ "/10"
  ++ PyStr.LF
  ++ PyStr.LF ++ "Write an improved version. Output ONLY the new description, nothing else.".

Definition quality_threshold : Z := 7.

(** The [for i in range(max_iterations)] loop, lines 360-403, with [n]
    rounds to go: the final score and the final draft. *)
Fixpoint refine (session_id : string) (n : nat) (i : Z)
         (current_draft : value) (final_score : Z) : M (Z * value) :=
  match n with
  | O => ret (final_score, current_draft)
  | S n' =>
      score_response <-
        run_turn (session_id ++ "_eval_" ++ PyStr.of_Z i)
                 (eval_prompt current_draft) "complex-agent" ;;
      let score := extract_score score_response in
      if quality_threshold <=? score then ret (score, current_draft)
      else
        refined <-
          run_turn (session_id ++ "_refine_" ++ PyStr.of_Z i)
                   (refine_prompt current_draft score) "complex-agent" ;;
        lift (PyVal.slice_to refined 150) ;;;
        lift (PyVal.slice_to refined 100) ;;;
        refine session_id n' (i + 1) refined score
  end.

(** [test_loop_agent()], lines 333-413; [draw] is the value of
    [random.randint(10000, 99999)].  The result pairs the final score
    with the verdict. *)
Definition loop_agent (draw : Z) : M (Z * bool) :=
  let session_id := "loop_" ++ PyStr.of_Z draw in
  current_draft <- run_turn (session_id ++ "_gen") gen_prompt "complex-agent" ;;
  lift (PyVal.slice_to current_draft 150) ;;;
  '(final_score, final_draft) <- refine session_id 3 0 current_draft 0 ;;
  lift (PyVal.slice_to final_draft 200) ;;;
  ret (final_score, quality_threshold - 2 <=? final_score).

Definition test_loop_agent (draw : Z) : M bool :=
  '(_, success) <- loop_agent draw ;;
  ret success.

(** ["ERROR" not in v]. *)
Definition no_error (v : value) : result bool :=
  rbind (PyVal.contains "ERROR" v) (fun found => Return (negb found)).

(** [len(v) > n]. *)
Definition longer_than (n : Z) (v : value) : result bool :=
  rbind (PyVal.len v) (fun size => Return (n <? size)).

Definition data_agent_prompt : string :=
  "You are a data retrieval agent (tool)."
  ++ PyStr.LF ++ "Return EXACTLY this JSON with no other text:"
  ++ PyStr.LF ++ "{" ++ DQ ++ "temperature" ++ DQ ++ ": 25, "
  ++ DQ ++ "humidity" ++ DQ ++ ": 60, "
  ++ DQ ++ "city" ++ DQ ++ ": " ++ DQ ++ "Tokyo" ++ DQ ++ "}".

Definition analysis_prompt (data_result : value) : string :=
  "You are an analysis agent (tool)."
  ++ PyStr.LF ++ "Analyze this weather data and return a comfort level (1-10):"
  ++ PyStr.LF ++ py_str data_result
  ++ PyStr.LF ++ "Respond with ONLY a number from 1-10.".

Definition main_prompt (data_result analysis_result : value) : string :=
  "You are the main orchestrator agent."
  ++ PyStr.LF ++ "You have received results from two tool agents:"
  ++ PyStr.LF
  ++ PyStr.LF ++ "Data Agent returned: " ++ py_str data_result
  ++ PyStr.LF ++ "Analysis Agent returned: Comfort level " ++ py_str analysis_result
  ++ PyStr.LF
  ++ PyStr.LF ++ "Generate a brief weather report based on this information."
  ++ PyStr.LF ++ "Keep it to 2 sentences maximum.".

(** [test_agent_as_tool()], lines 267-327; [draw] is the value of
    [random.randint(10000, 99999)].  Lines 322-324 evaluate the tests of
    [success] once more for the prints. *)
Definition test_agent_as_tool (draw : Z) : M bool :=
  let session_base := "agent_tool_" ++ PyStr.of_Z draw in
  data_result <- run_turn (session_base ++ "_data") data_agent_prompt "complex-agent" ;;
  lift (PyVal.slice_to data_result 100) ;;;
  analysis_result <-
    run_turn (session_base ++ "_analysis") (analysis_prompt data_result) "complex-agent" ;;
  lift (PyVal.slice_to analysis_result 50) ;;;
  final_result <-
    run_turn (session_base ++ "_main") (main_prompt data_result analysis_result)
             "complex-agent" ;;
  lift (PyVal.slice_to final_result 200) ;;;
  success <-
    lift (test_sessions.pand (no_error data_result)
           (test_sessions.pand (no_error analysis_result)
              (test_sessions.pand (no_error final_result)
                 (longer_than 20 final_result)))) ;;
  lift (no_error data_result) ;;;
  lift (no_error analysis_result) ;;;
  lift (longer_than 20 final_result) ;;;
  ret success.

End Defs.
End test_complex_agents.

(** ** A reference [json] module

    An executable stand-in for Python's [json] on the modelled texts, used
    to run the scripts on concrete bodies.  [loads] follows the grammar of
    [json.loads] (strict mode: whitespace, the literals with [NaN] and
    [Infinity], numbers, strings with escapes, arrays, objects, no trailing
    comma; a repeated key keeps its first position and its last value).  An
    escape above U+00FF is outside the modelled code points and is refused.
    The message of a [JSONDecodeError] is not modelled: it is always
    [decode_error]. *)

Module json.

Definition code (c : ascii) : nat := nat_of_ascii c.

Definition is_ws (c : ascii) : bool :=
  ((code c =? 32) || (code c =? 9) || (code c =? 10) || (code c =? 13))%nat.

Fixpoint skip_ws (s : string) : string :=
  match s with
  | String c rest => if is_ws c then skip_ws rest else s
  | EmptyString => s
  end.

(** The longest prefix of ASCII digits, and what follows it. *)
Fixpoint span_digits (s : string) : string * string :=
  match s with
  | String c rest =>
      if PyStr.is_ascii_digit c
      then let (ds, tail) := span_digits rest in (String c ds, tail)
      else (EmptyString, s)
  | EmptyString => (EmptyString, s)
  end.

Fixpoint nat_digits (acc : Z) (s : string) : Z :=
  match s with
  | String c rest => nat_digits (10 * acc + Z.of_nat (code c - 48)) rest
  | EmptyString => acc
  end.

Definition hex_value (c : ascii) : option nat :=
  let n := code c in
  if ((48 <=? n) && (n <=? 57))%nat then Some (n - 48)%nat
  else if ((97 <=? n) && (n <=? 102))%nat then Some (n - 87)%nat
  else if ((65 <=? n) && (n <=? 70))%nat then Some (n - 55)%nat
  else None.

(** The character of the escape [\uXXXX], when it is below 256. *)
Definition unicode_escape (a b c d : ascii) : option ascii :=
  match hex_value a, hex_value b, hex_value c, hex_value d with
  | Some 0%nat, Some 0%nat, Some hi, Some lo => Some (ascii_of_nat (16 * hi + lo))
  | _, _, _, _ => None
  end.

Definition simple_escape (c : ascii) : option ascii :=
  let n := code c in
  if (n =? 34)%nat then Some c
  else if (n =? 92)%nat then Some c
  else if (n =? 47)%nat then Some c
  else if (n =? 98)%nat then Some (ascii_of_nat 8)
  else if (n =? 102)%nat then Some (ascii_of_nat 12)
  else if (n =? 110)%nat then Some (ascii_of_nat 10)
  else if (n =? 114)%nat then Some (ascii_of_nat 13)
  else if (n =? 116)%nat then Some (ascii_of_nat 9)
  else None.

(** The text of a string after its opening quote, and what follows the
    closing quote. *)
Fixpoint scan_string (s : string) : option (string * string) :=
  match s with
  | EmptyString => None
  | String c rest =>
      if (code c =? 34)%nat then Some (EmptyString, rest)
      else if (code c =? 92)%nat then
        match rest with
        | String e rest' =>
            if (code e =? 117)%nat then
              match rest' with
              | String h1 (String h2 (String h3 (String h4 rest''))) =>
                  match unicode_escape h1 h2 h3 h4, scan_string rest'' with
                  | Some u, Some (text, tail) => Some (String u text, tail)
                  | _, _ => None
                  end
              | _ => None
              end
            else
              match simple_escape e, scan_string rest' with
              | Some u, Some (text, tail) => Some (String u text, tail)
              | _, _ => None
              end
        | EmptyString => None
        end
      else if (code c <? 32)%nat then None
      else
        match scan_string rest with
        | Some (text, tail) => Some (String c text, tail)
        | None => None
        end
  end.

(** The binary64 nearest to [m * 10 ^ e10] (ties to even), as
    [float(...)] computes it. *)
Definition float_of_decimal (neg : bool) (m e10 : Z) : spec_float :=
  if m =? 0 then S754_zero neg
  else if 0 <=? e10 then
    binary_normalize 53 1024 (cond_Zopp neg (m * 10 ^ e10)) 0 neg
  else
    let '(q, e, l) := SFdiv_core_binary 53 1024 m 0 (10 ^ (- e10)) 0 in
    binary_round_aux 53 1024 neg q e l.

(** The integer part: [0], or a digit from 1 to 9 followed by digits. *)
Definition span_int (s : string) : string * string :=
  match s with
  | String c rest =>
      if (code c =? 48)%nat then (String c EmptyString, rest)
      else span_digits s
  | EmptyString => (EmptyString, s)
  end.

Definition span_frac (s : string) : string * string :=
  match s with
  | String c rest =>
      if (code c =? 46)%nat then
        match span_digits rest with
        | (EmptyString, _) => (EmptyString, s)
        | (ds, tail) => (ds, tail)
        end
      else (EmptyString, s)
  | EmptyString => (EmptyString, s)
  end.

(** The exponent part: its sign, its digits and what follows, when there
    is one. *)
Definition span_exp (s : string) : option (bool * string * string) :=
  match s with
  | String c rest =>
      if ((code c =? 101) || (code c =? 69))%nat then
        let '(neg, body) :=
          match rest with
          | String g tail =>
              if (code g =? 45)%nat then (true, tail)
              else if (code g =? 43)%nat then (false, tail)
              else (false, rest)
          | EmptyString => (false, rest)
          end in
        match span_digits body with
        | (EmptyString, _) => None
        | (ds, tail) => Some (neg, ds, tail)
        end
      else None
  | EmptyString => None
  end.

(** A number without its sign: an [int] when it has neither fraction nor
    exponent, a [float] otherwise. *)
Definition scan_number (neg : bool) (s : string) : option (value * string) :=
  match span_int s with
  | (EmptyString, _) => None
  | (int_digits, s1) =>
      let (frac_digits, s2) := span_frac s1 in
      match span_exp s2 with
      | Some (eneg, exp_digits, s3) =>
          let m := nat_digits 0 (int_digits ++ frac_digits) in
          let x := cond_Zopp eneg (nat_digits 0 exp_digits) in
          Some (PFloat (float_of_decimal neg m (x - Z.of_nat (String.length frac_digits))), s3)
      | None =>
          match frac_digits with
          | EmptyString => Some (PInt (cond_Zopp neg (nat_digits 0 int_digits)), s2)
          | _ =>
              let m := nat_digits 0 (int_digits ++ frac_digits) in
              Some (PFloat (float_of_decimal neg m (- Z.of_nat (String.length frac_digits))), s2)
          end
      end
  end.

(** [d[key] = v] on a [dict]. *)
Fixpoint dict_set (key : string) (v : value) (d : list (string * value))
  : list (string * value) :=
  match d with
  | [] => [(key, v)]
  | (k, old) :: rest =>
      if (k =? key)%string then (k, v) :: rest
      else (k, old) :: dict_set key v rest
  end.

Definition dict_of_pairs (pairs : list (string * value)) : list (string * value) :=
  fold_left (fun d kv => dict_set (fst kv) (snd kv) d) pairs [].

(** One value at the start of [s] (no leading whitespace), the items of
    an array after its first bracket, and the members of an object after
    its first brace, each with what follows. *)
Fixpoint scan_value (fuel : nat) (s : string) : option (value * string) :=
  match fuel with
  | O => None
  | S fuel' =>
      if prefix "null" s then Some (PNone, PyStr.drop 4 s)
      else if prefix "true" s then Some (PBool true, PyStr.drop 4 s)
      else if prefix "false" s then Some (PBool false, PyStr.drop 5 s)
      else if prefix "NaN" s then Some (PFloat S754_nan, PyStr.drop 3 s)
      else if prefix "Infinity" s then Some (PFloat (S754_infinity false), PyStr.drop 8 s)
      else if prefix "-Infinity" s then Some (PFloat (S754_infinity true), PyStr.drop 9 s)
      else
        match s with
        | EmptyString => None
        | String c rest =>
            if (code c =? 34)%nat then
              match scan_string rest with
              | Some (text, tail) => Some (PStr text, tail)
              | None => None
              end
            else if (code c =? 91)%nat then
              match skip_ws rest with
              | String b tail =>
                  if (code b =? 93)%nat then Some (PList [], tail)
                  else
                    match scan_items fuel' (skip_ws rest) with
                    | Some (items, tail') => Some (PList items, tail')
                    | None => None
                    end
              | EmptyString => None
              end
            else if (code c =? 123)%nat then
              match skip_ws rest with
              | String b tail =>
                  if (code b =? 125)%nat then Some (PDict [], tail)
                  else
                    match scan_members fuel' (skip_ws rest) with
                    | Some (pairs, tail') => Some (PDict (dict_of_pairs pairs), tail')
                    | None => None
                    end
              | EmptyString => None
              end
            else if (code c =? 45)%nat then scan_number true rest
            else scan_number false s
        end
  end
with scan_items (fuel : nat) (s : string) : option (list value * string) :=
  match fuel with
  | O => None
  | S fuel' =>
      match scan_value fuel' s with
      | Some (v, tail) =>
          match skip_ws tail with
          | String c tail' =>
              if (code c =? 93)%nat then Some ([v], tail')
              else if (code c =? 44)%nat then
                match scan_items fuel' (skip_ws tail') with
                | Some (vs, tail'') => Some (v :: vs, tail'')
                | None => None
                end
              else None
          | EmptyString => None
          end
      | None => None
      end
  end
with scan_members (fuel : nat) (s : string) : option (list (string * value) * string) :=
  match fuel with
  | O => None
  | S fuel' =>
      match s with
      | String q rest =>
          if (code q =? 34)%nat then
            match scan_string rest with
            | Some (key, tail) =>
                match skip_ws tail with
                | String colon tail' =>
                    if (code colon =? 58)%nat then
                      match scan_value fuel' (skip_ws tail') with
                      | Some (v, tail'') =>
                          match skip_ws tail'' with
                          | String c after =>
                              if (code c =? 125)%nat then Some ([(key, v)], after)
                              else if (code c =? 44)%nat then
                                match scan_members fuel' (skip_ws after) with
                                | Some (kvs, final) => Some ((key, v) :: kvs, final)
                                | None => None
                                end
                              else None
                          | EmptyString => None
                          end
                      | None => None
                      end
                    else None
                | EmptyString => None
                end
            | None => None
            end
          else None
      | EmptyString => None
      end
  end.

Definition decode_error : string := "Expecting value".

(** [json.loads(text)]. *)
Definition loads (text : string) : value + string :=
  match scan_value (S (String.length text)) (skip_ws text) with
  | Some (v, tail) =>
      match skip_ws tail with
      | EmptyString => inl v
      | _ => inr decode_error
      end
  | None => inr decode_error
  end.

End json.

(** ** Reference printers

    [dumps] is [json.dumps] with its defaults (separators [", "] and
    [": "], [ensure_ascii]); [repr] is Python's [repr].  No script sends or
    prints a finite [float] other than zero; such a float is written by its
    exact decimal expansion, which is not always the text Python chooses. *)

Module pyprint.

Definition DQ : string := String (ascii_of_nat 34) EmptyString.
Definition SQ : string := String (ascii_of_nat 39) EmptyString.
Definition BS : string := String (ascii_of_nat 92) EmptyString.

Definition hex_digit (n : nat) : ascii :=
  if (n <? 10)%nat then ascii_of_nat (48 + n) else ascii_of_nat (87 + n).

Definition hex2 (n : nat) : string :=
  String (hex_digit (n / 16)) (String (hex_digit (n mod 16)) EmptyString).

(** One character inside a JSON string. *)
Definition json_char (c : ascii) : string :=
  let n := nat_of_ascii c in
  if (n =? 34)%nat then BS ++ DQ
  else if (n =? 92)%nat then BS ++ BS
  else if (n =? 10)%nat then BS ++ "n"
  else if (n =? 13)%nat then BS ++ "r"
  else if (n =? 9)%nat then BS ++ "t"
  else if (n =? 8)%nat then BS ++ "b"
  else if (n =? 12)%nat then BS ++ "f"
  else if ((32 <=? n) && (n <=? 126))%nat then String c EmptyString
  else BS ++ "u00" ++ hex2 n.

Fixpoint json_escape (s : string) : string :=
  match s with
  | EmptyString => EmptyString
  | String c rest => json_char c ++ json_escape rest
  end.

Definition json_string (s : string) : string := DQ ++ json_escape s ++ DQ.

Fixpoint zeros (n : nat) : string :=
  match n with
  | O => EmptyString
  | S n' => String "0" (zeros n')
  end.

(** Drops the zeros at the end of a fraction, keeping one digit. *)
Fixpoint trim_fraction (s : string) : string :=
  match s with
  | EmptyString => EmptyString
  | String c rest =>
      match trim_fraction rest with
      | EmptyString =>
          if (nat_of_ascii c =? 48)%nat then EmptyString else String c EmptyString
      | kept => String c kept
      end
  end.

(** The decimal expansion of [m * 2 ^ e] for [m > 0]. *)
Definition decimal_of (m : positive) (e : Z) : string :=
  if 0 <=? e then PyStr.of_Z (Zpos m * 2 ^ e) ++ ".0"
  else
    let k := Z.to_nat (- e) in
    let digits := PyStr.of_Z (Zpos m * 5 ^ (- e)) in
    let padded := zeros (S k - String.length digits)%nat ++ digits in
    let whole := (String.length padded - k)%nat in
    let fraction := trim_fraction (PyStr.drop whole padded) in
    PyStr.take whole padded ++ "."
      ++ match fraction with EmptyString => "0" | _ => fraction end.

Definition float_text (nan inf : string) (f : spec_float) : string :=
  match f with
  | S754_nan => nan
  | S754_infinity false => inf
  | S754_infinity true => "-" ++ inf
  | S754_zero false => "0.0"
  | S754_zero true => "-0.0"
  | S754_finite false m e => decimal_of m e
  | S754_finite true m e => "-" ++ decimal_of m e
  end.

(** [json.dumps(v)]. *)
Fixpoint dumps (v : value) : string :=
  match v with
  | PNone => "null"
  | PBool true => "true"
  | PBool false => "false"
  | PInt z => PyStr.of_Z z
  | PFloat f => float_text "NaN" "Infinity" f
  | PStr s => json_string s
  | PList l =>
      "[" ++ (fix items (l : list value) : string :=
                match l with
                | [] => EmptyString
                | x :: rest =>
                    dumps x ++ match rest with [] => EmptyString | _ => ", " ++ items rest end
                end) l ++ "]"
  | PDict d =>
      "{" ++ (fix members (d : list (string * value)) : string :=
                match d with
                | [] => EmptyString
                | (k, x) :: rest =>
                    json_string k ++ ": " ++ dumps x
                      ++ match rest with [] => EmptyString | _ => ", " ++ members rest end
                end) d ++ "}"
  end.

Definition printable (n : nat) : bool :=
  ((32 <=? n) && (n <=? 126) || (161 <=? n) && negb (n =? 173))%nat.

(** One character inside the [repr] of a string quoted by [quote]. *)
Definition repr_char (quote : ascii) (c : ascii) : string :=
  let n := nat_of_ascii c in
  if (n =? 92)%nat then BS ++ BS
  else if (n =? nat_of_ascii quote)%nat then BS ++ String c EmptyString
  else if (n =? 10)%nat then BS ++ "n"
  else if (n =? 13)%nat then BS ++ "r"
  else if (n =? 9)%nat then BS ++ "t"
  else if printable n then String c EmptyString
  else BS ++ "x" ++ hex2 n.

Fixpoint repr_escape (quote : ascii) (s : string) : string :=
  match s with
  | EmptyString => EmptyString
  | String c rest => repr_char quote c ++ repr_escape quote rest
  end.

(** [repr(s)]: single quotes, unless [s] has one and no double quote. *)
Definition repr_string (s : string) : string :=
  if PyStr.str_in SQ s && negb (PyStr.str_in DQ s)
  then DQ ++ repr_escape (ascii_of_nat 34) s ++ DQ
  else SQ ++ repr_escape (ascii_of_nat 39) s ++ SQ.

(** [repr(v)]. *)
Fixpoint repr (v : value) : string :=
  match v with
  | PNone => "None"
  | PBool true => "True"
  | PBool false => "False"
  | PInt z => PyStr.of_Z z
  | PFloat f => float_text "nan" "inf" f
  | PStr s => repr_string s
  | PList l =>
      "[" ++ (fix items (l : list value) : string :=
                match l with
                | [] => EmptyString
                | x :: rest =>
                    repr x ++ match rest with [] => EmptyString | _ => ", " ++ items rest end
                end) l ++ "]"
  | PDict d =>
      "{" ++ (fix members (d : list (string * value)) : string :=
                match d with
                | [] => EmptyString
                | (k, x) :: rest =>
                    repr_string k ++ ": " ++ repr x
                      ++ match rest with [] => EmptyString | _ => ", " ++ members rest end
                end) d ++ "}"
  end.

End pyprint.

(** ** A server that replays canned outcomes

    The world holds what the next calls of [urlopen] and of [requests.post]
    will do, in order, and records every request made.  When the outcomes
    are used up the connection is refused. *)

Record replay_world := mkWorld {
  answers : list (result response);
  streams : list (result (list chunk));
  sent : list Request
}.

Definition refused : exn :=
  Exception URLError "<urlopen error [Errno 111] Connection refused>".

Definition replay_urlopen (req : Request) (timeout : option Z) (w : replay_world)
  : result response * replay_world :=
  match answers w with
  | [] => (Raise refused, mkWorld [] (streams w) (sent w ++ [req]))
  | answer :: rest => (answer, mkWorld rest (streams w) (sent w ++ [req]))
  end.

Definition replay_post (target : string) (payload : value) (w : replay_world)
  : result (list chunk) * replay_world :=
  match streams w with
  | [] => (Raise refused, w)
  | stream :: rest => (stream, mkWorld (answers w) rest (sent w))
  end.

Definition replay : Env := {|
  World := replay_world;
  json_loads := json.loads;
  json_dumps := pyprint.dumps;
  py_repr := pyprint.repr;
  urlopen := replay_urlopen;
  requests_post := replay_post
|}.

(** A world that will give the listed answers to [urlopen]. *)
Definition serving (outcomes : list (result response)) : replay_world :=
  mkWorld outcomes [] [].

(** A response with the given status whose body arrives in one piece. *)
Definition reply (code : Z) (body : string) : result response :=
  Return (mkResponse code [ReadOk body]).

(** An [HTTPError] with the given status and body. *)
Definition http_error (code : Z) (reason body : string) : result response :=
  Raise (HTTPError code reason [ReadOk body]).

(** Runs a script on the replaying server and keeps its outcome. *)
Definition outcome {A} (m : @M replay A) (w : replay_world) : result A :=
  fst (m w).

(** The JSON text of a [/run] answer with one event holding [text]. *)
Definition one_event (text : string) : string :=
  pyprint.dumps
    (PList [PDict [("id", PStr "evt-1");
                   ("invocation_id", PStr "inv-1");
                   ("author", PStr "assistant");
                   ("content", PDict [("parts", PList [PDict [("text", PStr text)]]);
                                      ("role", PStr "model")])]]).

(** ** The four copies of [make_request] *)

Inductive copy :=
| in_test_adk
| in_test_assistants
| in_test_sessions
| in_test_complex_agents (timeout : Z).

(** The timeout a copy passes to [urlopen]. *)
Definition timeout_of (c : copy) : Z :=
  match c with
  | in_test_complex_agents timeout => timeout
  | _ => 120
  end.

Definition make_request_of {E : Env} (c : copy) (path method : string) (data : value)
  : M (Z * value) :=
  match c with
  | in_test_adk => test_adk.make_request path method data
  | in_test_assistants => test_assistants.make_request path method data
  | in_test_sessions => test_sessions.make_request path method data
  | in_test_complex_agents timeout =>
      test_complex_agents.make_request path method data timeout
  end.

(** The call reached the server and an answer came back: [urlopen] returned
    a response, or raised [HTTPError], with status [code] and body [body]. *)
Definition completes {E : Env} (o : result response * World)
           (code : Z) (body : list chunk) (w' : World) : Prop :=
  o = (Return (mkResponse code body), w')
  \/ exists reason, o = (Raise (HTTPError code reason body), w').

(** ** Sample answers *)

(** The value a JSON text decodes to ([None] when it does not decode). *)
Definition decoded (text : string) : value :=
  match json.loads text with
  | inl v => v
  | inr _ => PNone
  end.

(** The server answers the first request with one event whose text is
    ["five"]. *)
Definition five_world : replay_world := serving [reply 200 (one_event "five")].

(** A stream that holds the sentinel alone, and one more event. *)
Definition done_event : string := "data: [DONE]" ++ PyStr.LF ++ PyStr.LF.

Definition late_event : string :=
  "data: "
  ++ pyprint.dumps (PDict [("content", PDict [("parts", PList [PDict [("text", PStr "late")]])])])
  ++ PyStr.LF ++ PyStr.LF.

(** The JSON text of a session or thread object with the given id. *)
Definition session_json (id : string) : string :=
  pyprint.dumps (PDict [("id", PStr id)]).

(** The JSON text of a message list whose last message holds [text]. *)
Definition messages_json (text : string) : string :=
  pyprint.dumps
    (PDict [("data",
              PList [PDict [("role", PStr "assistant");
                            ("content",
                              PList [PDict [("type", PStr "text");
                                            ("text", PDict [("value", PStr text)])]])]])]).

(** A server that creates sessions with status 201 but never lists them,
    fails every delete with status 500, and lists three sessions in the
    end. *)
Definition stuck_world : replay_world :=
  serving [reply 200 "[]";
           reply 201 (session_json "s1");
           reply 201 (session_json "s2");
           reply 201 (session_json "s3");
           reply 200 "[]";
           http_error 500 "Internal Server Error" "";
           http_error 500 "Internal Server Error" "";
           http_error 500 "Internal Server Error" "";
           reply 200 "[1, 2, 3]"].

(** A server that creates three sessions and answers the list request
    that follows with a 502 page. *)
Definition broken_list_world : replay_world :=
  serving [reply 200 "[]";
           reply 201 (session_json "s1");
           reply 201 (session_json "s2");
           reply 201 (session_json "s3");
           http_error 502 "Bad Gateway" "<html>Bad Gateway</html>"].

(** The id [test_session_api] records for a created session,
    [session.get('id')]. *)
Definition session_id_of (session : value) : value :=
  match session with
  | PDict fields =>
      match PyVal.assoc "id" fields with Some id => id | None => PNone end
  | _ => PNone
  end.

(** The print of line 158 goes through: [session.get('id', 'N/A')[:30]]
    raises nothing. *)
Definition session_shown (session : value) : bool :=
  match rbind (PyVal.get session "id" (PStr "N/A"))
              (fun shown => PyVal.slice_to shown 30) with
  | Return _ => true
  | Raise _ => false
  end.

(** [created_ids] after one more round of the loop of lines 154-158. *)
Definition recorded (created_ids : list value) (st : Z) (session : value)
  : list value :=
  if st =? 201 then (created_ids ++ [session_id_of session])%list else created_ids.

(** The world the delete loop of [test_session_api] leaves. *)
Definition deleted {E : Env} (ids : list value) (w : World) : World :=
  snd (test_sessions.delete_sessions ids w).

(** A server that answers the delete request of [test_sessions] with
    status 200 and lists no session after the creation. *)
Definition lax_world : replay_world :=
  serving [reply 201 (session_json "s1");
           reply 200 "[]";
           reply 200 (session_json "s1");
           reply 200 ""].

(** What a leaking server says in session B: the colour, and the sums of
    session A. *)
Definition leak_b2 : string := "Green. By the way, 10 + 20 is 30, doubled 60.".
Definition leak_b3 : string := "Blue. And your first sum was 30.".

(** The six answers of a server that carries the facts of session A into
    session B. *)
Definition leaky_world : replay_world :=
  serving [reply 200 (one_event "30");
           reply 200 (one_event "Blue");
           reply 200 (one_event "60");
           reply 200 (one_event leak_b2);
           reply 200 (one_event "30");
           reply 200 (one_event leak_b3)].

(** The same for two threads: thread B answers with the sum of thread A. *)
Definition leak_thread_b2 : string := "Green. And 100 + 50 doubled is 300.".

Definition leaky_threads : replay_world :=
  serving [reply 201 (session_json "thread_a");
           reply 201 "{}"; reply 200 "{}"; reply 200 (messages_json "150");
           reply 201 (session_json "thread_b");
           reply 201 "{}"; reply 200 "{}"; reply 200 (messages_json "White");
           reply 201 "{}"; reply 200 "{}"; reply 200 (messages_json "300");
           reply 201 "{}"; reply 200 "{}"; reply 200 (messages_json leak_thread_b2)].

(** ** A server that is not there

    Every call of [urlopen] is refused; the world has no state. *)
Definition unreachable : Env := {|
  World := unit;
  json_loads := json.loads;
  json_dumps := pyprint.dumps;
  py_repr := pyprint.repr;
  urlopen := fun _ _ w => (Raise refused, w);
  requests_post := fun _ _ w => (Raise refused, w)
|}.

(** In this environment no request gets through: whatever the request and
    the state of the world, [urlopen] raises an exception that is not an
    [HTTPError]. *)
Definition no_connection {E : Env} : Prop :=
  forall (req : Request) (timeout : option Z) (w : World),
    exists cls msg w', urlopen req timeout w = (Raise (Exception cls msg), w').

(** Every turn of [test_complex_agents.py] fails: [run_turn] gives one of
    its ["ERROR..."] texts. *)
Definition every_turn_fails {E : Env} : Prop :=
  forall (session_id message app_name : string) (w : World),
    exists text w',
      test_complex_agents.run_turn session_id message app_name w
      = (Return (PStr ("ERROR" ++ text)), w').

(** The lines [iter_lines()] yields for a stream of events: each payload on
    a [data: ] line followed by the empty line that ends the event. *)
Definition event_lines (payloads : list string) : list chunk :=
  flat_map (fun p => [ReadOk ("data: " ++ p); ReadOk ""]) payloads.

(** The text of a body that arrived in pieces. *)
Definition joined (pieces : list string) : string :=
  fold_right append ""%string pieces.

(** A text of 200 characters. *)
Definition long_text : string := joined (repeat "0123456789"%string 20).

(** The separator that ends an event. *)
Definition event_end : string := PyStr.LF ++ PyStr.LF.

(** Every character of [s] is one of the ten ASCII digits. *)
Fixpoint ascii_digits (s : string) : bool :=
  match s with
  | EmptyString => true
  | String c rest => PyStr.is_ascii_digit c && ascii_digits rest
  end.

(** * Properties *)

(** ** The request helper *)

Lemma make_request_of_unfold {E : Env} (c : copy) path method data :
  make_request_of c path method data
  = harness.make_request (timeout_of c) path method data.
Proof. destruct c; reflexivity. Qed.

Lemma parse_body_empty {E : Env} : harness.parse_body "" = Return (PDict []).
Proof. reflexivity. Qed.

Lemma parse_body_nonempty {E : Env} (body : string) :
  body <> ""%string -> harness.parse_body body = loads body.
Proof.
  intros Hne. unfold harness.parse_body.
  destruct (String.eqb_spec body "") as [Heq | _]; [contradiction | reflexivity].
Qed.

(** [read_all] and [loads] raise plain exceptions only, never [HTTPError]. *)
Lemma read_all_raises (body : list chunk) (e : exn) :
  read_all body = Raise e -> exists cls msg, e = Exception cls msg.
Proof.
  induction body as [| piece rest IH]; cbn; [discriminate |].
  destruct piece as [text | cls msg].
  - destruct text as [| c text']; [discriminate |].
    destruct (read_all rest) as [t | e']; cbn; [discriminate |].
    intros H. injection H as ->. apply IH. reflexivity.
  - intros H. injection H as <-. eauto.
Qed.

Lemma loads_raises {E : Env} (text : string) (e : exn) :
  loads text = Raise e -> exists msg, e = Exception JSONDecodeError msg.
Proof.
  unfold loads. destruct (json_loads text) as [v | msg]; [discriminate |].
  intros H. injection H as <-. eauto.
Qed.

Lemma parse_body_raises {E : Env} (body : string) (e : exn) :
  harness.parse_body body = Raise e -> exists msg, e = Exception JSONDecodeError msg.
Proof.
  unfold harness.parse_body. destruct (body =? "")%string; [discriminate |].
  apply loads_raises.
Qed.

(** What [make_request] does once [urlopen] has returned a response:
    whatever goes wrong while the body is read and decoded ends in the
    [Exception] clause. *)
Lemma make_request_response {E : Env} timeout path method data w w' code body :
  urlopen (harness.build_request path method data) (Some timeout) w
    = (Return (mkResponse code body), w') ->
  harness.make_request timeout path method data w
  = match rbind (read_all body) harness.parse_body with
    | Return parsed => (Return (code, parsed), w')
    | Raise e => (Return (0, error_dict e), w')
    end.
Proof.
  intros Hopen.
  unfold harness.make_request, try_except, bind, lift, ret. rewrite Hopen. cbn.
  destruct (read_all body) as [text | e] eqn:Hread; cbn.
  - destruct (harness.parse_body text) as [parsed | e] eqn:Hparse; cbn; [reflexivity |].
    destruct (parse_body_raises _ _ Hparse) as [msg ->]. reflexivity.
  - destruct (read_all_raises _ _ Hread) as (cls & msg & ->). reflexivity.
Qed.

(** What [make_request] does once [urlopen] has raised [HTTPError]: the
    [HTTPError] clause runs outside the [try]. *)
Lemma make_request_http_error {E : Env} timeout path method data w w' code reason body :
  urlopen (harness.build_request path method data) (Some timeout) w
    = (Raise (HTTPError code reason body), w') ->
  harness.make_request timeout path method data w
  = match rbind (read_all body) harness.parse_body with
    | Return parsed => (Return (code, parsed), w')
    | Raise e => (Raise e, w')
    end.
Proof.
  intros Hopen.
  unfold harness.make_request, try_except, bind, lift, ret. rewrite Hopen. cbn.
  destruct (read_all body) as [text | e]; cbn; [| reflexivity].
  destruct (harness.parse_body text); reflexivity.
Qed.

(** What [make_request] does once [urlopen] has raised anything else. *)
Lemma make_request_other_error {E : Env} timeout path method data w w' cls msg :
  urlopen (harness.build_request path method data) (Some timeout) w
    = (Raise (Exception cls msg), w') ->
  harness.make_request timeout path method data w
  = (Return (0, error_dict (Exception cls msg)), w').
Proof.
  intros Hopen.
  unfold harness.make_request, try_except, bind, lift, ret. rewrite Hopen.
  reflexivity.
Qed.

(** An error answer whose body is there but is not JSON: the exception of
    [json.loads] is raised inside the [HTTPError] clause and leaves. *)
Lemma make_request_bad_error_body {E : Env} timeout path method data w w'
      code reason pieces body msg :
  urlopen (harness.build_request path method data) (Some timeout) w
    = (Raise (HTTPError code reason pieces), w') ->
  read_all pieces = Return body -> body <> ""%string ->
  json_loads body = inr msg ->
  harness.make_request timeout path method data w
  = (Raise (Exception JSONDecodeError msg), w').
Proof.
  intros Hopen Hread Hne Hjson.
  rewrite (make_request_http_error _ _ _ _ _ _ _ _ _ Hopen), Hread. cbn [rbind].
  rewrite (parse_body_nonempty _ Hne). unfold loads. rewrite Hjson. reflexivity.
Qed.

(** C8. For every completed HTTP call, whatever its status, each of the four
    copies of [make_request] returns the status code paired with the empty
    mapping when the body is empty, and paired with the JSON-decoded body
    when the body is not empty (and decodes). *)
Theorem C8_make_request_returns_status_and_parsed_body
        (E : Env) (c : copy) (path method : string) (data : value)
        (w w' : World) (code : Z) (pieces : list chunk) (body : string) :
  completes (urlopen (harness.build_request path method data)
                     (Some (timeout_of c)) w) code pieces w' ->
  read_all pieces = Return body ->
  (body = ""%string ->
   make_request_of c path method data w = (Return (code, PDict []), w'))
  /\ (forall v, body <> ""%string -> json_loads body = inl v ->
      make_request_of c path method data w = (Return (code, v), w')).
Proof.
  intros Hdone Hread. rewrite make_request_of_unfold.
  assert (Hstep : harness.make_request (timeout_of c) path method data w
                  = match harness.parse_body body with
                    | Return parsed => (Return (code, parsed), w')
                    | Raise e =>
                        harness.make_request (timeout_of c) path method data w
                    end).
  { destruct Hdone as [Hopen | [reason Hopen]].
    - rewrite (make_request_response _ _ _ _ _ _ _ _ Hopen), Hread. cbn.
      destruct (harness.parse_body body); reflexivity.
    - rewrite (make_request_http_error _ _ _ _ _ _ _ _ _ Hopen), Hread. cbn.
      destruct (harness.parse_body body); reflexivity. }
  split.
  - intros ->. rewrite Hstep, parse_body_empty. reflexivity.
  - intros v Hne Hjson. rewrite Hstep, (parse_body_nonempty _ Hne).
    unfold loads. rewrite Hjson. reflexivity.
Qed.

(** C8, run: a 200 answer with a JSON list, and a 404 answer with an empty
    body. *)
Lemma C8_make_request_returns_status_and_parsed_body_witness :
  outcome (make_request_of in_test_sessions "/apps/test-app/users/api-test/sessions"
                           "GET" PNone)
          (serving [reply 200 "[1, 2]"])
  = Return (200, PList [PInt 1; PInt 2])
  /\ outcome (make_request_of (in_test_complex_agents 30) "/missing" "GET" PNone)
             (serving [http_error 404 "Not Found" ""])
     = Return (404, PDict []).
Proof.
  split.
  - unfold outcome.
    rewrite (proj2 (C8_make_request_returns_status_and_parsed_body
                      replay in_test_sessions _ "GET" PNone
                      (serving [reply 200 "[1, 2]"]) _ 200 [ReadOk "[1, 2]"] "[1, 2]"
                      (or_introl eq_refl) eq_refl)
                   (PList [PInt 1; PInt 2]));
      [reflexivity | discriminate | vm_compute; reflexivity].
  - unfold outcome.
    rewrite (proj1 (C8_make_request_returns_status_and_parsed_body
                      replay (in_test_complex_agents 30) "/missing" "GET" PNone
                      (serving [http_error 404 "Not Found" ""]) _ 404 [ReadOk ""] ""
                      (or_intror (ex_intro _ "Not Found" eq_refl)) eq_refl)
                   eq_refl).
    reflexivity.
Defined.

(** C2, as stated, fails: [req] of [test_thread_isolation.py] has no [try];
    when the connection is refused the exception leaves the function, and
    the script that called it stops there. *)
Lemma C2_req_raises_on_transport_failure :
  outcome (test_thread_isolation.req "/v1/threads" "POST" (PDict []))
          (serving [Raise refused])
  = Raise refused
  /\ outcome test_thread_isolation.main (serving [Raise refused]) = Raise refused.
Proof. split; vm_compute; reflexivity. Qed.

(** C2, amended. When [urlopen] raises an exception other than [HTTPError]
    (connection refused, timeout, DNS failure), or returns a response whose
    body cannot be read, each of the four copies of [make_request] returns
    status 0 paired with [{"error": str(e)}] and does not raise; [req] of
    [test_thread_isolation.py] lets the exception through. *)
Theorem C2_make_request_absorbs_transport_failure
        (E : Env) (c : copy) (path method : string) (data : value)
        (w w' : World) (cls : exn_class) (msg : string) :
  (urlopen (harness.build_request path method data) (Some (timeout_of c)) w
     = (Raise (Exception cls msg), w') ->
   make_request_of c path method data w
   = (Return (0, PDict [("error", PStr msg)]), w'))
  /\ (forall code pieces,
        urlopen (harness.build_request path method data) (Some (timeout_of c)) w
          = (Return (mkResponse code pieces), w') ->
        read_all pieces = Raise (Exception cls msg) ->
        make_request_of c path method data w
        = (Return (0, PDict [("error", PStr msg)]), w'))
  /\ (urlopen (harness.build_request path method data) (Some 120) w
        = (Raise (Exception cls msg), w') ->
      test_thread_isolation.req path method data w
      = (Raise (Exception cls msg), w')).
Proof.
  rewrite make_request_of_unfold. repeat split.
  - intros Hopen. apply (make_request_other_error _ _ _ _ _ _ _ _ Hopen).
  - intros code pieces Hopen Hread.
    rewrite (make_request_response _ _ _ _ _ _ _ _ Hopen), Hread. reflexivity.
  - intros Hopen. unfold test_thread_isolation.req, bind. rewrite Hopen.
    reflexivity.
Qed.

(** C2, run: the connection is refused; a timeout strikes while the body
    is read; [req] meets the refused connection. *)
Lemma C2_make_request_absorbs_transport_failure_witness :
  outcome (make_request_of in_test_adk "/health" "GET" PNone) (serving [Raise refused])
  = Return (0, PDict [("error", PStr "<urlopen error [Errno 111] Connection refused>")])
  /\ outcome (make_request_of in_test_adk "/health" "GET" PNone)
             (serving [Return (mkResponse 200 [ReadOk "{"; ReadFail TimeoutError "timed out"])])
     = Return (0, PDict [("error", PStr "timed out")]).
Proof.
  split; unfold outcome.
  - rewrite (proj1 (C2_make_request_absorbs_transport_failure
                      replay in_test_adk "/health" "GET" PNone
                      (serving [Raise refused]) _ URLError _) eq_refl).
    reflexivity.
  - rewrite (proj1 (proj2 (C2_make_request_absorbs_transport_failure
                             replay in_test_adk "/health" "GET" PNone
                             (serving [Return (mkResponse 200
                                         [ReadOk "{"; ReadFail TimeoutError "timed out"])])
                             _ TimeoutError "timed out"))
                   200 _ eq_refl eq_refl).
    reflexivity.
Defined.

(** C3, as stated, fails: a 200 answer whose body is HTML comes back as
    status 0 with an error value, not as the raw text; the same body on a
    502 answer makes [make_request] raise. *)
Lemma C3_non_json_body_is_not_surfaced :
  outcome (make_request_of in_test_adk "/health" "GET" PNone)
          (serving [reply 200 "<html>ok</html>"])
  = Return (0, PDict [("error", PStr json.decode_error)])
  /\ outcome (make_request_of in_test_assistants "/v1/assistants" "GET" PNone)
             (serving [http_error 502 "Bad Gateway" "<html>Bad Gateway</html>"])
     = Raise (Exception JSONDecodeError json.decode_error).
Proof. split; vm_compute; reflexivity. Qed.

(** C3, amended. For every response [urlopen] returns whose body is not
    empty and is not valid JSON, each copy of [make_request] returns
    without raising; what it returns is status 0 paired with
    [{"error": <message of the decoder>}]: neither the raw text nor the
    status of the response reaches the caller. *)
Theorem C3_non_json_body_becomes_error_value
        (E : Env) (c : copy) (path method : string) (data : value)
        (w w' : World) (code : Z) (pieces : list chunk) (body msg : string) :
  urlopen (harness.build_request path method data) (Some (timeout_of c)) w
    = (Return (mkResponse code pieces), w') ->
  read_all pieces = Return body ->
  body <> ""%string ->
  json_loads body = inr msg ->
  make_request_of c path method data w
  = (Return (0, PDict [("error", PStr msg)]), w').
Proof.
  intros Hopen Hread Hne Hjson. rewrite make_request_of_unfold.
  rewrite (make_request_response _ _ _ _ _ _ _ _ Hopen), Hread. cbn.
  rewrite (parse_body_nonempty _ Hne). unfold loads. rewrite Hjson. reflexivity.
Qed.

(** C3, run on a 200 answer with an HTML body. *)
Lemma C3_non_json_body_becomes_error_value_witness :
  outcome (make_request_of in_test_sessions "/run" "POST" (PDict [("k", PInt 1)]))
          (serving [reply 200 "<html>ok</html>"])
  = Return (0, PDict [("error", PStr "Expecting value")]).
Proof.
  unfold outcome.
  rewrite (C3_non_json_body_becomes_error_value
             replay in_test_sessions "/run" "POST" (PDict [("k", PInt 1)])
             (serving [reply 200 "<html>ok</html>"]) _ 200 _ "<html>ok</html>"
             "Expecting value" eq_refl eq_refl);
    [reflexivity | discriminate | vm_compute; reflexivity].
Defined.

(** C9. An empty mapping is falsy, so the request built for [data = {}] has
    no body and is the request built for [data = None]; the two calls
    behave alike in every world, for each copy of [make_request].  In
    particular the first request of [test_thread_lifecycle], made with
    [{}], is a POST to [/v1/threads] without a body. *)
Theorem C9_empty_mapping_sends_no_body
        (E : Env) (c : copy) (path method : string) :
  data (harness.build_request path method (PDict [])) = None
  /\ harness.build_request path method (PDict [])
     = harness.build_request path method PNone
  /\ (forall w, make_request_of c path method (PDict []) w
                = make_request_of c path method PNone w)
  /\ sent (snd (test_assistants.test_thread_lifecycle (E := replay)
                  (serving [reply 500 ""])))
     = [mkRequest "http://127.0.0.1:3141/v1/threads" None
                  [("Content-Type", "application/json")] "POST"].
Proof.
  split; [reflexivity |].
  split; [reflexivity |].
  split.
  - intros w. rewrite !make_request_of_unfold.
    unfold harness.make_request.
    change (harness.build_request path method (PDict []))
      with (harness.build_request path method PNone).
    reflexivity.
  - vm_compute. reflexivity.
Qed.

(** ** The [/run] scenario of [test_adk.py] *)

Lemma events_ok_spec (st : Z) (events : value) :
  test_adk.events_ok st events = true
  <-> st = 200 /\ exists event rest, events = PList (event :: rest).
Proof.
  unfold test_adk.events_ok. split.
  - intros H. apply andb_prop in H as [Hst Hlist].
    apply Z.eqb_eq in Hst. split; [exact Hst |].
    destruct events as [| | | | | l |]; try discriminate.
    destruct l as [| event rest]; [discriminate | eauto].
  - intros [-> [event [rest ->]]]. cbn [List.length]. rewrite Z.eqb_refl.
    apply Z.ltb_lt. lia.
Qed.

(** [l[0]] on a list that has a first item. *)
Lemma getitem_int_head (x : value) (rest : list value) :
  PyVal.getitem_int (PList (x :: rest)) 0 = Return x.
Proof. reflexivity. Qed.

(** [d.get(key, default)] on a dict never raises. *)
Lemma get_dict_returns (d : list (string * value)) (key : string) (default : value) :
  exists x, PyVal.get (PDict d) key default = Return x.
Proof. cbn. destruct (PyVal.assoc key d); eauto. Qed.

(** A [bind] whose first step is a pure evaluation. *)
Lemma bind_lift {E : Env} {A B} (r : result A) (k : A -> M B) (w : World) :
  bind (lift r) k w = match r with Return a => k a w | Raise e => (Raise e, w) end.
Proof. unfold bind, lift. destruct r; reflexivity. Qed.

(** A script that returns after a first step: the step returned too. *)
Lemma bind_returns {E : Env} {A B} (m : M A) (k : A -> M B) (w w' : World) (b : B) :
  bind m k w = (Return b, w') ->
  exists a w1, m w = (Return a, w1) /\ k a w1 = (Return b, w').
Proof.
  unfold bind. destruct (m w) as [[a | e] w1]; [eauto | discriminate].
Qed.

(** A pure step leaves the world alone. *)
Lemma lift_returns {E : Env} {A} (r : result A) (w w' : World) (a : A) :
  lift r w = (Return a, w') -> r = Return a /\ w' = w.
Proof. unfold lift. intros H. injection H as -> ->. split; reflexivity. Qed.

(** A script whose first step raises stops there. *)
Lemma bind_raises {E : Env} {A B} (m : M A) (k : A -> M B) (w w' : World) (e : exn) :
  m w = (Raise e, w') -> bind m k w = (Raise e, w').
Proof. unfold bind. intros ->. reflexivity. Qed.

(** A script whose first step returns goes on with its result. *)
Lemma bind_step {E : Env} {A B} (m : M A) (k : A -> M B) (w w' : World) (a : A) :
  m w = (Return a, w') -> bind m k w = k a w'.
Proof. unfold bind. intros ->. reflexivity. Qed.

Lemma ret_returns {E : Env} {A} (x a : A) (w w' : World) :
  ret x w = (Return a, w') -> a = x /\ w' = w.
Proof. unfold ret. intros H. injection H as -> ->. split; reflexivity. Qed.

(** Peels the pure steps off a script that is known to return. *)
Ltac peel H :=
  repeat
    (let a := fresh "a" in
     let w := fresh "w" in
     let Hstep := fresh "Hstep" in
     apply bind_returns in H as (a & w & Hstep & H);
     first
       [ apply lift_returns in Hstep as [Hstep ->]
       | apply ret_returns in Hstep as [-> ->]
       | idtac ]).

(** C4, as stated, fails: [test_run] passes on an answer whose text is
    ["five"], which holds no ["4"], and on a list of two events. *)
Lemma C4_test_run_passes_without_a_four :
  outcome test_adk.test_run five_world = Return true
  /\ PyStr.str_in "4" (one_event "five") = false
  /\ outcome test_adk.test_run (serving [reply 200 "[{}, {}]"]) = Return true.
Proof. repeat split; vm_compute; reflexivity. Qed.

(** C4, amended. [test_run] decides by what [make_request] gives for the
    POST to [/run], and by nothing else.  When [make_request] returns a
    status [st] and a body [events], [test_run] returns [False] if the
    status is not 200 or the body is not a non-empty list; whenever it
    returns, its result is that test; and on status 200 and a list whose
    first event has the documented shape it returns [True] whatever the
    text is.  The text is never compared with ["4"] and the list may hold
    more than one event.  When [make_request] raises, [test_run] raises
    the same exception instead of returning [False]: an answer with an
    error status whose body is not empty and not JSON ends the test with
    [JSONDecodeError]. *)
Theorem C4_test_run_checks_status_and_list_only (E : Env) (w w1 : World) :
  (forall (st : Z) (events : value),
      test_adk.make_request "/run" "POST" test_adk.test_run_payload w
        = (Return (st, events), w1) ->
      (test_adk.events_ok st events = false ->
       test_adk.test_run w = (Return false, w1))
      /\ (forall b w2, test_adk.test_run w = (Return b, w2) ->
                       b = test_adk.events_ok st events /\ w2 = w1)
      /\ (forall (event content part : list (string * value))
                 (more others : list value) (text : string),
             st = 200 ->
             events = PList (PDict event :: more) ->
             PyVal.assoc "content" event = Some (PDict content) ->
             PyVal.assoc "parts" content = Some (PList (PDict part :: others)) ->
             PyVal.assoc "text" part = Some (PStr text) ->
             test_adk.test_run w = (Return true, w1)))
  /\ (forall e,
         test_adk.make_request "/run" "POST" test_adk.test_run_payload w = (Raise e, w1) ->
         test_adk.test_run w = (Raise e, w1))
  /\ (forall (code : Z) (reason : string) (pieces : list chunk) (body msg : string),
         urlopen (harness.build_request "/run" "POST" test_adk.test_run_payload)
                 (Some 120) w
           = (Raise (HTTPError code reason pieces), w1) ->
         read_all pieces = Return body -> body <> ""%string ->
         json_loads body = inr msg ->
         test_adk.test_run w = (Raise (Exception JSONDecodeError msg), w1)).
Proof.
  assert (Hraise : forall e,
             test_adk.make_request "/run" "POST" test_adk.test_run_payload w
               = (Raise e, w1) ->
             test_adk.test_run w = (Raise e, w1)).
  { intros e Hcall. unfold test_adk.test_run. apply (bind_raises _ _ _ _ _ Hcall). }
  split; [| split; [exact Hraise |]].
  - intros st events Hcall. unfold test_adk.test_run. split; [| split].
    + intros Hno. unfold bind at 1. rewrite Hcall, Hno. reflexivity.
    + intros b w2 Hrun. unfold bind at 1 in Hrun. rewrite Hcall in Hrun.
      destruct (test_adk.events_ok st events).
      * peel Hrun. apply ret_returns in Hrun as [-> ->].
        match goal with
        | Hprint : context [PyVal.truthy ?parts] |- _ =>
            destruct (PyVal.truthy parts);
            [ peel Hprint; apply ret_returns in Hprint as [_ ->]
            | apply ret_returns in Hprint as [_ ->] ]
        end; split; reflexivity.
      * apply ret_returns in Hrun as [-> ->]. split; reflexivity.
    + intros event content part more others text -> -> Hcontent Hparts Htext.
      unfold bind at 1. rewrite Hcall.
      change (test_adk.events_ok 200 (PList (PDict event :: more))) with true.
      cbv iota. rewrite bind_lift, getitem_int_head.
      destruct (get_dict_returns event "id" PNone) as [x1 H1].
      destruct (get_dict_returns event "invocation_id" PNone) as [x2 H2].
      destruct (get_dict_returns event "author" PNone) as [x3 H3].
      rewrite bind_lift, H1, bind_lift, H2, bind_lift, H3.
      rewrite bind_lift. cbn [PyVal.get]. rewrite Hcontent.
      rewrite bind_lift. cbn [PyVal.get]. rewrite Hparts.
      unfold bind at 1. cbn [PyVal.truthy].
      rewrite bind_lift, getitem_int_head.
      rewrite bind_lift. cbn [PyVal.get]. rewrite Htext.
      reflexivity.
  - intros code reason pieces body msg Hopen Hread Hne Hjson.
    apply Hraise. unfold test_adk.make_request.
    apply (make_request_bad_error_body _ _ _ _ _ _ _ _ _ _ _ Hopen Hread Hne Hjson).
Qed.

(** C4, run on the answer whose text is ["five"], and on a 502 answer
    with an HTML body. *)
Lemma C4_test_run_checks_status_and_list_only_witness :
  (true = test_adk.events_ok 200 (decoded (one_event "five"))
   /\ snd (test_adk.test_run (E := replay) five_world)
      = snd (test_adk.make_request (E := replay) "/run" "POST"
               test_adk.test_run_payload five_world))
  /\ outcome test_adk.test_run
             (serving [http_error 502 "Bad Gateway" "<html>Bad Gateway</html>"])
     = Raise (Exception JSONDecodeError "Expecting value").
Proof.
  split.
  - exact (proj1 (proj2 (proj1 (C4_test_run_checks_status_and_list_only
                                  replay five_world _)
                               200 (decoded (one_event "five")) eq_refl))
                 true _ eq_refl).
  - unfold outcome.
    rewrite (proj2 (proj2 (C4_test_run_checks_status_and_list_only
                             replay
                             (serving [http_error 502 "Bad Gateway"
                                                  "<html>Bad Gateway</html>"])
                             _))
                   502 "Bad Gateway" _ "<html>Bad Gateway</html>" "Expecting value"
                   eq_refl eq_refl);
      [reflexivity | discriminate | vm_compute; reflexivity].
Defined.

(** ** The score of the loop agent *)

(** The clamp, and the default of the bare [except], both lie in range. *)
Lemma extract_score_bounds (score_response : value) :
  1 <= test_complex_agents.extract_score score_response <= 10.
Proof.
  unfold test_complex_agents.extract_score.
  destruct (rbind (PyVal.slice_to score_response 5)
                  (fun head => rbind (test_complex_agents.join_digits head)
                                     test_complex_agents.to_int)) as [score | e];
    lia.
Qed.

(** C10. Whatever the evaluator answered, the score read from it lies
    between 1 and 10.  For a string it is the number written by the digits
    among its first five characters, clamped to that range, and 5 when
    those digits do not make a number (none of them, or a superscript
    digit). *)
Theorem C10_extract_score_in_range (score_response : value) (text : string) :
  1 <= test_complex_agents.extract_score score_response <= 10
  /\ test_complex_agents.extract_score (PStr text)
     = match PyStr.int_of_digits (PyStr.filter_digits (PyStr.take 5 text)) with
       | Some score => Z.min (Z.max score 1) 10
       | None => 5
       end
  /\ test_complex_agents.extract_score (PStr "") = 5.
Proof.
  split; [apply extract_score_bounds | split; [| reflexivity]].
  unfold test_complex_agents.extract_score.
  change (rbind (PyVal.slice_to (PStr text) 5)
                (fun head => rbind (test_complex_agents.join_digits head)
                                   test_complex_agents.to_int))
    with (test_complex_agents.to_int (PyStr.filter_digits (PyStr.take 5 text))).
  unfold test_complex_agents.to_int.
  destruct (PyStr.int_of_digits (PyStr.filter_digits (PyStr.take 5 text)));
    reflexivity.
Qed.

(** The loop keeps the invariant: a score it returns after at least one
    round is a score read by [extract_score]. *)
Lemma refine_score_in_range {E : Env} (session_id : string) (n : nat) :
  forall (i : Z) (draft : value) (start : Z) (w w' : World) (score : Z) (final : value),
    test_complex_agents.refine session_id n i draft start w = (Return (score, final), w') ->
    (n = O -> 1 <= start <= 10) ->
    1 <= score <= 10.
Proof.
  induction n as [| n IH]; intros i draft start w w' score final Hrun Hstart.
  - cbn in Hrun. apply ret_returns in Hrun as [Heq _].
    injection Heq as -> _. apply Hstart. reflexivity.
  - cbn [test_complex_agents.refine] in Hrun.
    apply bind_returns in Hrun as (reply & w1 & _ & Hrun).
    pose proof (extract_score_bounds reply) as Hbound.
    destruct (test_complex_agents.quality_threshold
              <=? test_complex_agents.extract_score reply).
    + apply ret_returns in Hrun as [Heq _]. injection Heq as -> _. exact Hbound.
    + peel Hrun. apply (IH _ _ _ _ _ _ _ Hrun). intros _. exact Hbound.
Qed.

(** ** The streaming consumers *)

(** C5, on the code: [test_sse_streaming] does not stop at the sentinel.
    A stream that ends with [[DONE]] alone counts no event and the test
    fails; the same stream followed by one more event counts that event,
    keeps its text, and the test passes. *)
Theorem C5_sse_test_reads_past_done :
  outcome test_agent.test_sse_streaming (serving [Return (mkResponse 200 [ReadOk done_event])])
  = Return false
  /\ outcome test_agent.sse_consume
             (serving [Return (mkResponse 200 [ReadOk (done_event ++ late_event)])])
     = Return (test_agent.mkSse 1 (PStr "late"))
  /\ outcome test_agent.test_sse_streaming
             (serving [Return (mkResponse 200 [ReadOk (done_event ++ late_event)])])
     = Return true.
Proof. repeat split; vm_compute; reflexivity. Qed.

(** The loop of [send_with_image_streaming] prints the payloads before the
    sentinel and nothing after it. *)
Lemma print_events_stops_at_done (payloads : list string) (rest : list chunk) :
  Forall (fun p => p <> "[DONE]"%string) payloads ->
  adk_image_example.print_events
    (map (fun p => ReadOk ("data: " ++ p)) payloads ++ ReadOk "data: [DONE]" :: rest)
  = (payloads, None).
Proof.
  induction 1 as [| p ps Hp _ IH]; [reflexivity |].
  cbn [map app adk_image_example.print_events]. rewrite IH.
  change (PyStr.drop 6 ("data: " ++ p)) with p.
  destruct (String.eqb_spec p "[DONE]") as [Heq | _]; [contradiction | destruct p; reflexivity].
Qed.

(** The inner loop of [test_sse_streaming] never runs out of fuel: with
    fuel above the length of the buffer it stops on an exception or on a
    buffer without separator. *)
Lemma split_once_shorter (sep s before rest : string) :
  PyStr.split_once sep s = Some (before, rest) ->
  (String.length rest + String.length sep <= String.length s)%nat.
Proof.
  revert before rest. induction s as [| c s IH]; intros before rest.
  - cbn. destruct sep as [| d sep']; cbn; [| discriminate].
    intros H. injection H as _ <-. cbn. lia.
  - cbn [PyStr.split_once].
    destruct (prefix sep (String c s)) eqn:Hpre.
    + intros H. injection H as _ <-.
      clear IH. revert Hpre. generalize (String c s) as t. clear c s.
      induction sep as [| d sep' IHsep]; intros t Hpre; cbn.
      * lia.
      * destruct t as [| c t']; [discriminate |]. cbn in Hpre.
        destruct (ascii_dec d c); [| discriminate].
        specialize (IHsep t' Hpre). cbn. lia.
    + destruct (PyStr.split_once sep s) as [[b r] |] eqn:Hrec; [| discriminate].
      intros H. injection H as _ <-. specialize (IH _ _ eq_refl). cbn. lia.
Qed.

Lemma drain_finishes {E : Env} (fuel : nat) :
  forall (buffer : string) (st : test_agent.sse_state),
    (String.length buffer < fuel)%nat ->
    match test_agent.drain fuel buffer st with
    | (_, _, Some _) => True
    | (_, remaining, None) => PyStr.split_once test_agent.event_sep remaining = None
    end.
Proof.
  induction fuel as [| fuel IH]; intros buffer st Hlen; [lia |].
  cbn [test_agent.drain].
  destruct (PyStr.split_once test_agent.event_sep buffer) as [[line rest] |] eqn:Hsplit.
  - destruct (test_agent.handle_line line st) as [st' [e |]]; [exact I |].
    apply IH. apply split_once_shorter in Hsplit. cbn in Hsplit. lia.
  - exact Hsplit.
Qed.

(** ** The multi-turn test *)

(** C6, on the code: with the server down every turn raises, every turn
    adds an ["ERROR: ..."] entry, and [test_multi_turn] passes on four
    entries none of which is an answer. *)
Theorem C6_multi_turn_passes_on_errors :
  outcome (test_agent.run_conversation 1 test_agent.multi_turn_messages) (serving [])
  = Return [PStr "ERROR: <urlopen error [Errno 111] Connection refused>";
            PStr "ERROR: <urlopen error [Errno 111] Connection refused>";
            PStr "ERROR: <urlopen error [Errno 111] Connection refused>";
            PStr "ERROR: <urlopen error [Errno 111] Connection refused>"]
  /\ outcome (test_agent.test_multi_turn 1) (serving []) = Return true.
Proof. split; vm_compute; reflexivity. Qed.

(** Whatever the server does, a turn adds at most one entry, and a turn
    that raises adds exactly one: the count alone cannot tell an answer
    from an error. *)
Lemma converse_all_errors {E : Env} (session_id : string) (messages : list string) :
  forall (responses : list value) (w : World),
    (forall req timeout w0, exists e w1, urlopen req timeout w0 = (Raise e, w1)) ->
    exists (final : list value) (w' : World),
      test_agent.converse session_id messages responses w = (Return final, w')
      /\ List.length final = (List.length responses + List.length messages)%nat.
Proof.
  induction messages as [| message rest IH]; intros responses w Hdown.
  - exists responses, w. split; [reflexivity | cbn; lia].
  - cbn [test_agent.converse].
    destruct (Hdown (mkRequest (BASE_URL ++ "/run")
                       (Some (json_dumps (run_payload "math-agent" "test-user"
                                            session_id message)))
                       test_agent.json_headers "POST") (Some 120) w)
      as (e & w1 & Hopen).
    unfold bind at 1, try_except, bind at 1. rewrite Hopen. cbn [ret].
    destruct (IH (responses ++ [PStr ("ERROR: " ++ exn_str e)])%list w1 Hdown)
      as (final & w' & Hrun & Hlen).
    exists final, w'. split; [exact Hrun |].
    rewrite Hlen, length_app. cbn. lia.
Qed.

(** ** The session-management tests *)

(** One round of the creation loop: the list grows by one exactly when the
    status is 201. *)
Lemma create_sessions_round {E : Env} (n : nat) (ids final : list value)
      (w w1 wf : World) (st : Z) (session : value) :
  test_sessions.make_request test_sessions.api_path "POST" PNone w
    = (Return (st, session), w1) ->
  test_sessions.create_sessions (S n) ids w = (Return final, wf) ->
  exists ids',
    test_sessions.create_sessions n ids' w1 = (Return final, wf)
    /\ List.length ids' = (List.length ids + if (st =? 201)%Z then 1 else 0)%nat.
Proof.
  intros Hcall Hrun. cbn [test_sessions.create_sessions] in Hrun.
  unfold bind at 1 in Hrun. rewrite Hcall in Hrun.
  destruct (st =? 201).
  - peel Hrun. eexists. split; [exact Hrun |]. rewrite length_app. reflexivity.
  - exists ids. split; [exact Hrun | lia].
Qed.

(** One round of the creation loop, forwards: the id is recorded exactly
    when the status is 201, and the print of line 158 must go through. *)
Lemma create_sessions_step {E : Env} (n : nat) (ids : list value)
      (w w1 : World) (st : Z) (session : value) :
  test_sessions.make_request test_sessions.api_path "POST" PNone w
    = (Return (st, session), w1) ->
  (st = 201 -> session_shown session = true) ->
  test_sessions.create_sessions (S n) ids w
  = test_sessions.create_sessions n (recorded ids st session) w1.
Proof.
  intros Hcall Hshown. cbn [test_sessions.create_sessions].
  rewrite (bind_step _ _ _ _ _ Hcall). unfold recorded.
  destruct (Z.eqb_spec st 201) as [Hst | Hst]; [| reflexivity].
  specialize (Hshown Hst). unfold session_shown in Hshown.
  destruct session as [| | | | | | fields]; try discriminate Hshown.
  cbn [PyVal.get session_id_of] in *.
  destruct (PyVal.assoc "id" fields) as [id |]; cbn [rbind] in Hshown.
  - rewrite !bind_lift. destruct (PyVal.slice_to id 30); [reflexivity | discriminate].
  - rewrite !bind_lift. reflexivity.
Qed.

(** One round of the creation loop, backwards: a loop that returned made
    a request that returned. *)
Lemma create_sessions_inv {E : Env} (n : nat) (ids final : list value) (w wf : World) :
  test_sessions.create_sessions (S n) ids w = (Return final, wf) ->
  exists st session w1,
    test_sessions.make_request test_sessions.api_path "POST" PNone w
      = (Return (st, session), w1)
    /\ (st = 201 -> session_shown session = true)
    /\ test_sessions.create_sessions n (recorded ids st session) w1 = (Return final, wf).
Proof.
  intros Hrun. cbn [test_sessions.create_sessions] in Hrun.
  apply bind_returns in Hrun as ([st session] & w1 & Hcall & Hrun).
  exists st, session, w1. split; [exact Hcall |].
  unfold recorded. destruct (Z.eqb_spec st 201) as [Hst | Hst].
  - apply bind_returns in Hrun as (id & wa & Hid & Hrun).
    apply lift_returns in Hid as [Hid ->].
    apply bind_returns in Hrun as (shown & wb & Hshown & Hrun).
    apply lift_returns in Hshown as [Hshown ->].
    apply bind_returns in Hrun as (cut & wc & Hcut & Hrun).
    apply lift_returns in Hcut as [Hcut ->].
    split.
    + intros _. unfold session_shown. rewrite Hshown. cbn [rbind]. rewrite Hcut.
      reflexivity.
    + assert (Heq : id = session_id_of session).
      { destruct session as [| | | | | | fields]; try discriminate Hid.
        cbn [PyVal.get session_id_of] in *.
        destruct (PyVal.assoc "id" fields); injection Hid as <-; reflexivity. }
      rewrite <- Heq. exact Hrun.
  - split; [intros Heq; contradiction | exact Hrun].
Qed.

(** The delete loop returns whatever the requests do. *)
Lemma delete_sessions_returns {E : Env} (ids : list value) :
  forall w, test_sessions.delete_sessions ids w
            = (Return tt, deleted ids w).
Proof.
  unfold deleted.
  induction ids as [| id rest IH]; intros w; [reflexivity |].
  cbn [test_sessions.delete_sessions]. unfold bind at 1 3.
  match goal with
  | |- context [try_except ?body ?handler w] =>
      assert (Htry : exists w1, try_except body handler w = (Return tt, w1))
  end.
  { unfold try_except, bind.
    match goal with
    | |- context [urlopen ?req ?timeout w] =>
        destruct (urlopen req timeout w) as [[resp | e] w1]
    end; eexists; reflexivity. }
  destruct Htry as [w1 ->]. apply IH.
Qed.

Lemma created_count (s1 s2 s3 : Z) (x1 x2 x3 : value) :
  (Z.of_nat (List.length (recorded (recorded (recorded [] s1 x1) s2 x2) s3 x3)) =? 3)
  = (s1 =? 201) && (s2 =? 201) && (s3 =? 201).
Proof.
  unfold recorded.
  destruct (s1 =? 201), (s2 =? 201), (s3 =? 201); reflexivity.
Qed.

(** C7, as stated, fails.  [test_session_api] passes on a server whose
    list never shows the three new sessions, whose deletes all fail with
    status 500 and whose final list has three entries more than the first;
    [test_sessions] passes when the delete is answered with status 200. *)
Lemma C7_session_tests_pass_off_criterion :
  outcome test_sessions.test_session_api stuck_world = Return true
  /\ outcome test_adk.test_sessions lax_world = Return true.
Proof. split; vm_compute; reflexivity. Qed.

(** C7, amended.  [test_session_api] decides by the statuses of its three
    create calls.  Whenever it returns, its six calls of [make_request]
    have returned and its result says whether the three creates gave
    status 201; and when those calls return, and the print of each created
    id goes through, it returns that result: the lists before and after
    are printed and never compared, and what the deletes do is ignored.
    When a list request makes [make_request] raise, the test raises the
    same exception.  [test_sessions] returns [True] only when its create
    call returned status 201; after a 201 create with a JSON object, once
    the list and the lookup have returned, it passes when the delete
    request gets a response, when that raises [HTTPError] it passes only
    on code 204, and any other exception leaves the test; the list it
    fetches in between is not looked at. *)
Theorem C7_session_tests_check_create_status (E : Env) :
  (forall (w0 w1 w2 w3 w4 wf : World) (before : Z * value)
          (s1 s2 s3 : Z) (x1 x2 x3 : value) (b : bool),
      test_sessions.make_request test_sessions.api_path "GET" PNone w0
        = (Return before, w1) ->
      test_sessions.make_request test_sessions.api_path "POST" PNone w1
        = (Return (s1, x1), w2) ->
      test_sessions.make_request test_sessions.api_path "POST" PNone w2
        = (Return (s2, x2), w3) ->
      test_sessions.make_request test_sessions.api_path "POST" PNone w3
        = (Return (s3, x3), w4) ->
      test_sessions.test_session_api w0 = (Return b, wf) ->
      b = (s1 =? 201) && (s2 =? 201) && (s3 =? 201))
  /\ (forall (w w1 wf : World) (st : Z) (session : value) (b : bool),
         test_adk.make_request test_adk.sessions_path "POST" PNone w
           = (Return (st, session), w1) ->
         test_adk.test_sessions w = (Return b, wf) ->
         b = true -> st = 201)
  /\ (forall (w w1 w2 w3 w4 : World) (fields : list (string * value))
             (listing fetched : Z * value) (o : result response),
         let session_id :=
           match PyVal.assoc "id" fields with Some id => id | None => PNone end in
         let target := test_adk.sessions_path ++ "/" ++ py_str session_id in
         test_adk.make_request test_adk.sessions_path "POST" PNone w
           = (Return (201, PDict fields), w1) ->
         test_adk.make_request test_adk.sessions_path "GET" PNone w1
           = (Return listing, w2) ->
         test_adk.make_request target "GET" PNone w2 = (Return fetched, w3) ->
         urlopen (mkRequest (BASE_URL ++ target) None [] "DELETE") None w3 = (o, w4) ->
         test_adk.test_sessions w
         = (match o with
            | Return _ => Return true
            | Raise (HTTPError code _ _) => Return (code =? 204)
            | Raise e => Raise e
            end, w4))
  /\ (forall (w0 wf : World) (b : bool),
         test_sessions.test_session_api w0 = (Return b, wf) ->
         exists (before after final : Z * value) (s1 s2 s3 : Z) (x1 x2 x3 : value)
                (w1 w2 w3 w4 w5 : World),
           test_sessions.make_request test_sessions.api_path "GET" PNone w0
             = (Return before, w1)
           /\ test_sessions.make_request test_sessions.api_path "POST" PNone w1
              = (Return (s1, x1), w2)
           /\ test_sessions.make_request test_sessions.api_path "POST" PNone w2
              = (Return (s2, x2), w3)
           /\ test_sessions.make_request test_sessions.api_path "POST" PNone w3
              = (Return (s3, x3), w4)
           /\ test_sessions.make_request test_sessions.api_path "GET" PNone w4
              = (Return after, w5)
           /\ test_sessions.make_request test_sessions.api_path "GET" PNone
                (deleted (recorded (recorded (recorded [] s1 x1) s2 x2) s3 x3) w5)
              = (Return final, wf)
           /\ b = (s1 =? 201) && (s2 =? 201) && (s3 =? 201))
  /\ (forall (w0 w1 w2 w3 w4 w5 : World) (before after : Z * value)
             (s1 s2 s3 : Z) (x1 x2 x3 : value),
         test_sessions.make_request test_sessions.api_path "GET" PNone w0
           = (Return before, w1) ->
         test_sessions.make_request test_sessions.api_path "POST" PNone w1
           = (Return (s1, x1), w2) ->
         test_sessions.make_request test_sessions.api_path "POST" PNone w2
           = (Return (s2, x2), w3) ->
         test_sessions.make_request test_sessions.api_path "POST" PNone w3
           = (Return (s3, x3), w4) ->
         (s1 = 201 -> session_shown x1 = true) ->
         (s2 = 201 -> session_shown x2 = true) ->
         (s3 = 201 -> session_shown x3 = true) ->
         test_sessions.make_request test_sessions.api_path "GET" PNone w4
           = (Return after, w5) ->
         forall (r : result (Z * value)) (w6 : World),
           test_sessions.make_request test_sessions.api_path "GET" PNone
             (deleted (recorded (recorded (recorded [] s1 x1) s2 x2) s3 x3) w5)
             = (r, w6) ->
           test_sessions.test_session_api w0
           = (match r with
              | Return _ => Return ((s1 =? 201) && (s2 =? 201) && (s3 =? 201))
              | Raise e => Raise e
              end, w6))
  /\ (forall (w0 w1 w2 w3 w4 w5 : World) (before : Z * value)
             (s1 s2 s3 : Z) (x1 x2 x3 : value) (e : exn),
         test_sessions.make_request test_sessions.api_path "GET" PNone w0
           = (Return before, w1) ->
         test_sessions.make_request test_sessions.api_path "POST" PNone w1
           = (Return (s1, x1), w2) ->
         test_sessions.make_request test_sessions.api_path "POST" PNone w2
           = (Return (s2, x2), w3) ->
         test_sessions.make_request test_sessions.api_path "POST" PNone w3
           = (Return (s3, x3), w4) ->
         (s1 = 201 -> session_shown x1 = true) ->
         (s2 = 201 -> session_shown x2 = true) ->
         (s3 = 201 -> session_shown x3 = true) ->
         test_sessions.make_request test_sessions.api_path "GET" PNone w4
           = (Raise e, w5) ->
         test_sessions.test_session_api w0 = (Raise e, w5))
  /\ (forall (w0 w1 : World) (e : exn),
         test_sessions.make_request test_sessions.api_path "GET" PNone w0
           = (Raise e, w1) ->
         test_sessions.test_session_api w0 = (Raise e, w1))
  /\ (forall (w wf : World),
         test_adk.test_sessions w = (Return true, wf) ->
         exists session w1,
           test_adk.make_request test_adk.sessions_path "POST" PNone w
           = (Return (201, session), w1)).
Proof.
  assert (Hcreated : forall (w1 w2 w3 w4 : World) (s1 s2 s3 : Z) (x1 x2 x3 : value),
             test_sessions.make_request test_sessions.api_path "POST" PNone w1
               = (Return (s1, x1), w2) ->
             test_sessions.make_request test_sessions.api_path "POST" PNone w2
               = (Return (s2, x2), w3) ->
             test_sessions.make_request test_sessions.api_path "POST" PNone w3
               = (Return (s3, x3), w4) ->
             (s1 = 201 -> session_shown x1 = true) ->
             (s2 = 201 -> session_shown x2 = true) ->
             (s3 = 201 -> session_shown x3 = true) ->
             test_sessions.create_sessions 3 [] w1
             = (Return (recorded (recorded (recorded [] s1 x1) s2 x2) s3 x3), w4)).
  { intros w1 w2 w3 w4 s1 s2 s3 x1 x2 x3 H1 H2 H3 Hs1 Hs2 Hs3.
    rewrite (create_sessions_step _ _ _ _ _ _ H1 Hs1).
    rewrite (create_sessions_step _ _ _ _ _ _ H2 Hs2).
    rewrite (create_sessions_step _ _ _ _ _ _ H3 Hs3).
    reflexivity. }
  split; [| split; [| split; [| split; [| split; [| split; [| split]]]]]].
  - intros w0 w1 w2 w3 w4 wf before s1 s2 s3 x1 x2 x3 b H0 H1 H2 H3 Hrun.
    unfold test_sessions.test_session_api in Hrun.
    unfold bind at 1 in Hrun. rewrite H0 in Hrun.
    apply bind_returns in Hrun as (ids & wa & Hcreate & Hrun).
    destruct (create_sessions_round _ _ _ _ _ _ _ _ H1 Hcreate) as (l1 & Hc1 & Hl1).
    destruct (create_sessions_round _ _ _ _ _ _ _ _ H2 Hc1) as (l2 & Hc2 & Hl2).
    destruct (create_sessions_round _ _ _ _ _ _ _ _ H3 Hc2) as (l3 & Hc3 & Hl3).
    cbn in Hc3. apply ret_returns in Hc3 as [-> _].
    peel Hrun. apply ret_returns in Hrun as [-> _].
    rewrite Hl3, Hl2, Hl1. cbn [List.length].
    destruct (s1 =? 201), (s2 =? 201), (s3 =? 201); reflexivity.
  - intros w w1 wf st session b Hcall Hrun Hb. subst b.
    unfold test_adk.test_sessions in Hrun.
    unfold bind at 1 in Hrun. rewrite Hcall in Hrun.
    apply bind_returns in Hrun as (shown & wa & _ & Hrun).
    destruct (st =? 201) eqn:Hst.
    + apply Z.eqb_eq. exact Hst.
    + cbn in Hrun. discriminate.
  - intros w w1 w2 w3 w4 fields listing fetched o session_id target H0 H1 H2 H3.
    unfold test_adk.test_sessions.
    unfold bind at 1. rewrite H0.
    rewrite bind_lift. cbn [PyVal.get].
    assert (Hshown : exists shown,
               match PyVal.assoc "id" fields with
               | Some x => Return x
               | None => Return (PStr "N/A")
               end = Return shown)
      by (destruct (PyVal.assoc "id" fields); eauto).
    destruct Hshown as [shown ->].
    change (negb (201 =? 201)) with false. cbv iota.
    rewrite bind_lift.
    assert (Hid : match PyVal.assoc "id" fields with
                  | Some x => Return x
                  | None => Return PNone
                  end = Return session_id)
      by (unfold session_id; destruct (PyVal.assoc "id" fields); reflexivity).
    rewrite Hid.
    unfold bind at 1. rewrite H1.
    unfold bind at 1. fold target. rewrite H2.
    unfold try_except, bind.
    change (BASE_URL ++ test_adk.sessions_path ++ "/" ++ py_str session_id)%string
      with (BASE_URL ++ target)%string.
    rewrite H3.
    destruct o as [resp | [code reason body | cls msg]]; reflexivity.
  - intros w0 wf b Hrun. unfold test_sessions.test_session_api in Hrun.
    apply bind_returns in Hrun as (before & w1 & H0 & Hrun).
    apply bind_returns in Hrun as (ids & w4 & Hcreate & Hrun).
    apply create_sessions_inv in Hcreate as (s1 & x1 & w2 & H1 & _ & Hcreate).
    apply create_sessions_inv in Hcreate as (s2 & x2 & w3 & H2 & _ & Hcreate).
    apply create_sessions_inv in Hcreate as (s3 & x3 & w4' & H3 & _ & Hcreate).
    cbn [test_sessions.create_sessions] in Hcreate.
    apply ret_returns in Hcreate as [-> ->].
    apply bind_returns in Hrun as (after & w5 & H4 & Hrun).
    apply bind_returns in Hrun as (done & wd & Hdelete & Hrun).
    rewrite delete_sessions_returns in Hdelete. injection Hdelete as _ <-.
    apply bind_returns in Hrun as (final & w6 & H5 & Hrun).
    apply ret_returns in Hrun as [-> ->].
    exists before, after, final, s1, s2, s3, x1, x2, x3, w1, w2, w3, w4', w5.
    repeat (split; [eassumption |]). apply created_count.
  - intros w0 w1 w2 w3 w4 w5 before after s1 s2 s3 x1 x2 x3
           H0 H1 H2 H3 Hs1 Hs2 Hs3 H4 r w6 H5.
    unfold test_sessions.test_session_api.
    rewrite (bind_step _ _ _ _ _ H0).
    rewrite (bind_step _ _ _ _ _ (Hcreated _ _ _ _ _ _ _ _ _ _ H1 H2 H3 Hs1 Hs2 Hs3)).
    rewrite (bind_step _ _ _ _ _ H4).
    rewrite (bind_step _ _ _ _ _ (delete_sessions_returns _ _)).
    destruct r as [final | e].
    + rewrite (bind_step _ _ _ _ _ H5). unfold ret. rewrite created_count. reflexivity.
    + apply (bind_raises _ _ _ _ _ H5).
  - intros w0 w1 w2 w3 w4 w5 before s1 s2 s3 x1 x2 x3 e
           H0 H1 H2 H3 Hs1 Hs2 Hs3 H4.
    unfold test_sessions.test_session_api.
    rewrite (bind_step _ _ _ _ _ H0).
    rewrite (bind_step _ _ _ _ _ (Hcreated _ _ _ _ _ _ _ _ _ _ H1 H2 H3 Hs1 Hs2 Hs3)).
    apply (bind_raises _ _ _ _ _ H4).
  - intros w0 w1 e H0. unfold test_sessions.test_session_api.
    apply (bind_raises _ _ _ _ _ H0).
  - intros w wf Hrun. unfold test_adk.test_sessions in Hrun.
    apply bind_returns in Hrun as ([st session] & w1 & Hcall & Hrun).
    apply bind_returns in Hrun as (shown & wa & _ & Hrun).
    destruct (Z.eqb_spec st 201) as [-> | Hst].
    + exists session, w1. exact Hcall.
    + cbn in Hrun. discriminate.
Qed.

(** C7, run on the server whose lists and deletes are off, and on a
    server that answers the list after the creation with a 502 page. *)
Lemma C7_session_tests_check_create_status_witness :
  outcome test_sessions.test_session_api stuck_world
  = Return ((201 =? 201) && (201 =? 201) && (201 =? 201))
  /\ outcome test_sessions.test_session_api broken_list_world
     = Raise (Exception JSONDecodeError "Expecting value").
Proof.
  split.
  - rewrite <- (proj1 (C7_session_tests_check_create_status replay)
                  stuck_world _ _ _ _ _ _ 201 201 201 _ _ _ true
                  eq_refl eq_refl eq_refl eq_refl eq_refl).
    vm_compute. reflexivity.
  - unfold outcome.
    erewrite (proj1 (proj2 (proj2 (proj2 (proj2 (proj2
                (C7_session_tests_check_create_status replay))))))
                broken_list_world _ _ _ _ _ _ 201 201 201
                (decoded (session_json "s1")) (decoded (session_json "s2"))
                (decoded (session_json "s3")) _
                eq_refl eq_refl eq_refl eq_refl
                (fun _ => eq_refl) (fun _ => eq_refl) (fun _ => eq_refl) eq_refl).
    reflexivity.
Defined.

(** ** The isolation tests *)

(** Text added at the end of a string removes no occurrence from it. *)
Lemma prefix_app (needle s extra : string) :
  prefix needle s = true -> prefix needle (s ++ extra) = true.
Proof.
  revert needle. induction s as [| c s IH]; intros needle.
  - destruct needle as [| a needle']; [destruct extra; reflexivity | discriminate].
  - destruct needle as [| a needle']; [reflexivity |]. cbn.
    destruct (ascii_dec a c); [apply IH | discriminate].
Qed.

Lemma str_in_app (needle s extra : string) :
  PyStr.str_in needle s = true -> PyStr.str_in needle (s ++ extra) = true.
Proof.
  induction s as [| c s IH].
  - cbn. rewrite orb_false_r. intros H.
    assert (Hempty : needle = ""%string) by (destruct needle; [reflexivity | discriminate]).
    subst needle. destruct extra; reflexivity.
  - cbn [PyStr.str_in append]. intros H. apply orb_prop in H as [H | H].
    + pose proof (prefix_app _ (String c s) extra H) as Hp. cbn [append] in Hp.
      rewrite Hp. reflexivity.
    + rewrite (IH H). apply orb_true_r.
Qed.

Lemma lower_app (s extra : string) :
  PyStr.lower (s ++ extra) = (PyStr.lower s ++ PyStr.lower extra)%string.
Proof. induction s as [| c s IH]; cbn; [| rewrite IH]; reflexivity. Qed.

(** C1, as stated, fails.  On a server that repeats the sums of session A
    in the later answers of session B, [test_session_isolation] passes;
    the thread script passes on a server that does the same with threads. *)
Lemma C1_isolation_passes_on_a_leak :
  outcome (test_sessions.test_session_isolation 1234 5678) leaky_world = Return true
  /\ PyStr.str_in "30" leak_b2 = true
  /\ PyStr.str_in "30" leak_b3 = true
  /\ outcome test_thread_isolation.main leaky_threads = Return true
  /\ PyStr.str_in "300" leak_thread_b2 = true.
Proof. repeat split; vm_compute; reflexivity. Qed.

(** C1, amended.  The isolation tests check that each conversation kept
    its own context, not that it is free of the other's.  With the six
    answers of [test_session_isolation] being texts, it passes exactly
    when the second answer of session A contains "30" or "60" and the
    first answer of session B contains "blue" or its second answer
    contains "green", case ignored; the third answers are not looked at.
    The thread script passes exactly when the last answer of thread A
    contains "300" or "three hundred" and the last answer of thread B
    contains "green", case ignored.  No answer of B is searched for a fact
    of A: text added to the answers of session B never turns a pass into a
    failure. *)
Theorem C1_isolation_checks_own_context (E : Env) :
  (forall (draw_a draw_b : Z) (w0 w1 w2 w3 w4 w5 w6 : World)
          (a1 a3 b3 : value) (a2 b1_text b2_text : string),
      let session_a := "session_A_" ++ PyStr.of_Z draw_a in
      let session_b := "session_B_" ++ PyStr.of_Z draw_b in
      test_sessions.run_turn session_a "What is 10 + 20? Just give the number." 1 w0
        = (Return a1, w1) ->
      test_sessions.run_turn session_b "What color is the sky on a clear day? One word." 1 w1
        = (Return (PStr b1_text), w2) ->
      test_sessions.run_turn session_a "Double that result." 2 w2
        = (Return (PStr a2), w3) ->
      test_sessions.run_turn session_b "And what about grass? One word." 2 w3
        = (Return (PStr b2_text), w4) ->
      test_sessions.run_turn session_a "What was the original number before doubling?" 3 w4
        = (Return a3, w5) ->
      test_sessions.run_turn session_b "What was the first color I asked about?" 3 w5
        = (Return b3, w6) ->
      test_sessions.test_session_isolation draw_a draw_b w0
      = (Return ((PyStr.str_in "30" a2 || PyStr.str_in "60" a2)
                 && (PyStr.str_in "blue" (PyStr.lower b1_text)
                     || PyStr.str_in "green" (PyStr.lower b2_text))), w6))
  /\ (forall (w0 w1 w2 w3 w4 w5 w6 : World) (t1 t2 shown1 shown2 m1 m2 msgs1 msgs2 : value)
             (a2_text b2_text : string),
         test_thread_isolation.req "/v1/threads" "POST" (PDict []) w0 = (Return t1, w1) ->
         test_thread_isolation.show_id t1 = Return shown1 ->
         test_thread_isolation.turn t1 "What is 100 + 50?" w1 = (Return m1, w2) ->
         test_thread_isolation.req "/v1/threads" "POST" (PDict []) w2 = (Return t2, w3) ->
         test_thread_isolation.show_id t2 = Return shown2 ->
         test_thread_isolation.turn t2 "What color is snow?" w3 = (Return m2, w4) ->
         test_thread_isolation.turn t1 "Double it" w4 = (Return msgs1, w5) ->
         test_thread_isolation.turn t2 "And grass?" w5 = (Return msgs2, w6) ->
         test_thread_isolation.lowered_text msgs1 = Return a2_text ->
         test_thread_isolation.lowered_text msgs2 = Return b2_text ->
         test_thread_isolation.main w0
         = (Return ((PyStr.str_in "300" a2_text || PyStr.str_in "three hundred" a2_text)
                    && PyStr.str_in "green" b2_text), w6))
  /\ (forall (a2 b1_text b2_text leak : string),
         (PyStr.str_in "30" a2 || PyStr.str_in "60" a2)
         && (PyStr.str_in "blue" (PyStr.lower b1_text)
             || PyStr.str_in "green" (PyStr.lower b2_text)) = true ->
         (PyStr.str_in "30" a2 || PyStr.str_in "60" a2)
         && (PyStr.str_in "blue" (PyStr.lower (b1_text ++ leak))
             || PyStr.str_in "green" (PyStr.lower (b2_text ++ leak))) = true).
Proof.
  split; [| split].
  - intros draw_a draw_b w0 w1 w2 w3 w4 w5 w6 a1 a3 b3 a2 b1_text b2_text
           session_a session_b Ha1 Hb1 Ha2 Hb2 Ha3 Hb3.
    unfold test_sessions.test_session_isolation.
    fold session_a. fold session_b.
    unfold bind at 1. rewrite Ha1.
    unfold bind at 1. rewrite Hb1.
    unfold bind at 1. rewrite Ha2.
    unfold bind at 1. rewrite Hb2.
    unfold bind at 1. rewrite Ha3.
    unfold bind at 1. rewrite Hb3.
    rewrite bind_lift.
    unfold test_sessions.por, test_sessions.in_lower. cbn [PyVal.contains PyVal.lower rbind].
    destruct (PyStr.str_in "30" a2); cbn [rbind];
      rewrite bind_lift;
      destruct (PyStr.str_in "blue" (PyStr.lower b1_text)); reflexivity.
  - intros w0 w1 w2 w3 w4 w5 w6 t1 t2 shown1 shown2 m1 m2 msgs1 msgs2 a2_text b2_text
           Ht1 Hs1 Hm1 Ht2 Hs2 Hm2 Hmsgs1 Hmsgs2 Ha Hb.
    unfold test_thread_isolation.main.
    unfold bind at 1. rewrite Ht1.
    rewrite bind_lift, Hs1.
    unfold bind at 1. rewrite Hm1.
    unfold bind at 1. rewrite Ht2.
    rewrite bind_lift, Hs2.
    unfold bind at 1. rewrite Hm2.
    unfold bind at 1. rewrite Hmsgs1.
    unfold bind at 1. rewrite Hmsgs2.
    rewrite bind_lift, Ha. rewrite bind_lift, Hb.
    reflexivity.
  - intros a2 b1_text b2_text leak H.
    apply andb_prop in H as [Ha Hb]. rewrite Ha. cbn [andb].
    rewrite !lower_app.
    apply orb_prop in Hb as [Hb | Hb].
    + rewrite (str_in_app _ _ _ Hb). reflexivity.
    + rewrite (str_in_app _ _ _ Hb). apply orb_true_r.
Qed.

(** C1, run on the leaking server: the verdict is computed from the
    answers "60", "Blue" and the leaking answer of session B. *)
Lemma C1_isolation_checks_own_context_witness :
  outcome (test_sessions.test_session_isolation 1234 5678) leaky_world
  = Return ((PyStr.str_in "30" "60" || PyStr.str_in "60" "60")
            && (PyStr.str_in "blue" (PyStr.lower "Blue")
                || PyStr.str_in "green" (PyStr.lower leak_b2))).
Proof.
  unfold outcome.
  rewrite (proj1 (C1_isolation_checks_own_context replay)
             1234 5678 leaky_world _ _ _ _ _ _
             (PStr "30") (PStr "30") (PStr leak_b3) "60" "Blue" leak_b2
             eq_refl eq_refl eq_refl eq_refl eq_refl eq_refl).
  reflexivity.
Defined.

(** * Further properties *)

(** ** [make_request]: one call, and what escapes it *)

(** X1. [make_request] is a single attempt: in every world, and for each of
    its four copies, the world it leaves is the world one call of
    [urlopen] on the request it built leaves; there is no retry and no
    second request. *)
Theorem make_request_calls_urlopen_once
        (E : Env) (c : copy) (path method : string) (data : value) (w : World) :
  snd (make_request_of c path method data w)
  = snd (urlopen (harness.build_request path method data) (Some (timeout_of c)) w).
Proof.
  rewrite make_request_of_unfold.
  destruct (urlopen (harness.build_request path method data) (Some (timeout_of c)) w)
    as [[[code body] | [code reason body | cls msg]] w'] eqn:Hopen.
  - rewrite (make_request_response _ _ _ _ _ _ _ _ Hopen).
    destruct (rbind (read_all body) harness.parse_body); reflexivity.
  - rewrite (make_request_http_error _ _ _ _ _ _ _ _ _ Hopen).
    destruct (rbind (read_all body) harness.parse_body); reflexivity.
  - rewrite (make_request_other_error _ _ _ _ _ _ _ _ Hopen). reflexivity.
Qed.

(** X2. Unless [urlopen] raises [HTTPError], [make_request] returns a pair
    and never raises: whatever else goes wrong (no connection, a body that
    cannot be read or decoded) is turned into a status, the server's or 0. *)
Theorem make_request_returns_unless_http_error
        (E : Env) (c : copy) (path method : string) (data : value)
        (w w' : World) (r : result response) :
  urlopen (harness.build_request path method data) (Some (timeout_of c)) w = (r, w') ->
  (forall code reason body, r <> Raise (HTTPError code reason body)) ->
  exists st parsed, make_request_of c path method data w = (Return (st, parsed), w').
Proof.
  intros Hopen Hnot. rewrite make_request_of_unfold.
  destruct r as [[code body] | [code reason body | cls msg]].
  - rewrite (make_request_response _ _ _ _ _ _ _ _ Hopen).
    destruct (rbind (read_all body) harness.parse_body); eauto.
  - exfalso. apply (Hnot code reason body). reflexivity.
  - rewrite (make_request_other_error _ _ _ _ _ _ _ _ Hopen). eauto.
Qed.

(** X2, run on a response whose body breaks off. *)
Lemma make_request_returns_unless_http_error_witness :
  exists st parsed,
    make_request_of (E := replay) in_test_adk "/health" "GET" PNone
      (serving [Return (mkResponse 200 [ReadOk "{"; ReadFail ConnectionError "reset"])])
    = (Return (st, parsed),
       mkWorld [] [] [harness.build_request (E := replay) "/health" "GET" PNone]).
Proof.
  apply (make_request_returns_unless_http_error
           replay in_test_adk "/health" "GET" PNone
           (serving [Return (mkResponse 200 [ReadOk "{"; ReadFail ConnectionError "reset"])])
           _ _ eq_refl).
  intros code reason body. discriminate.
Defined.

(** X3. The [HTTPError] clause is not protected: when the server answers
    with an error status and the body of that answer cannot be read, or is
    not empty and not valid JSON, the exception leaves [make_request]. *)
Theorem make_request_error_body_escapes
        (E : Env) (c : copy) (path method : string) (data : value)
        (w w' : World) (code : Z) (reason : string) (pieces : list chunk) :
  urlopen (harness.build_request path method data) (Some (timeout_of c)) w
    = (Raise (HTTPError code reason pieces), w') ->
  (forall e, read_all pieces = Raise e ->
             make_request_of c path method data w = (Raise e, w'))
  /\ (forall body msg,
         read_all pieces = Return body -> body <> ""%string ->
         json_loads body = inr msg ->
         make_request_of c path method data w
         = (Raise (Exception JSONDecodeError msg), w')).
Proof.
  intros Hopen. rewrite make_request_of_unfold.
  rewrite (make_request_http_error _ _ _ _ _ _ _ _ _ Hopen). split.
  - intros e ->. reflexivity.
  - intros body msg -> Hne Hjson. cbn [rbind].
    rewrite (parse_body_nonempty _ Hne). unfold loads. rewrite Hjson. reflexivity.
Qed.

(** X3, run on a 502 answer with an HTML body. *)
Lemma make_request_error_body_escapes_witness :
  outcome (make_request_of (in_test_complex_agents 120) "/run" "POST" PNone)
          (serving [http_error 502 "Bad Gateway" "<html>Bad Gateway</html>"])
  = Raise (Exception JSONDecodeError "Expecting value").
Proof.
  unfold outcome.
  rewrite (proj2 (make_request_error_body_escapes
                    replay (in_test_complex_agents 120) "/run" "POST" PNone
                    (serving [http_error 502 "Bad Gateway" "<html>Bad Gateway</html>"])
                    _ 502 "Bad Gateway" _ eq_refl)
                 "<html>Bad Gateway</html>" "Expecting value" eq_refl);
    [reflexivity | discriminate | vm_compute; reflexivity].
Defined.

(** ** [run_turn] *)

Lemma take_length (n : nat) (s : string) : (String.length (PyStr.take n s) <= n)%nat.
Proof.
  revert s. induction n as [| n IH]; intros s; [reflexivity |].
  destruct s as [| c s]; cbn; [lia |]. specialize (IH s). lia.
Qed.

Lemma take_short (n : nat) (s : string) :
  (String.length s <= n)%nat -> PyStr.take n s = s.
Proof.
  revert s. induction n as [| n IH]; intros s Hlen.
  - destruct s; [reflexivity | cbn in Hlen; lia].
  - destruct s as [| c s]; [reflexivity |]. cbn in *. rewrite IH; [reflexivity | lia].
Qed.

(** X4. On a 200 answer of the documented shape, [run_turn] of
    [test_sessions.py] returns the text of the first part of the first
    event cut to its first 150 characters: the whole text when it is that
    short, never more than 150 characters; later events and later parts
    are not read. *)
Theorem run_turn_returns_first_text_truncated
        (E : Env) (session_id message : string) (turn_num : Z) (w w1 : World)
        (event content part : list (string * value)) (more others : list value)
        (text : string) :
  test_sessions.make_request "/run" "POST"
    (run_payload "test-agent" "test-user" session_id message) w
    = (Return (200, PList (PDict event :: more)), w1) ->
  PyVal.assoc "content" event = Some (PDict content) ->
  PyVal.assoc "parts" content = Some (PList (PDict part :: others)) ->
  PyVal.assoc "text" part = Some (PStr text) ->
  test_sessions.run_turn session_id message turn_num w
  = (Return (PStr (PyStr.take 150 text)), w1)
  /\ (String.length (PyStr.take 150 text) <= 150)%nat
  /\ ((String.length text <= 150)%nat -> PyStr.take 150 text = text).
Proof.
  intros Hcall Hcontent Hparts Htext. split; [| split].
  - unfold test_sessions.run_turn. unfold bind at 1. rewrite Hcall.
    change (test_adk.events_ok 200 (PList (PDict event :: more))) with true.
    cbv iota. rewrite bind_lift, getitem_int_head.
    rewrite bind_lift. cbn [PyVal.get]. rewrite Hcontent.
    rewrite bind_lift. cbn [PyVal.get]. rewrite Hparts.
    cbn [PyVal.truthy]. rewrite bind_lift, getitem_int_head.
    rewrite bind_lift. cbn [PyVal.get]. rewrite Htext.
    reflexivity.
  - apply take_length.
  - apply take_short.
Qed.

(** X4, run on an answer of 200 characters. *)
Lemma run_turn_returns_first_text_truncated_witness :
  outcome (test_sessions.run_turn "s" "hello" 1) (serving [reply 200 (one_event long_text)])
  = Return (PStr (PyStr.take 150 long_text))
  /\ (String.length (PyStr.take 150 long_text) <= 150)%nat.
Proof.
  unfold outcome.
  destruct (run_turn_returns_first_text_truncated
              replay "s" "hello" 1 (serving [reply 200 (one_event long_text)]) _
              _ _ _ [] [] long_text eq_refl eq_refl eq_refl eq_refl)
    as (Hrun & Hlen & _).
  rewrite Hrun. split; [reflexivity | exact Hlen].
Defined.

(** X5. A turn whose request fails comes back as a text, as long as
    [make_request] returns.  When the request does not get through
    ([urlopen] raises anything but [HTTPError]), [run_turn] of
    [test_sessions.py] and of [test_complex_agents.py] return a text that
    starts with ["ERROR: "] and shows the error value of [make_request];
    and whenever [make_request] returns a status that is not 200 or a body
    that is not a non-empty list, they return such a text built from the
    status and the body.  When [make_request] itself raises, [run_turn]
    raises the same exception: an answer with an error status whose body
    is not empty and not JSON makes both raise [JSONDecodeError]. *)
Theorem run_turn_failure_is_an_error_text
        (E : Env) (session_id message app_name : string) (turn_num : Z) :
  (forall w w' cls msg,
      urlopen (harness.build_request "/run" "POST"
                 (run_payload "test-agent" "test-user" session_id message))
              (Some 120) w
        = (Raise (Exception cls msg), w') ->
      test_sessions.run_turn session_id message turn_num w
      = (Return (PStr ("ERROR: " ++ py_repr (PDict [("error", PStr msg)]))), w'))
  /\ (forall w w' cls msg,
         urlopen (harness.build_request "/run" "POST"
                    (run_payload app_name "test-user" session_id message))
                 (Some 120) w
           = (Raise (Exception cls msg), w') ->
         test_complex_agents.run_turn session_id message app_name w
         = (Return (PStr ("ERROR: status=0, response="
                          ++ py_repr (PDict [("error", PStr msg)]))), w'))
  /\ (forall w w' st events,
         test_sessions.make_request "/run" "POST"
           (run_payload "test-agent" "test-user" session_id message) w
           = (Return (st, events), w') ->
         test_adk.events_ok st events = false ->
         test_sessions.run_turn session_id message turn_num w
         = (Return (PStr ("ERROR: " ++ py_str events)), w'))
  /\ (forall w w' st events,
         test_complex_agents.make_request "/run" "POST"
           (run_payload app_name "test-user" session_id message) 120 w
           = (Return (st, events), w') ->
         test_adk.events_ok st events = false ->
         test_complex_agents.run_turn session_id message app_name w
         = (Return (PStr ("ERROR: status=" ++ PyStr.of_Z st ++ ", response="
                          ++ py_str events)), w'))
  /\ (forall w w' e,
         test_sessions.make_request "/run" "POST"
           (run_payload "test-agent" "test-user" session_id message) w
           = (Raise e, w') ->
         test_sessions.run_turn session_id message turn_num w = (Raise e, w'))
  /\ (forall w w' e,
         test_complex_agents.make_request "/run" "POST"
           (run_payload app_name "test-user" session_id message) 120 w
           = (Raise e, w') ->
         test_complex_agents.run_turn session_id message app_name w = (Raise e, w'))
  /\ (forall w w' code reason pieces body msg,
         urlopen (harness.build_request "/run" "POST"
                    (run_payload "test-agent" "test-user" session_id message))
                 (Some 120) w
           = (Raise (HTTPError code reason pieces), w') ->
         read_all pieces = Return body -> body <> ""%string ->
         json_loads body = inr msg ->
         test_sessions.run_turn session_id message turn_num w
         = (Raise (Exception JSONDecodeError msg), w'))
  /\ (forall w w' code reason pieces body msg,
         urlopen (harness.build_request "/run" "POST"
                    (run_payload app_name "test-user" session_id message))
                 (Some 120) w
           = (Raise (HTTPError code reason pieces), w') ->
         read_all pieces = Return body -> body <> ""%string ->
         json_loads body = inr msg ->
         test_complex_agents.run_turn session_id message app_name w
         = (Raise (Exception JSONDecodeError msg), w')).
Proof.
  assert (H3 : forall w w' st events,
             test_sessions.make_request "/run" "POST"
               (run_payload "test-agent" "test-user" session_id message) w
               = (Return (st, events), w') ->
             test_adk.events_ok st events = false ->
             test_sessions.run_turn session_id message turn_num w
             = (Return (PStr ("ERROR: " ++ py_str events)), w')).
  { intros w w' st events Hcall Hno. unfold test_sessions.run_turn.
    unfold bind at 1. rewrite Hcall, Hno. reflexivity. }
  assert (H4 : forall w w' st events,
             test_complex_agents.make_request "/run" "POST"
               (run_payload app_name "test-user" session_id message) 120 w
               = (Return (st, events), w') ->
             test_adk.events_ok st events = false ->
             test_complex_agents.run_turn session_id message app_name w
             = (Return (PStr ("ERROR: status=" ++ PyStr.of_Z st ++ ", response="
                              ++ py_str events)), w')).
  { intros w w' st events Hcall Hno. unfold test_complex_agents.run_turn.
    unfold bind at 1. rewrite Hcall, Hno. reflexivity. }
  assert (H5 : forall w w' e,
             test_sessions.make_request "/run" "POST"
               (run_payload "test-agent" "test-user" session_id message) w
               = (Raise e, w') ->
             test_sessions.run_turn session_id message turn_num w = (Raise e, w')).
  { intros w w' e Hcall. unfold test_sessions.run_turn.
    apply (bind_raises _ _ _ _ _ Hcall). }
  assert (H6 : forall w w' e,
             test_complex_agents.make_request "/run" "POST"
               (run_payload app_name "test-user" session_id message) 120 w
               = (Raise e, w') ->
             test_complex_agents.run_turn session_id message app_name w = (Raise e, w')).
  { intros w w' e Hcall. unfold test_complex_agents.run_turn.
    apply (bind_raises _ _ _ _ _ Hcall). }
  split; [| split; [| split; [exact H3 | split; [exact H4 |
    split; [exact H5 | split; [exact H6 | split]]]]]].
  - intros w w' cls msg Hopen.
    apply (H3 w w' 0 (error_dict (Exception cls msg))); [| reflexivity].
    apply (make_request_other_error _ _ _ _ _ _ _ _ Hopen).
  - intros w w' cls msg Hopen.
    apply (H4 w w' 0 (error_dict (Exception cls msg))); [| reflexivity].
    apply (make_request_other_error _ _ _ _ _ _ _ _ Hopen).
  - intros w w' code reason pieces body msg Hopen Hread Hne Hjson.
    apply H5.
    apply (make_request_bad_error_body _ _ _ _ _ _ _ _ _ _ _ Hopen Hread Hne Hjson).
  - intros w w' code reason pieces body msg Hopen Hread Hne Hjson.
    apply H6.
    apply (make_request_bad_error_body _ _ _ _ _ _ _ _ _ _ _ Hopen Hread Hne Hjson).
Qed.

(** X5, run with the connection refused, and on a 502 answer with an HTML
    body. *)
Lemma run_turn_failure_is_an_error_text_witness :
  test_complex_agents.run_turn (E := unreachable) "s" "hello" "complex-agent" tt
  = (Return (PStr ("ERROR: status=0, response="
                   ++ "{'error': '<urlopen error [Errno 111] Connection refused>'}")), tt)
  /\ outcome (test_sessions.run_turn "s" "hello" 1)
             (serving [http_error 502 "Bad Gateway" "<html>Bad Gateway</html>"])
     = Raise (Exception JSONDecodeError "Expecting value").
Proof.
  split.
  - exact (proj1 (proj2 (run_turn_failure_is_an_error_text
                           unreachable "s" "hello" "complex-agent" 1))
                 tt tt URLError _ eq_refl).
  - unfold outcome.
    rewrite (proj1 (proj2 (proj2 (proj2 (proj2 (proj2 (proj2
               (run_turn_failure_is_an_error_text
                  replay "s" "hello" "complex-agent" 1)))))))
               (serving [http_error 502 "Bad Gateway" "<html>Bad Gateway</html>"])
               _ 502 "Bad Gateway" _ "<html>Bad Gateway</html>" "Expecting value"
               eq_refl eq_refl);
      [reflexivity | discriminate | vm_compute; reflexivity].
Defined.

(** ** [run_conversation] *)

(** One turn of the loop never raises, and adds at most one entry. *)
Lemma converse_bounded {E : Env} (session_id : string) (messages : list string) :
  forall (responses : list value) (w : World),
    exists (final : list value) (w' : World),
      test_agent.converse session_id messages responses w = (Return final, w')
      /\ (List.length responses <= List.length final
          <= List.length responses + List.length messages)%nat.
Proof.
  induction messages as [| message rest IH]; intros responses w.
  - exists responses, w. split; [reflexivity | cbn; lia].
  - cbn [test_agent.converse]. unfold bind at 1.
    match goal with
    | |- context [try_except ?body ?handler w] =>
        assert (Hturn : exists r' w1,
                   try_except body handler w = (Return r', w1)
                   /\ (List.length responses <= List.length r'
                       <= S (List.length responses))%nat)
    end.
    { unfold try_except.
      match goal with
      | |- context [match ?run with pair _ _ => _ end] =>
          destruct run as [[x | e0] w2] eqn:Hbody
      end.
      - exists x, w2. split; [reflexivity |].
        peel Hbody.
        match type of Hbody with
        | context [PyVal.truthy ?events && PyVal.is_list ?events] =>
            destruct (PyVal.truthy events && PyVal.is_list events)
        end.
        + peel Hbody.
          match type of Hbody with
          | context [PyVal.truthy ?parts] => destruct (PyVal.truthy parts)
          end.
          * peel Hbody. apply ret_returns in Hbody as [-> _].
            rewrite length_app. cbn. lia.
          * apply ret_returns in Hbody as [-> _]. lia.
        + apply ret_returns in Hbody as [-> _]. lia.
      - eexists. eexists. split; [reflexivity |]. rewrite length_app. cbn. lia. }
    destruct Hturn as (r' & w1 & -> & Hlen).
    destruct (IH r' w1) as (final & w' & Hrun & Hbound).
    exists final, w'. split; [exact Hrun |]. cbn [List.length]. lia.
Qed.

(** X6. [run_conversation] never raises, whatever the server does, and it
    returns at most one entry per message: a turn appends the answer, or
    an ["ERROR: ..."] text, or nothing (an empty event list, an event
    without parts). *)
Theorem run_conversation_returns_at_most_one_entry_per_message
        (E : Env) (messages_id : Z) (messages : list string) (w : World) :
  exists (responses : list value) (w' : World),
    test_agent.run_conversation messages_id messages w = (Return responses, w')
    /\ (List.length responses <= List.length messages)%nat.
Proof.
  unfold test_agent.run_conversation.
  destruct (converse_bounded ("session_" ++ PyStr.of_Z messages_id) messages [] w)
    as (final & w' & Hrun & Hlen).
  exists final, w'. split; [exact Hrun | cbn in Hlen; lia].
Qed.

(** ** The event loop of [test_sse_streaming] *)

Lemma prefix_long (sep s extra : string) :
  (String.length sep <= String.length s)%nat ->
  prefix sep (s ++ extra) = prefix sep s.
Proof.
  revert sep. induction s as [| c s IH]; intros sep Hlen.
  - destruct sep; [destruct extra; reflexivity | cbn in Hlen; lia].
  - destruct sep as [| a sep']; [reflexivity |]. cbn.
    destruct (ascii_dec a c); [| reflexivity]. apply IH. cbn in Hlen. lia.
Qed.

Lemma prefix_shorter (sep s : string) :
  prefix sep s = true -> (String.length sep <= String.length s)%nat.
Proof.
  revert sep. induction s as [| c s IH]; intros sep.
  - destruct sep; [cbn; lia | discriminate].
  - destruct sep as [| a sep']; [cbn; lia |]. cbn.
    destruct (ascii_dec a c); [| discriminate]. intros H. specialize (IH _ H). lia.
Qed.

Lemma drop_app (n : nat) (s extra : string) :
  (n <= String.length s)%nat -> PyStr.drop n (s ++ extra) = (PyStr.drop n s ++ extra)%string.
Proof.
  revert s. induction n as [| n IH]; intros s Hlen.
  - destruct s; destruct extra; reflexivity.
  - destruct s as [| c s]; [cbn in Hlen; lia |]. cbn. apply IH. cbn in Hlen. lia.
Qed.

(** The first separator of a text stays the first one when more text
    arrives. *)
Lemma split_once_app (sep s extra line rest : string) :
  PyStr.split_once sep s = Some (line, rest) ->
  PyStr.split_once sep (s ++ extra) = Some (line, (rest ++ extra)%string).
Proof.
  revert line rest. induction s as [| c s IH]; intros line rest.
  - cbn [PyStr.split_once]. destruct (prefix sep "") eqn:Hpre; [| discriminate].
    intros H. injection H as <- <-.
    pose proof (prefix_shorter _ _ Hpre) as Hlen.
    assert (Hsep : sep = ""%string) by (destruct sep; [reflexivity | cbn in Hlen; lia]).
    subst sep. destruct extra; reflexivity.
  - cbn [PyStr.split_once append].
    destruct (prefix sep (String c s)) eqn:Hpre.
    + intros H. injection H as <- <-.
      pose proof (prefix_shorter _ _ Hpre) as Hlen.
      pose proof (prefix_long sep (String c s) extra Hlen) as Hlong.
      cbn [append] in Hlong. rewrite Hlong, Hpre.
      pose proof (drop_app _ (String c s) extra Hlen) as Hdrop.
      cbn [append] in Hdrop. rewrite Hdrop. reflexivity.
    + destruct (PyStr.split_once sep s) as [[before after] |] eqn:Hrec; [| discriminate].
      intros H. injection H as <- <-.
      pose proof (split_once_shorter _ _ _ _ Hrec) as Hlen.
      assert (Hlen' : (String.length sep <= String.length (String c s))%nat)
        by (cbn; lia).
      pose proof (prefix_long sep (String c s) extra Hlen') as Hlong.
      cbn [append] in Hlong. rewrite Hlong, Hpre.
      rewrite (IH _ _ eq_refl). reflexivity.
Qed.

Lemma event_split_shorter (buffer line rest : string) :
  PyStr.split_once test_agent.event_sep buffer = Some (line, rest) ->
  (String.length rest + 2 <= String.length buffer)%nat.
Proof. intros H. apply split_once_shorter in H. exact H. Qed.

(** Fuel beyond the length of the buffer changes nothing. *)
Lemma drain_fuel {E : Env} (fuel1 : nat) :
  forall (fuel2 : nat) (buffer : string) (st : test_agent.sse_state),
    (String.length buffer < fuel1)%nat -> (String.length buffer < fuel2)%nat ->
    test_agent.drain fuel1 buffer st = test_agent.drain fuel2 buffer st.
Proof.
  induction fuel1 as [| fuel1 IH]; intros fuel2 buffer st H1 H2; [lia |].
  destruct fuel2 as [| fuel2]; [lia |].
  cbn [test_agent.drain].
  destruct (PyStr.split_once test_agent.event_sep buffer) as [[line rest] |] eqn:Hsplit;
    [| reflexivity].
  destruct (test_agent.handle_line line st) as [st' [e |]]; [reflexivity |].
  apply event_split_shorter in Hsplit. apply IH; lia.
Qed.

Lemma length_append (s t : string) :
  String.length (s ++ t) = (String.length s + String.length t)%nat.
Proof. induction s as [| c s IH]; cbn; [| rewrite IH]; reflexivity. Qed.

Lemma append_assoc (s t u : string) : ((s ++ t) ++ u = s ++ (t ++ u))%string.
Proof. induction s as [| c s IH]; cbn; [| rewrite IH]; reflexivity. Qed.

Lemma drain_event {E : Env} (fuel : nat) (buffer line rest : string)
      (st st1 : test_agent.sse_state) :
  PyStr.split_once test_agent.event_sep buffer = Some (line, rest) ->
  test_agent.handle_line line st = (st1, None) ->
  test_agent.drain (S fuel) buffer st = test_agent.drain fuel rest st1.
Proof. intros Hsplit Hline. cbn [test_agent.drain]. rewrite Hsplit, Hline. reflexivity. Qed.

Lemma drain_event_raises {E : Env} (fuel : nat) (buffer line rest : string)
      (st st1 : test_agent.sse_state) (e : exn) :
  PyStr.split_once test_agent.event_sep buffer = Some (line, rest) ->
  test_agent.handle_line line st = (st1, Some e) ->
  test_agent.drain (S fuel) buffer st = (st1, rest, Some e).
Proof. intros Hsplit Hline. cbn [test_agent.drain]. rewrite Hsplit, Hline. reflexivity. Qed.

(** What is left in the buffer is never longer than the buffer. *)
Lemma drain_shrinks {E : Env} (fuel : nat) :
  forall (buffer : string) (st : test_agent.sse_state),
    (String.length (snd (fst (test_agent.drain fuel buffer st))) <= String.length buffer)%nat.
Proof.
  induction fuel as [| fuel IH]; intros buffer st; [cbn; lia |].
  cbn [test_agent.drain].
  destruct (PyStr.split_once test_agent.event_sep buffer) as [[line rest] |] eqn:Hsplit;
    [| cbn; lia].
  apply event_split_shorter in Hsplit.
  destruct (test_agent.handle_line line st) as [st' [e |]]; [cbn; lia |].
  specialize (IH rest st'). lia.
Qed.

(** Draining a buffer, then draining what is left with a new piece added,
    is draining the buffer with the piece added at once. *)
Lemma drain_app {E : Env} (fuel : nat) :
  forall (buffer piece : string) (st : test_agent.sse_state) (more : nat),
    (String.length buffer < fuel)%nat ->
    (String.length (buffer ++ piece) < more)%nat ->
    match test_agent.drain fuel buffer st with
    | (st', rest, None) =>
        test_agent.drain more (buffer ++ piece) st
        = test_agent.drain more (rest ++ piece) st'
    | (st', _, Some e) =>
        exists rest', test_agent.drain more (buffer ++ piece) st = (st', rest', Some e)
    end.
Proof.
  induction fuel as [| fuel IH]; intros buffer piece st more Hfuel Hmore; [lia |].
  cbn [test_agent.drain].
  destruct (PyStr.split_once test_agent.event_sep buffer) as [[line rest] |] eqn:Hsplit;
    [| reflexivity].
  pose proof (split_once_app _ _ piece _ _ Hsplit) as Happ.
  pose proof (event_split_shorter _ _ _ Hsplit) as Hshort.
  rewrite length_append in Hmore.
  destruct more as [| more]; [lia |].
  destruct (test_agent.handle_line line st) as [st1 [e |]] eqn:Hline.
  - exists (rest ++ piece)%string. apply (drain_event_raises _ _ _ _ _ _ _ Happ Hline).
  - assert (Hrest : (String.length rest < fuel)%nat) by lia.
    assert (Hmore' : (String.length (rest ++ piece) < more)%nat)
      by (rewrite length_append; lia).
    specialize (IH rest piece st1 more Hrest Hmore').
    pose proof (drain_shrinks fuel rest st1) as Hshrink.
    rewrite (drain_event _ _ _ _ _ _ Happ Hline).
    destruct (test_agent.drain fuel rest st1) as [[st' rest'] [e |]].
    + exact IH.
    + rewrite IH. cbn [fst snd] in Hshrink.
      apply drain_fuel; rewrite length_append; lia.
Qed.

(** Two reads in a row give what one read of both pieces gives. *)
Lemma read_events_merge {E : Env} (p1 p2 : string) (rest : list chunk)
      (buffer : string) (st : test_agent.sse_state) :
  p1 <> ""%string -> p2 <> ""%string ->
  test_agent.read_events (ReadOk p1 :: ReadOk p2 :: rest) buffer st
  = test_agent.read_events (ReadOk (p1 ++ p2) :: rest) buffer st.
Proof.
  intros H1 H2.
  assert (H12 : (p1 ++ p2)%string <> ""%string)
    by (destruct p1; [contradiction | discriminate]).
  cbn [test_agent.read_events].
  destruct (String.eqb_spec p1 "") as [| _]; [contradiction |].
  destruct (String.eqb_spec p2 "") as [| _]; [contradiction |].
  destruct (String.eqb_spec (p1 ++ p2) "") as [| _]; [contradiction |].
  rewrite <- append_assoc.
  pose proof (drain_app (S (String.length (buffer ++ p1))) (buffer ++ p1) p2 st
                (S (String.length ((buffer ++ p1) ++ p2)))
                (Nat.lt_succ_diag_r _) (Nat.lt_succ_diag_r _)) as Happ.
  destruct (test_agent.drain (S (String.length (buffer ++ p1))) (buffer ++ p1) st)
    as [[st' left'] [e |]] eqn:Hfirst.
  - destruct Happ as [rest' ->]. reflexivity.
  - rewrite Happ.
    pose proof (drain_shrinks (S (String.length (buffer ++ p1))) (buffer ++ p1) st) as Hs.
    rewrite Hfirst in Hs. cbn [fst snd] in Hs. rewrite length_append in Hs.
    rewrite (drain_fuel (S (String.length ((buffer ++ p1) ++ p2)))
                        (S (String.length (left' ++ p2))) (left' ++ p2) st');
      [reflexivity | rewrite !length_append; lia | lia].
Qed.

(** However the body is cut, the loop ends in the state one read of the
    whole body gives. *)
Lemma read_events_joined {E : Env} (pieces : list string) :
  forall (first : string) (buffer : string) (st : test_agent.sse_state),
    first <> ""%string ->
    Forall (fun p => p <> ""%string) pieces ->
    test_agent.read_events (map ReadOk (first :: pieces)) buffer st
    = test_agent.read_events [ReadOk (joined (first :: pieces))] buffer st.
Proof.
  induction pieces as [| p ps IH]; intros first buffer st Hfirst Hall.
  - cbn [joined fold_right map].
    replace (first ++ "")%string with first; [reflexivity |].
    clear. induction first as [| c s IH]; cbn; [| rewrite <- IH]; reflexivity.
  - inversion Hall as [| ? ? Hp Hps]; subst.
    cbn [map]. rewrite read_events_merge by assumption.
    assert (Hne : (first ++ p)%string <> ""%string)
      by (destruct first; [contradiction | discriminate]).
    specialize (IH (first ++ p)%string buffer st Hne Hps).
    cbn [map] in IH. rewrite IH.
    cbn [joined fold_right]. rewrite append_assoc. reflexivity.
Qed.

(** X7. The verdict of the streaming test does not depend on how the body
    is cut into reads: when the pieces [resp.read(256)] delivers all
    decode, the event counter and the last text are those one read of the
    whole body would give, since an event cut in two waits in the buffer
    for its separator. *)
Theorem sse_result_ignores_chunking
        (E : Env) (w w' : World) (code : Z) (first : string) (pieces : list string) :
  first <> ""%string ->
  Forall (fun p => p <> ""%string) pieces ->
  urlopen (mkRequest (BASE_URL ++ "/run_sse") (Some (json_dumps test_agent.sse_payload))
                     test_agent.json_headers "POST") (Some 120) w
    = (Return (mkResponse code (map ReadOk (first :: pieces))), w') ->
  test_agent.sse_consume w
  = (Return (test_agent.read_events [ReadOk (joined (first :: pieces))] ""
               test_agent.sse_start), w').
Proof.
  intros Hfirst Hall Hopen.
  unfold test_agent.sse_consume, try_except, bind. rewrite Hopen.
  cbn [fp ret]. rewrite (read_events_joined pieces first "" _ Hfirst Hall).
  reflexivity.
Qed.

(** X7, run on an event that arrives in three pieces. *)
Lemma sse_result_ignores_chunking_witness :
  outcome test_agent.sse_consume
          (serving [Return (mkResponse 200 (map ReadOk ["data: {"; "}"; event_end]))])
  = Return (test_agent.mkSse 1 (PStr "")).
Proof.
  unfold outcome.
  erewrite (sse_result_ignores_chunking
              replay (serving [Return (mkResponse 200 (map ReadOk ["data: {"; "}"; event_end]))])
              _ 200 "data: {" ["}"; event_end]).
  - vm_compute. reflexivity.
  - discriminate.
  - repeat constructor; discriminate.
  - reflexivity.
Defined.

(** X8. The streaming test swallows transport trouble: when [urlopen]
    raises (whatever the exception, [HTTPError] included), when the first
    read fails, and when the body is empty, it returns [False] and does
    not raise. *)
Theorem sse_test_fails_quietly
        (E : Env) (w w' : World) (o : result response) :
  urlopen (mkRequest (BASE_URL ++ "/run_sse") (Some (json_dumps test_agent.sse_payload))
                     test_agent.json_headers "POST") (Some 120) w
    = (o, w') ->
  (forall e, o = Raise e -> test_agent.test_sse_streaming w = (Return false, w'))
  /\ (forall code cls msg rest,
         o = Return (mkResponse code (ReadFail cls msg :: rest)) ->
         test_agent.test_sse_streaming w = (Return false, w'))
  /\ (forall code, o = Return (mkResponse code []) ->
                   test_agent.test_sse_streaming w = (Return false, w')).
Proof.
  intros Hopen.
  repeat split; intros; subst o;
    unfold test_agent.test_sse_streaming, test_agent.sse_consume, try_except;
    unfold bind at 1; unfold bind at 1; rewrite Hopen; reflexivity.
Qed.

(** X8, run with the connection refused. *)
Lemma sse_test_fails_quietly_witness :
  test_agent.test_sse_streaming (E := unreachable) tt = (Return false, tt).
Proof.
  exact (proj1 (sse_test_fails_quietly unreachable tt tt _ eq_refl) refused eq_refl).
Defined.

(** ** The loop of [send_with_image_streaming] *)

Lemma print_events_of_events (payloads : list string) (tail : list chunk) :
  Forall (fun p => p <> "[DONE]"%string) payloads ->
  adk_image_example.print_events (event_lines payloads ++ tail)
  = let (printed, e) := adk_image_example.print_events tail in (payloads ++ printed, e)%list.
Proof.
  induction 1 as [| p ps Hp _ IH].
  - cbn. destruct (adk_image_example.print_events tail). reflexivity.
  - cbn [event_lines flat_map app adk_image_example.print_events].
    change (flat_map (fun p0 : string => [ReadOk ("data: " ++ p0); ReadOk ""]) ps)
      with (event_lines ps).
    change (PyStr.drop 6 ("data: " ++ p)) with p.
    destruct (String.eqb_spec p "[DONE]") as [Heq | _]; [contradiction |].
    change (("" =? "")%string) with true. cbv iota.
    rewrite IH. destruct (adk_image_example.print_events tail) as [printed e].
    destruct p; reflexivity.
Qed.

(** X9. [send_with_image_streaming] prints the payload of every [data: ]
    line up to the sentinel, in order, and nothing that follows it; the
    empty lines between events are skipped.  When the stream ends without
    sentinel it has printed every payload. *)
Theorem send_with_image_streaming_prints_until_done
        (E : Env) (prompt image_data mime_type : string) (w w' : World)
        (payloads : list string) (lines : list chunk) :
  Forall (fun p => p <> "[DONE]"%string) payloads ->
  requests_post (BASE_URL ++ "/run_sse")
                (adk_image_example.image_payload prompt image_data mime_type) w
    = (Return lines, w') ->
  (forall after, lines = (event_lines payloads ++ ReadOk "data: [DONE]" :: after)%list ->
                 adk_image_example.send_with_image_streaming prompt image_data mime_type w
                 = (Return payloads, w'))
  /\ (lines = event_lines payloads ->
      adk_image_example.send_with_image_streaming prompt image_data mime_type w
      = (Return payloads, w')).
Proof.
  intros Hall Hpost. split.
  - intros after ->. unfold adk_image_example.send_with_image_streaming.
    unfold bind. rewrite Hpost.
    rewrite (print_events_of_events _ _ Hall). cbn.
    rewrite app_nil_r. reflexivity.
  - intros ->. unfold adk_image_example.send_with_image_streaming.
    unfold bind. rewrite Hpost.
    pose proof (print_events_of_events payloads [] Hall) as Hprint.
    rewrite app_nil_r in Hprint. rewrite Hprint. cbn.
    rewrite app_nil_r. reflexivity.
Qed.

(** X9, run on two events, the sentinel and a late event. *)
Lemma send_with_image_streaming_prints_until_done_witness :
  fst (adk_image_example.send_with_image_streaming (E := replay) "describe" "aGk=" "image/png"
         (mkWorld [] [Return (event_lines ["one"; "two"]
                              ++ ReadOk "data: [DONE]" :: event_lines ["late"])%list] []))
  = Return ["one"; "two"].
Proof.
  assert (Hall : Forall (fun p => p <> "[DONE]"%string) ["one"; "two"]).
  { repeat constructor; discriminate. }
  rewrite (proj1 (send_with_image_streaming_prints_until_done
                    replay "describe" "aGk=" "image/png"
                    (mkWorld [] [Return (event_lines ["one"; "two"]
                                         ++ ReadOk "data: [DONE]" :: event_lines ["late"])%list] [])
                    (mkWorld [] [] []) ["one"; "two"] _ Hall eq_refl)
                 (event_lines ["late"]) eq_refl).
  reflexivity.
Defined.

(** ** The tests of [test_complex_agents.py] *)

(** X10. Whenever the refinement loop of [test_loop_agent] ends, its final
    score lies between 1 and 10 (the initial 0 never survives, since the
    loop runs at least once) and the verdict is [final_score >= 5]. *)
Theorem loop_agent_score_and_verdict
        (E : Env) (draw : Z) (w w' : World) (final_score : Z) (success : bool) :
  test_complex_agents.loop_agent draw w = (Return (final_score, success), w') ->
  1 <= final_score <= 10 /\ success = (5 <=? final_score).
Proof.
  intros Hrun. unfold test_complex_agents.loop_agent in Hrun.
  apply bind_returns in Hrun as (draft & w1 & _ & Hrun).
  peel Hrun.
  match goal with
  | Hloop : test_complex_agents.refine _ _ _ _ _ _ = (Return ?pair, _) |- _ =>
      destruct pair as [score final]; rename Hloop into Hrefine
  end.
  peel Hrun. apply ret_returns in Hrun as [Heq _]. injection Heq as <- <-.
  split; [| reflexivity].
  apply (refine_score_in_range _ _ _ _ _ _ _ _ _ Hrefine). discriminate.
Qed.

(** X10, run on an evaluator that answers "9". *)
Lemma loop_agent_score_and_verdict_witness :
  outcome (test_complex_agents.loop_agent 12345)
          (serving [reply 200 (one_event "A bottle."); reply 200 (one_event "9")])
  = Return (9, true)
  /\ 1 <= 9 <= 10 /\ true = (5 <=? 9).
Proof.
  split; [reflexivity |].
  exact (loop_agent_score_and_verdict
           replay 12345
           (serving [reply 200 (one_event "A bottle."); reply 200 (one_event "9")])
           _ 9 true eq_refl).
Defined.

Lemma extract_score_of_error (text : string) :
  test_complex_agents.extract_score (PStr ("ERROR" ++ text)) = 5.
Proof. reflexivity. Qed.

(** With every turn failing, each round of the loop scores 5 and refines. *)
Lemma refine_when_turns_fail {E : Env} (session_id : string) (n : nat) :
  every_turn_fails ->
  forall (i : Z) (draft : string) (start : Z) (w : World),
    exists (final : string) (w' : World),
      test_complex_agents.refine session_id n i (PStr draft) start w
      = (Return (match n with O => start | S _ => 5 end, PStr final), w').
Proof.
  intros Hfail. induction n as [| n IH]; intros i draft start w.
  - exists draft, w. reflexivity.
  - cbn [test_complex_agents.refine].
    destruct (Hfail (session_id ++ "_eval_" ++ PyStr.of_Z i)%string
                    (test_complex_agents.eval_prompt (PStr draft)) "complex-agent"%string w)
      as (text & w1 & Heval).
    unfold bind at 1. rewrite Heval. rewrite extract_score_of_error.
    change (test_complex_agents.quality_threshold <=? 5) with false. cbv iota.
    destruct (Hfail (session_id ++ "_refine_" ++ PyStr.of_Z i)%string
                    (test_complex_agents.refine_prompt (PStr draft) 5)
                    "complex-agent"%string w1)
      as (text' & w2 & Hrefine).
    unfold bind at 1. rewrite Hrefine.
    rewrite bind_lift. cbn [PyVal.slice_to]. rewrite bind_lift. cbn [PyVal.slice_to].
    destruct (IH (i + 1) ("ERROR" ++ text')%string 5 w2) as (final & w' & Hrun).
    exists final, w'. rewrite Hrun. destruct n; reflexivity.
Qed.

(** X11. The default score meets the tolerance: when every turn fails
    (the server is down, or answers every [/run] with an error), each
    evaluation reads as 5, and [test_loop_agent] passes with final score 5
    after its three rounds. *)
Theorem loop_agent_passes_when_every_turn_fails
        (E : Env) (draw : Z) (w : World) :
  every_turn_fails ->
  exists w', test_complex_agents.loop_agent draw w = (Return (5, true), w')
             /\ test_complex_agents.test_loop_agent draw w = (Return true, w').
Proof.
  intros Hfail.
  assert (Hloop : exists w', test_complex_agents.loop_agent draw w = (Return (5, true), w')).
  { unfold test_complex_agents.loop_agent.
    destruct (Hfail ("loop_" ++ PyStr.of_Z draw ++ "_gen")%string
                    test_complex_agents.gen_prompt "complex-agent"%string w)
      as (text & w1 & Hgen).
    unfold bind at 1.
    change (("loop_" ++ PyStr.of_Z draw) ++ "_gen")%string
      with ("loop_" ++ PyStr.of_Z draw ++ "_gen")%string.
    rewrite Hgen. rewrite bind_lift. cbn [PyVal.slice_to].
    destruct (refine_when_turns_fail ("loop_" ++ PyStr.of_Z draw) 3 Hfail 0
                                     ("ERROR" ++ text)%string 0 w1)
      as (final & w' & Hrefine).
    exists w'. unfold bind at 1. rewrite Hrefine. reflexivity. }
  destruct Hloop as [w' Hloop]. exists w'. split; [exact Hloop |].
  unfold test_complex_agents.test_loop_agent, bind. rewrite Hloop. reflexivity.
Qed.

Lemma unreachable_turns_fail : every_turn_fails (E := unreachable).
Proof. intros session_id message app_name w. eexists. exists w. reflexivity. Qed.

(** X11, run with the connection refused. *)
Lemma loop_agent_passes_when_every_turn_fails_witness :
  exists w', test_complex_agents.loop_agent (E := unreachable) 12345 tt = (Return (5, true), w')
             /\ test_complex_agents.test_loop_agent (E := unreachable) 12345 tt
                = (Return true, w').
Proof.
  exact (loop_agent_passes_when_every_turn_fails unreachable 12345 tt unreachable_turns_fail).
Defined.

Lemma str_in_prefix (needle text : string) :
  PyStr.str_in needle (needle ++ text) = true.
Proof.
  assert (Hpre : prefix needle (needle ++ text) = true).
  { induction needle as [| c needle IH]; [destruct text; reflexivity |].
    cbn. destruct (ascii_dec c c); [exact IH | contradiction]. }
  destruct needle as [| c needle]; destruct text; cbn in *; rewrite ?Hpre; reflexivity.
Qed.

(** X12. [test_agent_as_tool] passes exactly when none of its three texts
    contains "ERROR" (in capitals, anywhere) and the final report has more
    than 20 characters; the data and the analysis are not otherwise
    inspected.  When every turn fails it returns [False]. *)
Theorem agent_as_tool_verdict (E : Env) (draw : Z) :
  (forall (w w1 w2 w3 : World) (data_result analysis_result final_result : string),
      let session_base := "agent_tool_" ++ PyStr.of_Z draw in
      test_complex_agents.run_turn (session_base ++ "_data")
        test_complex_agents.data_agent_prompt "complex-agent" w
        = (Return (PStr data_result), w1) ->
      test_complex_agents.run_turn (session_base ++ "_analysis")
        (test_complex_agents.analysis_prompt (PStr data_result)) "complex-agent" w1
        = (Return (PStr analysis_result), w2) ->
      test_complex_agents.run_turn (session_base ++ "_main")
        (test_complex_agents.main_prompt (PStr data_result) (PStr analysis_result))
        "complex-agent" w2
        = (Return (PStr final_result), w3) ->
      test_complex_agents.test_agent_as_tool draw w
      = (Return (negb (PyStr.str_in "ERROR" data_result)
                 && negb (PyStr.str_in "ERROR" analysis_result)
                 && negb (PyStr.str_in "ERROR" final_result)
                 && (20 <? Z.of_nat (String.length final_result))), w3))
  /\ (every_turn_fails ->
      forall w, exists w', test_complex_agents.test_agent_as_tool draw w = (Return false, w')).
Proof.
  assert (Hchain :
    forall (w w1 w2 w3 : World) (data_result analysis_result final_result : string),
      let session_base := "agent_tool_" ++ PyStr.of_Z draw in
      test_complex_agents.run_turn (session_base ++ "_data")
        test_complex_agents.data_agent_prompt "complex-agent" w
        = (Return (PStr data_result), w1) ->
      test_complex_agents.run_turn (session_base ++ "_analysis")
        (test_complex_agents.analysis_prompt (PStr data_result)) "complex-agent" w1
        = (Return (PStr analysis_result), w2) ->
      test_complex_agents.run_turn (session_base ++ "_main")
        (test_complex_agents.main_prompt (PStr data_result) (PStr analysis_result))
        "complex-agent" w2
        = (Return (PStr final_result), w3) ->
      test_complex_agents.test_agent_as_tool draw w
      = (Return (negb (PyStr.str_in "ERROR" data_result)
                 && negb (PyStr.str_in "ERROR" analysis_result)
                 && negb (PyStr.str_in "ERROR" final_result)
                 && (20 <? Z.of_nat (String.length final_result))), w3)).
  { intros w w1 w2 w3 data_result analysis_result final_result session_base Hd Ha Hf.
    unfold test_complex_agents.test_agent_as_tool. fold session_base.
    unfold bind at 1. rewrite Hd. rewrite bind_lift. cbn [PyVal.slice_to].
    unfold bind at 1. rewrite Ha. rewrite bind_lift. cbn [PyVal.slice_to].
    unfold bind at 1. rewrite Hf. rewrite bind_lift. cbn [PyVal.slice_to].
    unfold test_complex_agents.no_error, test_complex_agents.longer_than,
      test_sessions.pand.
    cbn [PyVal.contains PyVal.len rbind].
    destruct (PyStr.str_in "ERROR" data_result),
             (PyStr.str_in "ERROR" analysis_result),
             (PyStr.str_in "ERROR" final_result); reflexivity. }
  split; [exact Hchain |].
  intros Hfail w.
  destruct (Hfail ("agent_tool_" ++ PyStr.of_Z draw ++ "_data")%string
                  test_complex_agents.data_agent_prompt "complex-agent"%string w)
    as (t1 & w1 & H1).
  destruct (Hfail ("agent_tool_" ++ PyStr.of_Z draw ++ "_analysis")%string
                  (test_complex_agents.analysis_prompt (PStr ("ERROR" ++ t1)))
                  "complex-agent"%string w1)
    as (t2 & w2 & H2).
  destruct (Hfail ("agent_tool_" ++ PyStr.of_Z draw ++ "_main")%string
                  (test_complex_agents.main_prompt (PStr ("ERROR" ++ t1)) (PStr ("ERROR" ++ t2)))
                  "complex-agent"%string w2)
    as (t3 & w3 & H3).
  exists w3.
  rewrite (Hchain w w1 w2 w3 _ _ _ H1 H2 H3).
  rewrite (str_in_prefix "ERROR" t1). reflexivity.
Qed.

(** X12, run on three answers, the second of which mentions an error. *)
Lemma agent_as_tool_verdict_witness :
  outcome (test_complex_agents.test_agent_as_tool 12345)
          (serving [reply 200 (one_event "temperature 25, humidity 60, Tokyo");
                    reply 200 (one_event "7 (no ERROR found)");
                    reply 200 (one_event "Tokyo is warm and rather humid today.")])
  = Return false.
Proof.
  unfold outcome.
  erewrite (proj1 (agent_as_tool_verdict replay 12345)
                  (serving [reply 200 (one_event "temperature 25, humidity 60, Tokyo");
                            reply 200 (one_event "7 (no ERROR found)");
                            reply 200 (one_event "Tokyo is warm and rather humid today.")])
                  _ _ _ "temperature 25, humidity 60, Tokyo" "7 (no ERROR found)"
                  "Tokyo is warm and rather humid today." eq_refl eq_refl eq_refl).
  reflexivity.
Defined.

(** ** The suites when the server is down *)

Lemma make_request_down {E : Env} :
  no_connection ->
  forall (timeout : Z) (path method : string) (data : value) (w : World),
    exists msg w',
      harness.make_request timeout path method data w
      = (Return (0, PDict [("error", PStr msg)]), w').
Proof.
  intros Hdown timeout path method data w.
  destruct (Hdown (harness.build_request path method data) (Some timeout) w)
    as (cls & msg & w' & Hopen).
  exists msg, w'. apply (make_request_other_error _ _ _ _ _ _ _ _ Hopen).
Qed.

Lemma unreachable_no_connection : no_connection (E := unreachable).
Proof. intros req timeout w. exists URLError. eexists. exists w. reflexivity. Qed.

Lemma test_health_down {E : Env} :
  no_connection -> forall w, exists w', test_adk.test_health w = (Return false, w').
Proof.
  intros Hdown w.
  destruct (make_request_down Hdown 120 "/health" "GET" PNone w) as (msg & w' & Hcall).
  exists w'. unfold test_adk.test_health, test_adk.make_request, bind.
  rewrite Hcall. reflexivity.
Qed.

Lemma test_list_apps_down {E : Env} :
  no_connection -> forall w, exists w', test_adk.test_list_apps w = (Return false, w').
Proof.
  intros Hdown w.
  destruct (make_request_down Hdown 120 "/list-apps" "GET" PNone w) as (msg & w' & Hcall).
  exists w'. unfold test_adk.test_list_apps, test_adk.make_request, bind.
  rewrite Hcall. reflexivity.
Qed.

Lemma test_run_down {E : Env} :
  no_connection -> forall w, exists w', test_adk.test_run w = (Return false, w').
Proof.
  intros Hdown w.
  destruct (make_request_down Hdown 120 "/run" "POST" test_adk.test_run_payload w)
    as (msg & w' & Hcall).
  exists w'. unfold test_adk.test_run, test_adk.make_request. unfold bind at 1.
  rewrite Hcall. reflexivity.
Qed.

Lemma test_sessions_down {E : Env} :
  no_connection -> forall w, exists w', test_adk.test_sessions w = (Return false, w').
Proof.
  intros Hdown w.
  destruct (make_request_down Hdown 120 test_adk.sessions_path "POST" PNone w)
    as (msg & w' & Hcall).
  exists w'. unfold test_adk.test_sessions, test_adk.make_request. unfold bind at 1.
  rewrite Hcall. reflexivity.
Qed.

(** X13. With no server listening, no test of [test_adk.py] raises: each
    of the four returns [False], and the script runs all four and records
    four failures. *)
Theorem test_adk_fails_cleanly_when_server_is_down (E : Env) (w : World) :
  no_connection ->
  (exists w', test_adk.test_health w = (Return false, w'))
  /\ (exists w', test_adk.test_list_apps w = (Return false, w'))
  /\ (exists w', test_adk.test_run w = (Return false, w'))
  /\ (exists w', test_adk.test_sessions w = (Return false, w'))
  /\ (exists w', test_adk.main w
                 = (Return [("health", false); ("list_apps", false);
                            ("run", false); ("sessions", false)], w')).
Proof.
  intros Hdown.
  split; [apply (test_health_down Hdown) |].
  split; [apply (test_list_apps_down Hdown) |].
  split; [apply (test_run_down Hdown) |].
  split; [apply (test_sessions_down Hdown) |].
  destruct (test_health_down Hdown w) as (w1 & H1).
  destruct (test_list_apps_down Hdown w1) as (w2 & H2).
  destruct (test_run_down Hdown w2) as (w3 & H3).
  destruct (test_sessions_down Hdown w3) as (w4 & H4).
  exists w4. unfold test_adk.main, bind. rewrite H1, H2, H3, H4. reflexivity.
Qed.

(** X13, run with the connection refused. *)
Lemma test_adk_fails_cleanly_when_server_is_down_witness :
  exists w', test_adk.main (E := unreachable) tt
             = (Return [("health", false); ("list_apps", false);
                        ("run", false); ("sessions", false)], w').
Proof.
  exact (proj2 (proj2 (proj2 (proj2
           (test_adk_fails_cleanly_when_server_is_down
              unreachable tt unreachable_no_connection))))).
Defined.

Lemma test_assistants_down {E : Env} :
  no_connection ->
  forall w, exists w', test_assistants.test_assistants w = (Return false, w').
Proof.
  intros Hdown w.
  destruct (make_request_down Hdown 120 "/v1/assistants" "GET" PNone w)
    as (msg & w' & Hcall).
  exists w'. unfold test_assistants.test_assistants, test_assistants.make_request.
  unfold bind at 1. rewrite Hcall. reflexivity.
Qed.

Lemma test_thread_lifecycle_down {E : Env} :
  no_connection ->
  forall w, exists w', test_assistants.test_thread_lifecycle w = (Return false, w').
Proof.
  intros Hdown w.
  destruct (make_request_down Hdown 120 "/v1/threads" "POST" (PDict []) w)
    as (msg & w' & Hcall).
  exists w'. unfold test_assistants.test_thread_lifecycle, test_assistants.make_request.
  unfold bind at 1. rewrite Hcall. reflexivity.
Qed.

Lemma test_multiturn_down {E : Env} :
  no_connection ->
  forall w, test_assistants.test_multiturn w
            = (Raise (Exception KeyError "'id'"),
               snd (urlopen (harness.build_request "/v1/threads" "POST" (PDict []))
                            (Some 120) w)).
Proof.
  intros Hdown w.
  destruct (Hdown (harness.build_request "/v1/threads" "POST" (PDict [])) (Some 120) w)
    as (cls & msg & w' & Hopen).
  rewrite Hopen.
  unfold test_assistants.test_multiturn, test_assistants.make_request.
  unfold bind at 1.
  rewrite (make_request_other_error _ _ _ _ _ _ _ _ Hopen). reflexivity.
Qed.

(** X14. With no server listening, [test_assistants] and
    [test_thread_lifecycle] return [False], but [test_multiturn] does not:
    it indexes the error value with ['id'] and leaves with a [KeyError]
    after its first request.  The script therefore ends with that
    exception and builds no result table. *)
Theorem test_assistants_suite_when_server_is_down (E : Env) (w : World) :
  no_connection ->
  (exists w', test_assistants.test_assistants w = (Return false, w'))
  /\ (exists w', test_assistants.test_thread_lifecycle w = (Return false, w'))
  /\ test_assistants.test_multiturn w
     = (Raise (Exception KeyError "'id'"),
        snd (urlopen (harness.build_request "/v1/threads" "POST" (PDict []))
                     (Some 120) w))
  /\ (exists w', test_assistants.main w = (Raise (Exception KeyError "'id'"), w')).
Proof.
  intros Hdown.
  split; [apply (test_assistants_down Hdown) |].
  split; [apply (test_thread_lifecycle_down Hdown) |].
  split; [apply (test_multiturn_down Hdown) |].
  destruct (test_assistants_down Hdown w) as (w1 & H1).
  destruct (test_thread_lifecycle_down Hdown w1) as (w2 & H2).
  eexists. unfold test_assistants.main, bind.
  rewrite H1, H2, (test_multiturn_down Hdown w2). reflexivity.
Qed.

(** X14, run with the connection refused. *)
Lemma test_assistants_suite_when_server_is_down_witness :
  test_assistants.test_multiturn (E := unreachable) tt
  = (Raise (Exception KeyError "'id'"), tt).
Proof.
  exact (proj1 (proj2 (proj2 (test_assistants_suite_when_server_is_down
                                unreachable tt unreachable_no_connection)))).
Defined.

(** A refused connection makes every turn of [test_complex_agents.py] fail. *)
Lemma turns_fail_when_down {E : Env} : no_connection -> every_turn_fails.
Proof.
  intros Hdown session_id message app_name w.
  destruct (make_request_down Hdown 120 "/run" "POST"
                              (run_payload app_name "test-user" session_id message) w)
    as (msg & w' & Hcall).
  exists (": status=" ++ PyStr.of_Z 0 ++ ", response="
          ++ py_str (PDict [("error", PStr msg)]))%string, w'.
  unfold test_complex_agents.run_turn, test_complex_agents.make_request.
  unfold bind at 1. rewrite Hcall. reflexivity.
Qed.

(** ** [test_thread_lifecycle] and [test_sessions] after a failed creation *)

(** X15. After the creation request, [test_thread_lifecycle] and
    [test_sessions] of [test_adk.py] send nothing more unless it gave
    status 201.  When [make_request] returns another status they return
    [False] ([test_sessions] for a body that is a JSON object; for any
    other body its first print raises [AttributeError]); when
    [make_request] raises, as it does on an answer with an error status
    whose body is not empty and not JSON, they raise the same exception.
    In each case the world is left as the creation request left it, so no
    message, run, lookup or delete request is sent. *)
Theorem lifecycle_tests_stop_after_failed_creation (E : Env) (w w' : World) :
  (forall (st : Z) (created : value),
      st <> 201 ->
      test_assistants.make_request "/v1/threads" "POST" (PDict []) w
        = (Return (st, created), w') ->
      test_assistants.test_thread_lifecycle w = (Return false, w'))
  /\ (forall (st : Z) (fields : list (string * value)),
         st <> 201 ->
         test_adk.make_request test_adk.sessions_path "POST" PNone w
           = (Return (st, PDict fields), w') ->
         test_adk.test_sessions w = (Return false, w'))
  /\ (forall e,
         test_assistants.make_request "/v1/threads" "POST" (PDict []) w = (Raise e, w') ->
         test_assistants.test_thread_lifecycle w = (Raise e, w'))
  /\ (forall e,
         test_adk.make_request test_adk.sessions_path "POST" PNone w = (Raise e, w') ->
         test_adk.test_sessions w = (Raise e, w'))
  /\ (forall (st : Z) (created : value),
         test_adk.make_request test_adk.sessions_path "POST" PNone w
           = (Return (st, created), w') ->
         (forall fields, created <> PDict fields) ->
         test_adk.test_sessions w = (Raise (PyVal.no_attribute created "get"), w'))
  /\ (forall (code : Z) (reason : string) (pieces : list chunk) (body msg : string),
         read_all pieces = Return body -> body <> ""%string ->
         json_loads body = inr msg ->
         (urlopen (harness.build_request "/v1/threads" "POST" (PDict [])) (Some 120) w
            = (Raise (HTTPError code reason pieces), w') ->
          test_assistants.test_thread_lifecycle w
          = (Raise (Exception JSONDecodeError msg), w'))
         /\ (urlopen (harness.build_request test_adk.sessions_path "POST" PNone)
                     (Some 120) w
               = (Raise (HTTPError code reason pieces), w') ->
             test_adk.test_sessions w = (Raise (Exception JSONDecodeError msg), w'))).
Proof.
  assert (Hneq : forall st, st <> 201 -> negb (st =? 201) = true).
  { intros st Hst. destruct (Z.eqb_spec st 201); [contradiction | reflexivity]. }
  assert (H3 : forall e,
             test_assistants.make_request "/v1/threads" "POST" (PDict []) w
               = (Raise e, w') ->
             test_assistants.test_thread_lifecycle w = (Raise e, w')).
  { intros e Hcall. unfold test_assistants.test_thread_lifecycle.
    apply (bind_raises _ _ _ _ _ Hcall). }
  assert (H4 : forall e,
             test_adk.make_request test_adk.sessions_path "POST" PNone w
               = (Raise e, w') ->
             test_adk.test_sessions w = (Raise e, w')).
  { intros e Hcall. unfold test_adk.test_sessions.
    apply (bind_raises _ _ _ _ _ Hcall). }
  split; [| split; [| split; [exact H3 | split; [exact H4 | split]]]].
  - intros st created Hst Hcall. unfold test_assistants.test_thread_lifecycle.
    unfold bind at 1. rewrite Hcall, (Hneq st Hst). reflexivity.
  - intros st fields Hst Hcall. unfold test_adk.test_sessions.
    unfold bind at 1. rewrite Hcall, (Hneq st Hst). rewrite bind_lift.
    cbn [PyVal.get]. destruct (PyVal.assoc "id" fields); reflexivity.
  - intros st created Hcall Hnot. unfold test_adk.test_sessions.
    rewrite (bind_step _ _ _ _ _ Hcall). rewrite bind_lift.
    destruct created as [| | | | | | fields]; try reflexivity.
    exfalso. apply (Hnot fields). reflexivity.
  - intros code reason pieces body msg Hread Hne Hjson. split; intros Hopen.
    + apply H3.
      apply (make_request_bad_error_body _ _ _ _ _ _ _ _ _ _ _ Hopen Hread Hne Hjson).
    + apply H4.
      apply (make_request_bad_error_body _ _ _ _ _ _ _ _ _ _ _ Hopen Hread Hne Hjson).
Qed.

(** X15, run on a server that answers the creation with 500, and on one
    that answers it with a 502 page. *)
Lemma lifecycle_tests_stop_after_failed_creation_witness :
  test_assistants.test_thread_lifecycle (E := replay)
    (serving [reply 500 "{}"; reply 200 "{}"])
  = (Return false,
     mkWorld [reply 200 "{}"] []
             [harness.build_request (E := replay) "/v1/threads" "POST" (PDict [])])
  /\ test_assistants.test_thread_lifecycle (E := replay)
       (serving [http_error 502 "Bad Gateway" "<html>Bad Gateway</html>"; reply 200 "{}"])
     = (Raise (Exception JSONDecodeError "Expecting value"),
        mkWorld [reply 200 "{}"] []
                [harness.build_request (E := replay) "/v1/threads" "POST" (PDict [])]).
Proof.
  split.
  - apply (proj1 (lifecycle_tests_stop_after_failed_creation
                    replay (serving [reply 500 "{}"; reply 200 "{}"]) _)
                 500 (PDict []) ltac:(discriminate)).
    reflexivity.
  - apply (proj1 (proj2 (proj2 (proj2 (proj2 (proj2
             (lifecycle_tests_stop_after_failed_creation
                replay
                (serving [http_error 502 "Bad Gateway" "<html>Bad Gateway</html>";
                          reply 200 "{}"]) _)))))
                  502 "Bad Gateway" [ReadOk "<html>Bad Gateway</html>"]
                  "<html>Bad Gateway</html>" "Expecting value"
                  eq_refl ltac:(discriminate) ltac:(vm_compute; reflexivity))).
    reflexivity.
Defined.

(** ** [test_multiple_sessions] *)

Lemma ask_problems_step {E : Env} (i d : Z) (question : string) (expected : Z)
      (rest : list (string * Z)) (draws : list Z)
      (sessions : list (string * Z)) (results : list (string * bool))
      (w w' : World) (answer : string) :
  test_sessions.run_turn ("multi_session_" ++ PyStr.of_Z i ++ "_" ++ PyStr.of_Z d)
                         question 1 w
    = (Return (PStr answer), w') ->
  test_sessions.ask_problems i ((question, expected) :: rest) (d :: draws)
                             sessions results w
  = test_sessions.ask_problems (i + 1) rest draws
      (test_sessions.dict_put
         ("multi_session_" ++ PyStr.of_Z i ++ "_" ++ PyStr.of_Z d) expected sessions)
      (test_sessions.dict_put
         ("multi_session_" ++ PyStr.of_Z i ++ "_" ++ PyStr.of_Z d)
         (PyStr.str_in (PyStr.of_Z expected) answer) results)
      w'.
Proof.
  intros Hturn. cbn [test_sessions.ask_problems tl].
  unfold bind at 1. rewrite Hturn. rewrite bind_lift. cbn [PyVal.slice_to].
  rewrite bind_lift. reflexivity.
Qed.

Lemma recall_problems_step {E : Env} (session_id : string) (expected : Z)
      (rest : list (string * Z)) (results : list (string * bool))
      (w w' : World) (answer : string) :
  test_sessions.run_turn session_id "What was my question and your answer?" 2 w
    = (Return (PStr answer), w') ->
  test_sessions.recall_problems ((session_id, expected) :: rest) results w
  = test_sessions.recall_problems rest
      (test_sessions.dict_put session_id
         (test_sessions.dict_at session_id results
          && PyStr.str_in (PyStr.of_Z expected) answer)
         results)
      w'.
Proof.
  intros Hturn. cbn [test_sessions.recall_problems].
  unfold bind at 1. rewrite Hturn. rewrite bind_lift. cbn [PyVal.slice_to].
  rewrite bind_lift. reflexivity.
Qed.

(** X16. [test_multiple_sessions] passes exactly when each of its three
    sessions gave the expected number in its answer and again in its
    recall: 25, 15 and 25, looked for as a substring of the text.  The
    three session ids differ in their index, whatever the random draws, so
    no result overwrites another. *)
Theorem multiple_sessions_verdict
        (E : Env) (d0 d1 d2 : Z) (w0 w1 w2 w3 w4 w5 w6 : World)
        (r0 r1 r2 q0 q1 q2 : string) :
  test_sessions.run_turn ("multi_session_" ++ PyStr.of_Z 0 ++ "_" ++ PyStr.of_Z d0)
                         "What is 5 * 5?" 1 w0
    = (Return (PStr r0), w1) ->
  test_sessions.run_turn ("multi_session_" ++ PyStr.of_Z 1 ++ "_" ++ PyStr.of_Z d1)
                         "What is 7 + 8?" 1 w1
    = (Return (PStr r1), w2) ->
  test_sessions.run_turn ("multi_session_" ++ PyStr.of_Z 2 ++ "_" ++ PyStr.of_Z d2)
                         "What is 100 / 4?" 1 w2
    = (Return (PStr r2), w3) ->
  test_sessions.run_turn ("multi_session_" ++ PyStr.of_Z 0 ++ "_" ++ PyStr.of_Z d0)
                         "What was my question and your answer?" 2 w3
    = (Return (PStr q0), w4) ->
  test_sessions.run_turn ("multi_session_" ++ PyStr.of_Z 1 ++ "_" ++ PyStr.of_Z d1)
                         "What was my question and your answer?" 2 w4
    = (Return (PStr q1), w5) ->
  test_sessions.run_turn ("multi_session_" ++ PyStr.of_Z 2 ++ "_" ++ PyStr.of_Z d2)
                         "What was my question and your answer?" 2 w5
    = (Return (PStr q2), w6) ->
  test_sessions.test_multiple_sessions [d0; d1; d2] w0
  = (Return (PyStr.str_in "25" r0 && PyStr.str_in "25" q0
             && PyStr.str_in "15" r1 && PyStr.str_in "15" q1
             && PyStr.str_in "25" r2 && PyStr.str_in "25" q2), w6).
Proof.
  intros Ha0 Ha1 Ha2 Hq0 Hq1 Hq2.
  set (id0 := ("multi_session_" ++ PyStr.of_Z 0 ++ "_" ++ PyStr.of_Z d0)%string) in *.
  set (id1 := ("multi_session_" ++ PyStr.of_Z 1 ++ "_" ++ PyStr.of_Z d1)%string) in *.
  set (id2 := ("multi_session_" ++ PyStr.of_Z 2 ++ "_" ++ PyStr.of_Z d2)%string) in *.
  assert (H01 : (id0 =? id1)%string = false) by reflexivity.
  assert (H02 : (id0 =? id2)%string = false) by reflexivity.
  assert (H12 : (id1 =? id2)%string = false) by reflexivity.
  assert (Hask :
    test_sessions.ask_problems 0 test_sessions.problems [d0; d1; d2] [] [] w0
    = (Return ([(id0, 25); (id1, 15); (id2, 25)],
               [(id0, PyStr.str_in "25" r0); (id1, PyStr.str_in "15" r1);
                (id2, PyStr.str_in "25" r2)]), w3)).
  { unfold test_sessions.problems.
    etransitivity; [apply (ask_problems_step 0 d0 _ _ _ _ _ _ _ _ _ Ha0) |].
    etransitivity; [apply (ask_problems_step 1 d1 _ _ _ _ _ _ _ _ _ Ha1) |].
    etransitivity; [apply (ask_problems_step 2 d2 _ _ _ _ _ _ _ _ _ Ha2) |].
    fold id0 id1 id2.
    cbn [test_sessions.ask_problems test_sessions.dict_put].
    rewrite H01. cbn [test_sessions.dict_put].
    rewrite H02, H12. reflexivity. }
  assert (Hrecall :
    test_sessions.recall_problems
      [(id0, 25); (id1, 15); (id2, 25)]
      [(id0, PyStr.str_in "25" r0); (id1, PyStr.str_in "15" r1);
       (id2, PyStr.str_in "25" r2)] w3
    = (Return [(id0, PyStr.str_in "25" r0 && PyStr.str_in "25" q0);
               (id1, PyStr.str_in "15" r1 && PyStr.str_in "15" q1);
               (id2, PyStr.str_in "25" r2 && PyStr.str_in "25" q2)], w6)).
  { etransitivity; [apply (recall_problems_step _ _ _ _ _ _ _ Hq0) |].
    cbn [test_sessions.dict_put test_sessions.dict_at].
    rewrite !String.eqb_refl.
    etransitivity; [apply (recall_problems_step _ _ _ _ _ _ _ Hq1) |].
    cbn [test_sessions.dict_put test_sessions.dict_at].
    rewrite !H01, !String.eqb_refl.
    etransitivity; [apply (recall_problems_step _ _ _ _ _ _ _ Hq2) |].
    cbn [test_sessions.dict_put test_sessions.dict_at].
    rewrite !H02, !H12, !String.eqb_refl.
    reflexivity. }
  unfold test_sessions.test_multiple_sessions.
  unfold bind at 1. rewrite Hask. cbv beta iota.
  unfold bind at 1. rewrite Hrecall.
  unfold ret. cbn [filter snd List.length].
  destruct (PyStr.str_in "25" r0), (PyStr.str_in "25" q0),
           (PyStr.str_in "15" r1), (PyStr.str_in "15" q1),
           (PyStr.str_in "25" r2), (PyStr.str_in "25" q2); reflexivity.
Qed.

(** X16, run on three right answers and a third session that forgot. *)
Lemma multiple_sessions_verdict_witness :
  outcome (test_sessions.test_multiple_sessions [1111; 2222; 3333])
          (serving [reply 200 (one_event "25"); reply 200 (one_event "15");
                    reply 200 (one_event "25");
                    reply 200 (one_event "You asked 5 * 5, I said 25.");
                    reply 200 (one_event "You asked 7 + 8, I said 15.");
                    reply 200 (one_event "I do not remember.")])
  = Return false.
Proof.
  unfold outcome.
  erewrite (multiple_sessions_verdict
              replay 1111 2222 3333
              (serving [reply 200 (one_event "25"); reply 200 (one_event "15");
                        reply 200 (one_event "25");
                        reply 200 (one_event "You asked 5 * 5, I said 25.");
                        reply 200 (one_event "You asked 7 + 8, I said 15.");
                        reply 200 (one_event "I do not remember.")])
              _ _ _ _ _ _ "25" "15" "25"
              "You asked 5 * 5, I said 25." "You asked 7 + 8, I said 15."
              "I do not remember."
              eq_refl eq_refl eq_refl eq_refl eq_refl eq_refl).
  reflexivity.
Defined.

(** ** A score written as a fraction *)

Lemma digits_value_grows (s : string) :
  forall acc, ascii_digits s = true -> 0 <= acc ->
              exists v, PyStr.digits_value acc s = Some v /\ acc <= v.
Proof.
  induction s as [| c s IH]; intros acc Hall Hacc.
  - exists acc. split; [reflexivity | lia].
  - cbn [ascii_digits] in Hall. apply andb_prop in Hall as [Hc Hs].
    cbn [PyStr.digits_value]. rewrite Hc.
    destruct (IH (10 * acc + Z.of_nat (nat_of_ascii c - 48)) Hs) as (v & Hv & Hle);
      [lia |].
    exists v. split; [exact Hv | lia].
Qed.

Lemma leading_digit_positive (c : ascii) :
  PyStr.is_ascii_digit c = true -> c <> "0"%char ->
  1 <= Z.of_nat (nat_of_ascii c - 48).
Proof.
  intros Hdigit Hnot. unfold PyStr.is_ascii_digit in Hdigit.
  apply andb_prop in Hdigit as [Hlow _]. apply Nat.leb_le in Hlow.
  assert (nat_of_ascii c <> 48)%nat.
  { intros Heq. apply Hnot. rewrite <- (ascii_nat_embedding c), Heq. reflexivity. }
  lia.
Qed.

Lemma extract_score_of_joined_digits (text : string) (a b : ascii) (more : string) :
  PyStr.filter_digits (PyStr.take 5 text) = String a (String b more) ->
  ascii_digits (String a (String b more)) = true ->
  a <> "0"%char ->
  test_complex_agents.extract_score (PStr text) = 10.
Proof.
  intros Hdigits Hall Hlead.
  unfold test_complex_agents.extract_score.
  change (rbind (PyVal.slice_to (PStr text) 5)
                (fun head => rbind (test_complex_agents.join_digits head)
                                   test_complex_agents.to_int))
    with (test_complex_agents.to_int (PyStr.filter_digits (PyStr.take 5 text))).
  rewrite Hdigits. unfold test_complex_agents.to_int, PyStr.int_of_digits.
  cbn [ascii_digits] in Hall.
  apply andb_prop in Hall as [Ha Hall]. apply andb_prop in Hall as [Hb Hmore].
  cbn [PyStr.digits_value]. rewrite Ha, Hb.
  pose proof (leading_digit_positive a Ha Hlead) as Hpos.
  destruct (digits_value_grows more
              (10 * (10 * 0 + Z.of_nat (nat_of_ascii a - 48))
               + Z.of_nat (nat_of_ascii b - 48)) Hmore) as (v & Hv & Hle); [lia |].
  rewrite Hv. lia.
Qed.

(** X17. The digits among the first five characters of the evaluator's
    reply are joined before they are read as a number, so a reply that
    writes its score as a fraction or a decimal ("3/10", "6.5") scores 10:
    with two or more ASCII digits there, the first not 0, [extract_score]
    gives 10, the loop ends after the first evaluation without a
    refinement turn, and [test_loop_agent] passes. *)
Theorem loop_agent_reads_a_fraction_as_ten
        (E : Env) (draw : Z) (w w1 w2 : World) (draft reply : string)
        (a b : ascii) (more : string) :
  test_complex_agents.run_turn ("loop_" ++ PyStr.of_Z draw ++ "_gen")
    test_complex_agents.gen_prompt "complex-agent" w
    = (Return (PStr draft), w1) ->
  test_complex_agents.run_turn ("loop_" ++ PyStr.of_Z draw ++ "_eval_" ++ PyStr.of_Z 0)
    (test_complex_agents.eval_prompt (PStr draft)) "complex-agent" w1
    = (Return (PStr reply), w2) ->
  PyStr.filter_digits (PyStr.take 5 reply) = String a (String b more) ->
  ascii_digits (String a (String b more)) = true ->
  a <> "0"%char ->
  test_complex_agents.extract_score (PStr reply) = 10
  /\ test_complex_agents.loop_agent draw w = (Return (10, true), w2)
  /\ test_complex_agents.test_loop_agent draw w = (Return true, w2).
Proof.
  intros Hgen Heval Hdigits Hall Hlead.
  pose proof (extract_score_of_joined_digits reply a b more Hdigits Hall Hlead) as Hscore.
  assert (Hloop : test_complex_agents.loop_agent draw w = (Return (10, true), w2)).
  { unfold test_complex_agents.loop_agent.
    unfold bind at 1.
    change (("loop_" ++ PyStr.of_Z draw) ++ "_gen")%string
      with ("loop_" ++ PyStr.of_Z draw ++ "_gen")%string.
    rewrite Hgen. rewrite bind_lift. cbn [PyVal.slice_to].
    cbn [test_complex_agents.refine].
    unfold bind at 1. unfold bind at 1.
    change (("loop_" ++ PyStr.of_Z draw) ++ "_eval_" ++ PyStr.of_Z 0)%string
      with ("loop_" ++ PyStr.of_Z draw ++ "_eval_" ++ PyStr.of_Z 0)%string.
    rewrite Heval, Hscore. reflexivity. }
  split; [exact Hscore |]. split; [exact Hloop |].
  unfold test_complex_agents.test_loop_agent, bind. rewrite Hloop. reflexivity.
Qed.

(** X17, run on an evaluator that answers "3/10". *)
Lemma loop_agent_reads_a_fraction_as_ten_witness :
  outcome (test_complex_agents.test_loop_agent 12345)
          (serving [reply 200 (one_event "A bottle."); reply 200 (one_event "3/10")])
  = Return true.
Proof.
  unfold outcome.
  rewrite (proj2 (proj2 (loop_agent_reads_a_fraction_as_ten
                           replay 12345
                           (serving [reply 200 (one_event "A bottle.");
                                     reply 200 (one_event "3/10")])
                           _ _ "A bottle." "3/10" "3"%char "1"%char "0"
                           eq_refl eq_refl eq_refl eq_refl ltac:(discriminate)))).
  reflexivity.
Defined.
